(** * ASTRA-CARE: the client-side data-sync and view-routing layer

    A shallow embedding of the two dashboard variants of the repository,
    [src/frontend/src/App.js] (module [Frontend]) and [src/unnamed/part_000]
    (module [Unnamed]), and the properties of the specification stated on it.

    Conventions of the embedding.
    - A JavaScript value that may be [null] or [undefined] is an [option];
      an object whose fields the code reads is a [Record]; payloads the client
      only stores and renders are kept abstract as [json].
    - Effectful code runs in a state-and-exception monad: gateway code
      ([M]) threads the [world] (the [api] object's token, [localStorage],
      and the trace of observable steps), component code ([C]) threads its
      React state next to the world; both complete normally or with a thrown
      value.
    - What the network, the camera and [Math.random] answer is not decided by
      the client: every such answer is an argument of the embedded function.
    - Numbers that the program computes with ([Math.random], the scan fields,
      the wellness score) are exact rationals: rounding of IEEE doubles is
      not modelled.
    - A JavaScript string is held as the bytes of its UTF-8 encoding, so
      that [trim] strips every white-space code point of the language and
      not only those of ASCII. *)

From Stdlib Require Import ZArith NArith QArith Qround Qabs String Ascii List Lia
  Lqa.
From stdpp Require Import base option list gmap strings pretty.

Close Scope Q_scope.
Local Open Scope string_scope.

(** ** JavaScript helpers *)

Module Js.

(** Text. A [string] holds a JavaScript string as the bytes of its UTF-8
    encoding, so that every code point can occur in a message.
    Concatenation, equality and emptiness of a text are those of its
    bytes. *)

(** The UTF-8 encoding of a code point below U+10000: one byte below
    U+0080, two below U+0800, three otherwise. *)
Definition utf8_encode (cp : N) : string :=
  let byte n := String (ascii_of_N n) EmptyString in
  if (cp <? 0x80)%N then byte cp
  else if (cp <? 0x800)%N
       then byte (0xC0 + cp / 0x40)%N ++ byte (0x80 + cp mod 0x40)%N
       else byte (0xE0 + cp / 0x1000)%N
            ++ byte (0x80 + (cp / 0x40) mod 0x40)%N
            ++ byte (0x80 + cp mod 0x40)%N.

(** The text made of the code points [cps]. *)
Definition utf8 (cps : list N) : string :=
  foldr (λ cp s, utf8_encode cp ++ s) EmptyString cps.

(** What [String.prototype.trim] strips: the WhiteSpace and
    LineTerminator code points of ECMA-262 (TAB, LF, VT, FF, CR, SPACE,
    NO-BREAK SPACE, the other space separators of Unicode, LINE and
    PARAGRAPH SEPARATOR, and ZERO WIDTH NO-BREAK SPACE). *)
Definition white_space : list N :=
  [0x9; 0xA; 0xB; 0xC; 0xD; 0x20; 0xA0; 0x1680;
   0x2000; 0x2001; 0x2002; 0x2003; 0x2004; 0x2005; 0x2006; 0x2007; 0x2008;
   0x2009; 0x200A; 0x2028; 0x2029; 0x202F; 0x205F; 0x3000; 0xFEFF]%N.

(** The same code points on the bytes: those of one byte, *)
Definition is_white_space (c : ascii) : bool :=
  let n := N_of_ascii c in
  ((0x9 <=? n) && (n <=? 0xD) || (n =? 0x20))%N.

(** of two bytes (U+00A0 is C2 A0), *)
Definition is_white_space2 (c1 c2 : ascii) : bool :=
  ((N_of_ascii c1 =? 0xC2) && (N_of_ascii c2 =? 0xA0))%N.

(** and of three bytes (U+1680 is E1 9A 80; U+2000 to U+200A, U+2028,
    U+2029 and U+202F are E2 80 followed by 80 to 8A, A8, A9 and AF;
    U+205F is E2 81 9F; U+3000 is E3 80 80; U+FEFF is EF BB BF). *)
Definition is_white_space3 (c1 c2 c3 : ascii) : bool :=
  let a := N_of_ascii c1 in
  let b := N_of_ascii c2 in
  let c := N_of_ascii c3 in
  ((a =? 0xE1) && (b =? 0x9A) && (c =? 0x80)
   || (a =? 0xE2) && (b =? 0x80)
      && ((0x80 <=? c) && (c <=? 0x8A) || (c =? 0xA8) || (c =? 0xA9)
          || (c =? 0xAF))
   || (a =? 0xE2) && (b =? 0x81) && (c =? 0x9F)
   || (a =? 0xE3) && (b =? 0x80) && (c =? 0x80)
   || (a =? 0xEF) && (b =? 0xBB) && (c =? 0xBF))%N.

(** Strip the white space a text starts with. With [backwards] the bytes
    are those of the reversed text, in which the bytes of every code point
    come last byte first. *)
Fixpoint strip_white_space (backwards : bool) (s : string) : string :=
  match s with
  | EmptyString => EmptyString
  | String c1 s1 =>
      if is_white_space c1 then strip_white_space backwards s1
      else
        match s1 with
        | EmptyString => s
        | String c2 s2 =>
            if (if backwards then is_white_space2 c2 c1
                else is_white_space2 c1 c2)
            then strip_white_space backwards s2
            else
              match s2 with
              | EmptyString => s
              | String c3 s3 =>
                  if (if backwards then is_white_space3 c3 c2 c1
                      else is_white_space3 c1 c2 c3)
                  then strip_white_space backwards s3
                  else s
              end
        end
  end.

Definition trimStart (s : string) : string := strip_white_space false s.

Definition trimEnd (s : string) : string :=
  String.rev (strip_white_space true (String.rev s)).

(** [String.prototype.trim] *)
Definition trim (s : string) : string := trimEnd (trimStart s).

(** ToBoolean on a string: only the empty string is falsy. *)
Definition truthy_string (s : string) : bool :=
  match s with
  | EmptyString => false
  | String _ _ => true
  end.

(** ToBoolean on a string that may be [null]/[undefined]. *)
Definition truthy (o : option string) : bool :=
  match o with
  | Some s => truthy_string s
  | None => false
  end.

(** [a || b] on possibly absent strings. *)
Definition or_else (o : option string) (d : string) : string :=
  match o with
  | Some s => if truthy_string s then s else d
  | None => d
  end.

(** [xs || []] : an absent array is replaced, any array (also the empty
    one) is truthy and kept. *)
Definition or_empty {A} (o : option (list A)) : list A :=
  match o with
  | Some l => l
  | None => []
  end.

(** [Array.prototype.slice(0, -1)]: all but the last element; the empty
    array stays empty. *)
Definition slice_0_m1 {A} (l : list A) : list A :=
  take (length l - 1) l.

(** [Math.round]: the nearest integer, halves towards +infinity. *)
Definition Math_round (q : Q) : Z := Qfloor (q + (1 # 2))%Q.

(** [Math.floor]. *)
Definition Math_floor (q : Q) : Z := Qfloor q.

(** [Math.abs]. *)
Definition Math_abs (q : Q) : Q := Qabs q.

End Js.

(** Payloads that the client stores and renders without looking inside. *)
#[warnings="-register-all"]
Inductive json : Type :=
| JNull
| JBool (b : bool)
| JNum (q : Q)
| JStr (s : string)
| JArr (items : list json)
| JObj (fields : list (string * json)).

(** ** Worlds, observable steps and the effect monad *)

(** What an [await]ed call may throw. *)
Inductive thrown : Type :=
| ApiError (status : Z)      (* new Error(`API Error: ${response.status}`) *)
| FetchRejected              (* the network call itself rejected *)
| JsonRejected               (* response.json() rejected *)
| TypeError.                 (* property read on null *)

(** The bodies handed to [JSON.stringify], before serialisation. *)
Inductive payload : Type :=
| LoginBody (email password : string)
| ChatBody (astronaut_id message : string)
| FacialBody (astronaut_id : string) (fields : json).

Record request : Type := mkRequest {
  url : string;
  method : option string;
  body : option payload;
  headers : gmap string string
}.

(** The [options] argument of [api.fetch]. *)
Record request_init : Type := mkInit {
  opt_method : option string;
  opt_body : option payload;
  opt_headers : gmap string string
}.

Definition no_options : request_init :=
  {| opt_method := None; opt_body := None; opt_headers := ∅ |}.

Definition post (b : payload) : request_init :=
  {| opt_method := Some "POST"; opt_body := Some b; opt_headers := ∅ |}.

(** What the backend answers to one request. [body = None] is a body that
    is not JSON. *)
Inductive reply (A : Type) : Type :=
| NetworkFailure
| HttpResponse (status : Z) (body : option A).
Arguments NetworkFailure {A}.
Arguments HttpResponse {A} status body.

(** [response.ok] *)
Definition ok (status : Z) : bool := (200 <=? status)%Z && (status <=? 299)%Z.

Inductive event : Type :=
| NetRequest (r : request)
| SetItem (key value : string)
| RemoveItem (key : string)
| Reload
| ConsoleError (what : string)
| Thrown (e : thrown).

Record world : Type := mkWorld {
  REACT_APP_BACKEND_URL : option string;   (* process.env *)
  api_token : option string;               (* api.token (part_000 only) *)
  localStorage : gmap string string;
  trace : list event                       (* oldest step first *)
}.

Definition BACKEND_URL (w : world) : string :=
  Js.or_else (REACT_APP_BACKEND_URL w) "http://localhost:8001".

Inductive completion (A : Type) : Type :=
| Normal (a : A)
| Throw (e : thrown).
Arguments Normal {A} a.
Arguments Throw {A} e.

(** Code that runs on a state [S]: it ends in a new state and completes
    normally or abruptly. What was written before a throw stays written. *)
Definition St (S A : Type) : Type := S → S * completion A.

#[export] Instance St_ret {S} : MRet (St S) := λ A a s, (s, Normal a).

#[export] Instance St_bind {S} : MBind (St S) := λ A B f m s,
  match m s with
  | (s', Normal a) => f a s'
  | (s', Throw e) => (s', Throw e)
  end.

(** Gateway code runs on the world alone. *)
Definition M (A : Type) : Type := St world A.

#[export] Instance M_ret : MRet M := @St_ret world.

#[export] Instance M_bind : MBind M := @St_bind world.

(** Component code runs on its React state [S] and the world. *)
Definition C (S A : Type) : Type := St (S * world) A.

#[export] Instance C_ret {S} : MRet (C S) := @St_ret (S * world).

#[export] Instance C_bind {S} : MBind (C S) := @St_bind (S * world).

(** A gateway call made by a component. *)
Definition call {S A} (m : M A) : C S A := λ sw,
  match m sw.2 with
  | (w', r) => ((sw.1, w'), r)
  end.

(** A state setter, [setX(v)] or [setX(prev => f prev)]. *)
Definition set_state {S} (f : S → S) : C S unit := λ sw,
  ((f sw.1, sw.2), Normal tt).

Definition emit (e : event) : M unit := λ w,
  ({| REACT_APP_BACKEND_URL := REACT_APP_BACKEND_URL w;
      api_token := api_token w;
      localStorage := localStorage w;
      trace := trace w ++ [e] |}, Normal tt).

(** [throw e]: the step is recorded, then the computation completes
    abruptly. *)
Definition throw {A} (e : thrown) : M A := λ w,
  match emit (Thrown e) w with
  | (w', _) => (w', Throw e)
  end.

(** [try { c } catch (err) { h err }] *)
Definition try_catch {S A} (c : St S A) (h : thrown → St S A) : St S A := λ s,
  match c s with
  | (s', Normal a) => (s', Normal a)
  | (s', Throw e) => h e s'
  end.

Definition get_world : M world := λ w, (w, Normal w).

Definition console_error (what : string) : M unit := emit (ConsoleError what).

Definition window_location_reload : M unit := emit Reload.

Definition localStorage_setItem (k v : string) : M unit := λ w,
  emit (SetItem k v)
    {| REACT_APP_BACKEND_URL := REACT_APP_BACKEND_URL w;
       api_token := api_token w;
       localStorage := <[k := v]> (localStorage w);
       trace := trace w |}.

Definition localStorage_removeItem (k : string) : M unit := λ w,
  emit (RemoveItem k)
    {| REACT_APP_BACKEND_URL := REACT_APP_BACKEND_URL w;
       api_token := api_token w;
       localStorage := delete k (localStorage w);
       trace := trace w |}.

(** The browser's [fetch(url, init)] followed by the read of the status:
    the request leaves, and the backend's answer (an argument) comes back. *)
Definition browser_fetch {A} (r : request) (ans : reply A)
  : M (Z * option A) := λ w,
  match emit (NetRequest r) w with
  | (w', _) =>
      match ans with
      | NetworkFailure => (w', Throw FetchRejected)
      | HttpResponse status body => (w', Normal (status, body))
      end
  end.

(** [response.json()] *)
Definition response_json {A} (body : option A) : M A := λ w,
  match body with
  | Some a => (w, Normal a)
  | None => (w, Throw JsonRejected)
  end.

(** A runtime error (no [throw] statement of the program). *)
Definition raise {S A} (e : thrown) : St S A := λ s, (s, Throw e).

(** [o.field] where [o] may be [null]: reading a property of [null] raises
    a TypeError. *)
Definition read {S A B} (o : option A) (field : A → B) : St S B :=
  match o with
  | Some a => mret (field a)
  | None => raise TypeError
  end.

(** A gateway call fails when the network call rejects, the status is not
    2xx, or the body is not JSON. *)
Definition fails {A} (ans : reply A) : bool :=
  match ans with
  | NetworkFailure => true
  | HttpResponse status body =>
      negb (ok status) || match body with Some _ => false | None => true end
  end.

(** What a call that does not fail resolves with. *)
Definition payload_of {A} (ans : reply A) : option A :=
  match ans with
  | NetworkFailure => None
  | HttpResponse status body => if ok status then body else None
  end.

(** ** Data shared by the two variants *)

(** One entry of the chat history. [assistant_response = None] is the
    [null] of a pending exchange. *)
Record chat_exchange : Type := mkExchange {
  id : json;
  user_message : string;
  assistant_response : option string;
  timestamp : string
}.

(** The object [POST /chat/send] answers with: [{response, message_id}]. *)
Record chat_result : Type := mkChatResult {
  response : string;
  message_id : json
}.

(** The object [GET /chat/history/{id}] answers with. *)
Record history_result : Type := mkHistory {
  history : option (list chat_exchange)
}.

Module Health.

Record validation_info : Type := mkValidation {
  adjusted_confidence : option Q
}.

(** The latest-vitals object, with the fields the dashboards compute
    on. *)
Record record : Type := mkHealth {
  heart_rate : Q;
  hrv : Q;
  stress_level : Q;
  fatigue_level : Q;
  validation : option validation_info
}.

End Health.

(** ToBoolean on a stored payload: [null], [false], [0] and the empty string
    are falsy; arrays and objects are truthy. *)
Definition truthy_json (j : json) : bool :=
  match j with
  | JNull => false
  | JBool b => b
  | JNum q => negb (Qeq_bool q 0)
  | JStr s => Js.truthy_string s
  | JArr _ => true
  | JObj _ => true
  end.

Definition truthy_opt_json (o : option json) : bool :=
  match o with
  | Some j => truthy_json j
  | None => false
  end.

(** [q > c] on numbers. *)
Definition gt (q c : Q) : bool := negb (Qle_bool q c).

(** ToBoolean on a number that may be absent: [undefined] and [0] are
    falsy. *)
Definition truthy_number (o : option Q) : bool :=
  match o with
  | Some q => negb (Qeq_bool q 0)
  | None => false
  end.

(** [Math.random()] is called once per field, in source order: [rand i] is
    what the [i]-th call of one scan returns. *)
Definition random_source : Type := nat → Q.

(** The range of [Math.random]: 0 inclusive, 1 exclusive. *)
Definition unit_interval (rand : random_source) : Prop :=
  ∀ i, (0 <= rand i)%Q ∧ (rand i < 1)%Q.

(** [arr[Math.floor(r * n)]]: [undefined] outside the array. *)
Definition pick (arr : list string) (r : Q) : option string :=
  let i := Js.Math_floor (r * inject_Z (Z.of_nat (length arr)))%Q in
  if (i <? 0)%Z then None else arr !! Z.to_nat i.

(** [r > c ? a : b] *)
Definition if_gt (r c : Q) (a b : string) : string :=
  if gt r c then a else b.

(** ** The camera and the scan component

    [FacialScan] (App.js, lines 781-814 and 956) and [BiometricScan]
    (part_000, lines 901-923 and 1019) hold the same state and run the same
    camera code; they differ in the error text and in the result bundle
    [R]. *)

Module Scan.

(** A [MediaStream]: its tracks, by identifier. *)
Record media_stream : Type := mkStream { getTracks : list nat }.

(** The [<video>] element. *)
Record video_element : Type := mkVideo { srcObject : option media_stream }.

(** The camera device: the tracks that are live (acquired, not stopped). *)
Definition device : Type := gset nat.

Record state (R : Type) : Type := mkScan {
  consent : bool;
  scanning : bool;
  results : option R;
  cameraError : option string;
  videoRef : option video_element;     (* videoRef.current *)
  pending_media : nat;                 (* getUserMedia calls in flight *)
  mounted : bool
}.
Arguments mkScan {R}.
Arguments consent {R}.
Arguments scanning {R}.
Arguments results {R}.
Arguments cameraError {R}.
Arguments videoRef {R}.
Arguments pending_media {R}.
Arguments mounted {R}.

Section Component.
Context {R : Type}.

(** The text the [catch] of [startCamera] stores. *)
Variable denied_message : string.

Definition initial : state R :=
  mkScan false false None None None 0 true.

Definition setConsent (b : bool) (st : state R) : state R :=
  mkScan b (scanning st) (results st) (cameraError st) (videoRef st)
    (pending_media st) (mounted st).

Definition setScanning (b : bool) (st : state R) : state R :=
  mkScan (consent st) b (results st) (cameraError st) (videoRef st)
    (pending_media st) (mounted st).

Definition setResults (r : option R) (st : state R) : state R :=
  mkScan (consent st) (scanning st) r (cameraError st) (videoRef st)
    (pending_media st) (mounted st).

Definition setCameraError (e : option string) (st : state R) : state R :=
  mkScan (consent st) (scanning st) (results st) e (videoRef st)
    (pending_media st) (mounted st).

Definition set_videoRef (v : option video_element) (st : state R) : state R :=
  mkScan (consent st) (scanning st) (results st) (cameraError st) v
    (pending_media st) (mounted st).

Definition set_pending (n : nat) (st : state R) : state R :=
  mkScan (consent st) (scanning st) (results st) (cameraError st)
    (videoRef st) n (mounted st).

Definition set_mounted (b : bool) (st : state R) : state R :=
  mkScan (consent st) (scanning st) (results st) (cameraError st)
    (videoRef st) (pending_media st) b.

(** The JSX: the [<video ref={videoRef}>] element is in the tree when
    [consent] holds and [cameraError] is falsy. *)
Definition video_rendered (st : state R) : bool :=
  mounted st && consent st && negb (Js.truthy (cameraError st)).

(** The commit after a render: the ref follows the element. An element
    that stays keeps its [srcObject]; a new element has none; no element,
    [null]. *)
Definition commit (st : state R) : state R :=
  if video_rendered st
  then match videoRef st with
       | Some _ => st
       | None => set_videoRef (Some (mkVideo None)) st
       end
  else set_videoRef None st.

(** [stopCamera]: stop every track of the stream the video element
    holds, if the ref and its [srcObject] are there. *)
Definition stopCamera (st : state R) (dev : device) : device :=
  match videoRef st with
  | Some v =>
      match srcObject v with
      | Some stream => dev ∖ list_to_set (getTracks stream)
      | None => dev
      end
  | None => dev
  end.

(** The consent button: [setConsent(true)], the render, then the effect
    of [consent]: the previous cleanup, and [startCamera()] up to its
    [await]. The button exists only while [consent] is false. *)
Definition click_consent (st : state R) (dev : device)
  : state R * device :=
  if negb (mounted st) || consent st then (st, dev)
  else
    let st1 := commit (setConsent true st) in
    let dev1 := stopCamera st1 dev in
    (set_pending (S (pending_media st1)) st1, dev1).

(** [getUserMedia] resolves with [stream]: the rest of [startCamera].
    The device is in use from here on. *)
Definition media_granted (stream : media_stream) (st : state R)
    (dev : device) : state R * device :=
  match pending_media st with
  | O => (st, dev)
  | S n =>
      let dev1 := dev ∪ list_to_set (getTracks stream) in
      let st1 :=
        match videoRef st with
        | Some _ => set_videoRef (Some (mkVideo (Some stream))) st
        | None => st
        end in
      (commit (setCameraError None (set_pending n st1)), dev1)
  end.

(** [getUserMedia] rejects: the [catch] of [startCamera]. *)
Definition media_denied (st : state R) (dev : device)
  : state R * device :=
  match pending_media st with
  | O => (st, dev)
  | S n =>
      (commit (setCameraError (Some denied_message) (set_pending n st)), dev)
  end.

(** The stop button:
    [setConsent(false); stopCamera(); setResults(null)], the render,
    then the cleanup of the consent effect. The button exists only
    while [consent] is true. *)
Definition click_stop (st : state R) (dev : device) : state R * device :=
  if negb (mounted st) || negb (consent st) then (st, dev)
  else
    let dev1 := stopCamera st dev in
    let st1 := commit (setResults None (setConsent false st)) in
    (st1, stopCamera st1 dev1).

(** The component leaves the tree: the cleanup [() => stopCamera()]
    runs. Whether the host has already reset the ref by then is not the
    component's choice; [ref_reset] says so. *)
Definition unmount (ref_reset : bool) (st : state R) (dev : device)
  : state R * device :=
  if negb (mounted st) then (st, dev)
  else
    let at_cleanup := if ref_reset then set_videoRef None st else st in
    (set_videoRef None (set_mounted false st), stopCamera at_cleanup dev).

(** [disabled={scanning || cameraError}] on the scan button. *)
Definition scan_disabled (st : state R) : bool :=
  scanning st || Js.truthy (cameraError st).

Inductive action : Type :=
| ClickConsent
| MediaGranted (stream : media_stream)
| MediaDenied
| ClickStop
| Unmount (ref_reset : bool).

Definition step (sd : state R * device) (a : action) : state R * device :=
  match a with
  | ClickConsent => click_consent sd.1 sd.2
  | MediaGranted stream => media_granted stream sd.1 sd.2
  | MediaDenied => media_denied sd.1 sd.2
  | ClickStop => click_stop sd.1 sd.2
  | Unmount ref_reset => unmount ref_reset sd.1 sd.2
  end.

Definition run_actions (sd : state R * device) (l : list action)
  : state R * device :=
  fold_left step l sd.

(** The pipeline is back at the consent card with nothing to show. *)
Definition awaiting_consent (st : state R) : Prop :=
  consent st = false ∧ results st = None.

End Component.

End Scan.

(** ** Further shared helpers *)

(** [err.message]: the text of an [Error] the program throws itself is
    known; the text of an error the browser raises is the browser's
    ([browser_message], possibly empty or absent). *)
Definition message_of (browser_message : thrown → option string)
    (e : thrown) : option string :=
  match e with
  | ApiError status => Some ("API Error: " ++ pretty status)
  | _ => browser_message e
  end.

(** The requests among the steps of a trace. *)
Definition requests_of (tr : list event) : list request :=
  omap (λ e, match e with NetRequest r => Some r | _ => None end) tr.

(** [await Promise.all([p1, p2])] on two gateway calls: both calls are
    made; the result is the pair of values, or a rejection when one of them
    rejects. *)
Definition Promise_all2 {A B} (m1 : M A) (m2 : M B) : M (A * B) := λ w,
  match m1 w with
  | (w1, r1) =>
      match m2 w1 with
      | (w2, r2) =>
          match r1, r2 with
          | Normal a, Normal b => (w2, Normal (a, b))
          | Throw e, _ => (w2, Throw e)
          | Normal _, Throw e => (w2, Throw e)
          end
      end
  end.

(** An object literal [{ astronaut_id: id, ...fields }] handed to
    [JSON.stringify]; the order of the keys carries no meaning. *)
Definition astronaut_body (id : string) (fields : list (string * json))
  : payload :=
  FacialBody id (JObj fields).

(** An alert as the panels read it. [{...a, status: s}] keeps the other
    fields. *)
Record alert : Type := mkAlert {
  alert_id : string;
  level : Z;
  alert_message : string;
  status : string
}.

Definition with_status (s : string) (a : alert) : alert :=
  {| alert_id := alert_id a; level := level a;
     alert_message := alert_message a; status := s |}.

(** [a.status === 'active'] *)
Definition is_active (a : alert) : bool := String.eqb (status a) "active".


(** [Math.min] on two numbers. *)
Definition Math_min (a b : Q) : Q := if Qle_bool a b then a else b.

(** [threshold && value > threshold] (both gauge components): an absent
    or zero threshold never warns. *)
Definition isWarning (threshold : option Q) (value : Q) : bool :=
  match threshold with
  | Some t => truthy_number (Some t) && gt value t
  | None => false
  end.

(** A handler of the parent component, received as a prop, run from a
    child with state [S]: it works on the parent's state [P]. *)
Definition in_parent {S P A} (m : C P A) : C (S * P) A := λ spw,
  match m (spw.1.2, spw.2) with
  | ((p', w'), r) => ((spw.1.1, p', w'), r)
  end.

(** A setter of the child's own state. *)
Definition set_own {S P} (f : S → S) : C (S * P) unit :=
  set_state (λ sp, (f sp.1, sp.2)).

(** A [POST] without a body. *)
Definition post_empty : request_init :=
  {| opt_method := Some "POST"; opt_body := None; opt_headers := ∅ |}.
(** ** The gateway and the session of [src/unnamed/part_000] *)

Module Unnamed.

Definition set_api_token (token : option string) : M unit := λ w,
  ({| REACT_APP_BACKEND_URL := REACT_APP_BACKEND_URL w;
      api_token := token;
      localStorage := localStorage w;
      trace := trace w |}, Normal tt).

(** [api.token] starts as [localStorage.getItem('astra_token')]. *)
Definition api_initial_token (w : world) : option string :=
  localStorage w !! "astra_token".

(** [api.setToken] (lines 29-36) *)
Definition api_setToken (token : option string) : M unit :=
  set_api_token token ;;
  match token with
  | Some t =>
      if Js.truthy_string t
      then localStorage_setItem "astra_token" t
      else localStorage_removeItem "astra_token"
  | None => localStorage_removeItem "astra_token"
  end.

(** The headers object of [api.fetch] (lines 39-40): the content type,
    overridden by [options.headers], then the bearer token when
    [this.token] is truthy. *)
Definition fetch_headers (token : option string) (options : request_init)
  : gmap string string :=
  let headers := opt_headers options ∪ {[ "Content-Type" := "application/json" ]} in
  match token with
  | Some t =>
      if Js.truthy_string t
      then <[ "Authorization" := "Bearer " ++ t ]> headers
      else headers
  | None => headers
  end.

Definition fetch_request (w : world) (endpoint : string)
    (options : request_init) : request :=
  {| url := BACKEND_URL w ++ endpoint;
     method := opt_method options;
     body := opt_body options;
     headers := fetch_headers (api_token w) options |}.

(** [api.fetch] (lines 38-49) *)
Definition api_fetch {A} (endpoint : string) (options : request_init)
    (ans : reply A) : M A :=
  w ← get_world;
  response ← browser_fetch (fetch_request w endpoint options) ans;
  (if (response.1 =? 401)%Z
   then api_setToken None ;; window_location_reload
   else mret tt) ;;
  (if negb (ok response.1)
   then throw (ApiError response.1)
   else mret tt) ;;
  response_json response.2.

(** *** The session store ([App], lines 84-120) *)

Record user_profile : Type := mkUser {
  email : option string;
  full_name : option string;
  role : option string;
  astronaut_id : option string
}.

(** The object a successful login or registration answers with. *)
Record auth_result : Type := mkAuth {
  access_token : option string;
  user_of : option user_profile
}.

Record app : Type := mkApp {
  user : option user_profile;
  loading : bool
}.

Definition setUser (u : option user_profile) (st : app) : app :=
  {| user := u; loading := loading st |}.

Definition setLoading (b : bool) (st : app) : app :=
  {| user := user st; loading := b |}.

Definition api_login {A} (email password : string) (ans : reply A) : M A :=
  api_fetch "/api/auth/login" (post (LoginBody email password)) ans.

Definition api_getMe {A} (ans : reply A) : M A :=
  api_fetch "/api/auth/me" no_options ans.

(** [login] (lines 103-108). The answer may be the JSON value [null]. *)
Definition login (st : app) (email password : string)
    (ans : reply (option auth_result)) : M app :=
  result ← api_login email password ans;
  token ← read result access_token;
  api_setToken token ;;
  u ← read result user_of;
  mret (setUser u st).

(** [logout] (lines 117-120) *)
Definition logout (st : app) : M app :=
  api_setToken None ;;
  mret (setUser None st).

(** [checkAuth], the start-up effect (lines 88-101). *)
Definition checkAuth (st : app) (ans : reply (option user_profile)) : M app :=
  w ← get_world;
  st' ← (if Js.truthy (api_token w)
         then try_catch
                (userData ← api_getMe ans; mret (setUser userData st))
                (λ _, api_setToken None ;; mret st)
         else mret st);
  mret (setLoading false st').

Inductive screen : Type := Initializing | DashboardScreen | LoginScreen.

(** What [App] returns (lines 122-141). A user object is truthy. *)
Definition App_render (st : app) : screen :=
  if loading st then Initializing
  else match user st with
       | Some _ => DashboardScreen
       | None => LoginScreen
       end.

(** *** The thin named calls (lines 51-80) *)

Definition api_getDashboardSummary {A} (id : string) (ans : reply A) : M A :=
  api_fetch ("/api/dashboard/summary/" ++ id) no_options ans.

Definition api_getTimeline {A} (id : string) (days : nat) (ans : reply A)
  : M A :=
  api_fetch ("/api/health/timeline/" ++ id ++ "?days=" ++ pretty days)
    no_options ans.

Definition api_storeFacialAnalysis {A} (data : payload) (ans : reply A)
  : M A :=
  api_fetch "/api/facial/analyze" (post data) ans.

Definition api_sendChat {A} (data : payload) (ans : reply A) : M A :=
  api_fetch "/api/chat/send" (post data) ans.

Definition api_getChatHistory {A} (id : string) (ans : reply A) : M A :=
  api_fetch ("/api/chat/history/" ++ id) no_options ans.

Definition api_getAstronauts {A} (ans : reply A) : M A :=
  api_fetch "/api/astronauts" no_options ans.

(** *** [AstraSupport]: the chat pipeline (lines 1141-1180) *)

Record chat : Type := mkChat {
  messages : list chat_exchange;
  input : string;
  sending : bool
}.

Definition setMessages (f : list chat_exchange → list chat_exchange)
    (st : chat) : chat :=
  {| messages := f (messages st); input := input st; sending := sending st |}.

Definition setInput (s : string) (st : chat) : chat :=
  {| messages := messages st; input := s; sending := sending st |}.

Definition setSending (b : bool) (st : chat) : chat :=
  {| messages := messages st; input := input st; sending := b |}.

(** The record appended at line 1170. [now] is [Date.now()], [iso] is
    [new Date().toISOString()]. *)
Definition pending_exchange (userMsg : string) (now : Z) (iso : string)
  : chat_exchange :=
  {| id := JNum (inject_Z now); user_message := userMsg;
     assistant_response := None; timestamp := iso |}.

(** The updater of line 1174:
    [m.assistant_response === null ? {...m, assistant_response: r} : m] *)
Definition fill_response (r : string) (m : chat_exchange) : chat_exchange :=
  match assistant_response m with
  | None => {| id := id m; user_message := user_message m;
               assistant_response := Some r; timestamp := timestamp m |}
  | Some _ => m
  end.

Definition reconcile (r : string) (prev : list chat_exchange)
  : list chat_exchange :=
  map (fill_response r) prev.

(** The updater of line 1176: [prev.slice(0, -1)] *)
Definition rollback (prev : list chat_exchange) : list chat_exchange :=
  Js.slice_0_m1 prev.

(** The guard of line 1164: [!text.trim() || sending] *)
Definition send_refused (st : chat) (text : string) : bool :=
  negb (Js.truthy_string (Js.trim text)) || sending st.

(** While the request is awaited, the only other writer of [messages] is
    the history load of the mount effect (line 1151),
    [setMessages(result.history || [])]: [landed = Some h] when it lands
    in that window with the list [h]. *)
Definition during_await (landed : option (list chat_exchange)) (st : chat)
  : chat :=
  match landed with
  | Some h => setMessages (λ _, h) st
  | None => st
  end.

(** [sendMessage] (lines 1163-1180) *)
Definition sendMessage (astronautId : string) (st : chat) (text : string)
    (now : Z) (iso : string) (landed : option (list chat_exchange))
    (ans : reply chat_result) : M chat :=
  if send_refused st text then mret st
  else
    let userMsg := Js.trim text in
    let st1 := setSending true (setInput "" st) in
    let st2 := setMessages (λ prev, (prev ++ [pending_exchange userMsg now iso])%list) st1 in
    let st3 := during_await landed st2 in
    st4 ← try_catch
            (result ← api_sendChat (ChatBody astronautId userMsg) ans;
             mret (setMessages (reconcile (response result)) st3))
            (λ _, mret (setMessages rollback st3));
    mret (setSending false st4).

(** The mount effect of [AstraSupport] (lines 1147-1157). *)
Definition loadHistory (astronautId : string) (st : chat)
    (ans : reply (option history_result)) : M chat :=
  try_catch
    (result ← api_getChatHistory astronautId ans;
     h ← read result history;
     mret (setMessages (λ _, Js.or_empty h) st))
    (λ _, console_error "Failed to load chat:" ;; mret st).

(** *** [BiometricScan]: the mock scan (lines 901-958) *)

Record scan_results : Type := mkResults {
  estimated_hr : Q;
  respiration_rate : Q;
  hrv_trend : Q;
  oxygen_saturation_trend : Q;
  blood_pressure_trend : string;
  mood_state : option string;
  mental_stress_index : Q;
  fatigue_probability : Q;
  alertness_level : Q;
  facial_tension : Q;
  pain_likelihood : Q;
  blink_rate : Q;
  eye_openness : Q;
  skin_hydration_indicator : string;
  dehydration_risk : Q;
  confidence_overall : Q               (* confidence_scores.overall *)
}.

Definition moods : list string := ["calm"; "neutral"; "focused"; "alert"].

(** The object literal of lines 929-946. *)
Definition simulatedResults (rand : random_source) : scan_results :=
  {| estimated_hr := (65 + rand 0%nat * 25)%Q;
     respiration_rate := (14 + rand 1%nat * 6)%Q;
     hrv_trend := (45 + rand 2%nat * 30)%Q;
     oxygen_saturation_trend := (95 + rand 3%nat * 4)%Q;
     blood_pressure_trend :=
       if_gt (rand 4%nat) (1 # 2) "normal" "slightly_elevated";
     mood_state := pick moods (rand 5%nat);
     mental_stress_index := (15 + rand 6%nat * 45)%Q;
     fatigue_probability := (15 + rand 7%nat * 40)%Q;
     alertness_level := (55 + rand 8%nat * 35)%Q;
     facial_tension := (10 + rand 9%nat * 30)%Q;
     pain_likelihood := (rand 10%nat * 15)%Q;
     blink_rate := (15 + rand 11%nat * 10)%Q;
     eye_openness := (70 + rand 12%nat * 25)%Q;
     skin_hydration_indicator := if_gt (rand 13%nat) (3 # 10) "adequate" "low";
     dehydration_risk := (rand 14%nat * 30)%Q;
     confidence_overall := ((3 # 4) + rand 15%nat * (1 # 5))%Q |}.

Definition optional_field (k : string) (o : option string)
  : list (string * json) :=
  match o with
  | Some s => [(k, JStr s)]
  | None => []
  end.

(** [{ ...simulatedResults }] as the properties [JSON.stringify] writes;
    an [undefined] property is left out. *)
Definition results_fields (r : scan_results) : list (string * json) :=
  ([("estimated_hr", JNum (estimated_hr r));
    ("respiration_rate", JNum (respiration_rate r));
    ("hrv_trend", JNum (hrv_trend r));
    ("oxygen_saturation_trend", JNum (oxygen_saturation_trend r));
    ("blood_pressure_trend", JStr (blood_pressure_trend r))]
   ++ optional_field "mood_state" (mood_state r)
   ++ [("mental_stress_index", JNum (mental_stress_index r));
       ("fatigue_probability", JNum (fatigue_probability r));
       ("alertness_level", JNum (alertness_level r));
       ("facial_tension", JNum (facial_tension r));
       ("pain_likelihood", JNum (pain_likelihood r));
       ("blink_rate", JNum (blink_rate r));
       ("eye_openness", JNum (eye_openness r));
       ("skin_hydration_indicator", JStr (skin_hydration_indicator r));
       ("dehydration_risk", JNum (dehydration_risk r));
       ("confidence_scores",
        JObj [("overall", JNum (confidence_overall r))])])%list.

Definition scan : Type := Scan.state scan_results.

Definition camera_denied : string := "Camera access denied".

Definition stopCamera : scan → Scan.device → Scan.device := Scan.stopCamera.

Definition scan_step : scan * Scan.device → Scan.action → scan * Scan.device :=
  Scan.step camera_denied.

Definition scan_run : scan * Scan.device → list Scan.action
                      → scan * Scan.device :=
  Scan.run_actions camera_denied.

(** [performScan] (lines 925-958). The 3.5 s timer is a suspension point
    only. [onScanComplete] is the callback of the parent (line 455): it
    writes the parent's state and starts a polling cycle, and has no access
    to the state of this component. *)
Definition performScan (astronautId : string) (rand : random_source)
    (onScanComplete : scan_results → M unit) (ans : reply json)
  : C scan unit :=
  set_state (Scan.setScanning true) ;;
  let simulatedResults := simulatedResults rand in
  set_state (Scan.setResults (Some simulatedResults)) ;;
  try_catch
    (call (api_storeFacialAnalysis
             (FacialBody astronautId (JObj (results_fields simulatedResults)))
             ans) ;;
     call (onScanComplete simulatedResults))
    (λ _, call (console_error "Failed to store:")) ;;
  set_state (Scan.setScanning false).

(** *** [Dashboard]: polling and views (lines 309-478) *)

(** The object [GET /dashboard/summary/{id}] answers with. *)
Record summary : Type := mkSummary {
  health : option Health.record;
  baseline : option json;
  timeline : option (list json);
  context : option json;
  alerts : option (list json);
  facial_analysis : option json
}.

Inductive view : Type :=
| dashboard | health_view | facial | timeline_view | chat_view
| alerts_view | context_view | crew.

#[global] Instance view_eq_dec : EqDecision view.
Proof. solve_decision. Defined.

Record dash : Type := mkDash {
  currentView : view;
  sidebarOpen : bool;
  dashboardData : option summary;
  dash_loading : bool;
  facialData : option json
}.

Definition Dashboard_initial : dash :=
  {| currentView := dashboard; sidebarOpen := true; dashboardData := None;
     dash_loading := true; facialData := None |}.

Definition setCurrentView (v : view) (st : dash) : dash :=
  {| currentView := v; sidebarOpen := sidebarOpen st;
     dashboardData := dashboardData st; dash_loading := dash_loading st;
     facialData := facialData st |}.

Definition setDashboardData (d : option summary) (st : dash) : dash :=
  {| currentView := currentView st; sidebarOpen := sidebarOpen st;
     dashboardData := d; dash_loading := dash_loading st;
     facialData := facialData st |}.

Definition setDashLoading (b : bool) (st : dash) : dash :=
  {| currentView := currentView st; sidebarOpen := sidebarOpen st;
     dashboardData := dashboardData st; dash_loading := b;
     facialData := facialData st |}.

Definition setFacialData (f : option json) (st : dash) : dash :=
  {| currentView := currentView st; sidebarOpen := sidebarOpen st;
     dashboardData := dashboardData st; dash_loading := dash_loading st;
     facialData := f |}.

(** [user?.astronaut_id || 'AST-001'] (line 317) *)
Definition astronautId_of (u : option user_profile) : string :=
  Js.or_else (u ≫= astronaut_id) "AST-001".

(** [loadDashboardData] (lines 319-330): one polling cycle. The answer
    may be the JSON value [null]. *)
Definition loadDashboardData (astronautId : string)
    (ans : reply (option summary)) : C dash unit :=
  try_catch
    (data ← call (api_getDashboardSummary astronautId ans);
     set_state (setDashboardData data) ;;
     fa ← read data facial_analysis;
     if truthy_opt_json fa then set_state (setFacialData fa) else mret tt)
    (λ _, call (console_error "Failed to load dashboard:")) ;;
  set_state (setDashLoading false).

(** What the views read from the loaded summary:
    [data?.timeline || []] (line 497) and [data?.alerts || []]
    (line 1277). *)
Definition timeline_of (data : option summary) : list json :=
  Js.or_empty (data ≫= timeline).

Definition alerts_of (data : option summary) : list json :=
  Js.or_empty (data ≫= alerts).

(** [user?.role === 'supervisor'] *)
Definition is_supervisor (u : option user_profile) : bool :=
  match u ≫= role with
  | Some r => String.eqb r "supervisor"
  | None => false
  end.

(** The entries of the navigation bar (lines 338-350). *)
Definition navItems (u : option user_profile) : list view :=
  [dashboard; health_view; facial; timeline_view; chat_view; alerts_view;
   context_view] ++ (if is_supervisor u then [crew] else []).

(** The view component in the tree (lines 439-473): none while loading,
    and [CrewOverview] only for a supervisor. *)
Definition mounted_view (u : option user_profile) (st : dash) : option view :=
  if dash_loading st then None
  else match currentView st with
       | crew => if is_supervisor u then Some crew else None
       | v => Some v
       end.

(** The request a call of [api.fetch] sends before its first [await]. *)
Definition issue (endpoint : string) (options : request_init) : M unit :=
  w ← get_world;
  emit (NetRequest (fetch_request w endpoint options)).

(** What the mount effect of each view component sends before its first
    [await]: [HealthTimeline] loads the timeline with [days = 7]
    (lines 1082-1095), [AstraSupport] loads the chat history
    (lines 1147-1157), [CrewOverview] loads the roster (lines 1441-1444);
    [BiometricScan] mounts with [consent = false] and the other views have
    no effect. *)
Definition mount_effect (astronautId : string) (v : view) : M unit :=
  match v with
  | timeline_view =>
      issue ("/api/health/timeline/" ++ astronautId ++ "?days=" ++ pretty 7%nat)
        no_options
  | chat_view => issue ("/api/chat/history/" ++ astronautId) no_options
  | crew => issue "/api/astronauts" no_options
  | dashboard | health_view | facial | alerts_view | context_view => mret tt
  end.

(** A click on a navigation entry: [setCurrentView(item.id)] (line 383),
    the render, and the mount effect of the component that enters the
    tree, if one does. *)
Definition navigate (u : option user_profile) (item : view) : C dash unit :=
  sw ← (λ sw, (sw, Normal sw));
  set_state (setCurrentView item) ;;
  let before := mounted_view u sw.1 in
  let after := mounted_view u (setCurrentView item sw.1) in
  if decide (after = before) then mret tt
  else match after with
       | Some v => call (mount_effect (astronautId_of u) v)
       | None => mret tt
       end.

(** *** [CommandCenter]: the wellness index (lines 495-501) *)

Definition wellnessScore (health : option Health.record) : Z :=
  match health with
  | Some h =>
      Js.Math_round
        (100 - (Health.stress_level h * (4 # 10)
                + Health.fatigue_level h * (3 # 10)
                + Js.Math_abs (Health.heart_rate h - 70) * (3 # 10)))%Q
  | None => 85%Z
  end.

(** [data?.health] *)
Definition health_of (data : option summary) : option Health.record :=
  data ≫= health.

(** The caption under the index (lines 540-541). *)
Definition wellness_caption (score : Z) : string :=
  if (80 <=? score)%Z then "Excellent Condition"
  else if (60 <=? score)%Z then "Good Condition"
  else "Needs Attention".

(** *** [LoginPage]: the submit handler (lines 145-171) *)

Record login_form : Type := mkForm {
  form_email : string;
  form_password : string;
  form_full_name : string;
  form_role : string
}.

Record login_page : Type := mkLoginPage {
  isLogin : bool;
  page_loading : bool;
  error : string;
  formData : login_form
}.

Definition LoginPage_initial : login_page :=
  {| isLogin := true; page_loading := false; error := "";
     formData := {| form_email := ""; form_password := "";
                    form_full_name := ""; form_role := "astronaut" |} |}.

Definition setPageLoading (b : bool) (st : login_page) : login_page :=
  {| isLogin := isLogin st; page_loading := b; error := error st;
     formData := formData st |}.

Definition setError (e : string) (st : login_page) : login_page :=
  {| isLogin := isLogin st; page_loading := page_loading st; error := e;
     formData := formData st |}.

(** [handleSubmit] (lines 157-171). [login] and [register] come from the
    auth context; what they do to the session is their effect on the
    world. *)
Definition handleSubmit (browser_message : thrown → option string)
    (login : string → string → M unit) (register : login_form → M unit)
  : C login_page unit :=
  set_state (setPageLoading true) ;;
  set_state (setError "") ;;
  try_catch
    (sw ← (λ sw, (sw, Normal sw));
     if isLogin sw.1
     then call (login (form_email (formData sw.1))
                  (form_password (formData sw.1)))
     else call (register (formData sw.1)))
    (λ err, set_state
              (setError (Js.or_else (message_of browser_message err)
                           "Authentication failed"))) ;;
  set_state (setPageLoading false).

(** *** The session as a whole *)

(** What can happen to the session after the page has loaded. *)
Inductive session_action : Type :=
| DoCheckAuth (ans : reply (option user_profile))
| DoLogin (email password : string) (ans : reply (option auth_result))
| DoLogout
| DoFetch (endpoint : string) (options : request_init) (ans : reply json).

Definition session_step (sw : app * world) (a : session_action)
  : app * world :=
  match a with
  | DoCheckAuth ans =>
      match checkAuth sw.1 ans sw.2 with
      | (w', Normal st') => (st', w')
      | (w', Throw _) => (sw.1, w')
      end
  | DoLogin email password ans =>
      match login sw.1 email password ans sw.2 with
      | (w', Normal st') => (st', w')
      | (w', Throw _) => (sw.1, w')
      end
  | DoLogout =>
      match logout sw.1 sw.2 with
      | (w', Normal st') => (st', w')
      | (w', Throw _) => (sw.1, w')
      end
  | DoFetch endpoint options ans =>
      (sw.1, (api_fetch endpoint options ans sw.2).1)
  end.

Definition session_run (sw : app * world) (l : list session_action)
  : app * world :=
  fold_left session_step l sw.

(** The page as it loads: [api.token] is read from storage (line 27),
    [user] is [null] and [loading] is [true] (lines 85-86). *)
Definition page_load (env : option string) (storage : gmap string string)
  : app * world :=
  ({| user := None; loading := true |},
   {| REACT_APP_BACKEND_URL := env;
      api_token := storage !! "astra_token";
      localStorage := storage;
      trace := [] |}).

(** The token in memory agrees with the token in storage: a stored token
    is the one in memory, and with none stored the one in memory is
    falsy. *)
Definition token_consistent (w : world) : Prop :=
  match localStorage w !! "astra_token" with
  | Some t => api_token w = Some t
  | None => Js.truthy (api_token w) = false
  end.

(** *** [GaugeCard] (lines 868-870) *)

Definition GaugeCard_percentage (value max : Q) : Q :=
  Math_min ((value / max) * 100)%Q 100.

(** *** [HealthTimeline] (lines 1082-1095) *)

Record timeline_result : Type := mkTimeline {
  daily_averages : option (list json)
}.

(** [loadTimeline], the effect of [astronautId] and [days], on the cell
    [timeline]. *)
Definition loadTimeline (id : string) (days : nat)
    (ans : reply (option timeline_result)) : C (list json) unit :=
  try_catch
    (result ← call (api_getTimeline id days ans);
     averages ← read result daily_averages;
     set_state (λ _, Js.or_empty averages))
    (λ _, call (console_error "Failed to load timeline:")).

(** *** Handlers that refresh the dashboard *)

Definition api_generateSimulation {A} (id : string) (days : nat)
    (ans : reply A) : M A :=
  api_fetch ("/api/simulate/generate?astronaut_id=" ++ id ++ "&days="
             ++ pretty days) post_empty ans.

Definition api_acknowledgeAlert {A} (data : payload) (ans : reply A) : M A :=
  api_fetch "/api/alerts/acknowledge" (post data) ans.

Definition api_updateContext {A} (data : payload) (ans : reply A) : M A :=
  api_fetch "/api/context/update" (post data) ans.

(** [CommandCenter.generateDemoData] (lines 484-493) on the cell
    [generating] and the cells of [Dashboard]. [onRefresh] is
    [loadDashboardData] (line 449); it is not awaited, and it writes cells
    of [Dashboard] only, so that running it to its end before
    [setGenerating(false)] gives the same final state. *)
Definition generateDemoData (astronautId : string) (ans : reply json)
    (ans_refresh : reply (option summary)) : C (bool * dash) unit :=
  set_own (λ _, true) ;;
  try_catch
    (call (api_generateSimulation astronautId 7 ans) ;;
     in_parent (loadDashboardData astronautId ans_refresh))
    (λ _, call (console_error "Failed to generate data:")) ;;
  set_own (λ _, false).

(** [AlertSystem.handleAcknowledge] (lines 1280-1288); the component has
    no state of its own, [onRefresh] is [loadDashboardData] (line 464). *)
Definition handleAcknowledge (astronautId alertId action : string)
    (ans : reply json) (ans_refresh : reply (option summary)) : C dash unit :=
  try_catch
    (call (api_acknowledgeAlert
             (astronaut_body astronautId
                [("alert_id", JStr alertId); ("action", JStr action)])
             ans) ;;
     loadDashboardData astronautId ans_refresh)
    (λ _, call (console_error "Failed to acknowledge:")).

(** The cells [editing] and [formData] of [MissionStatus]. *)
Record mission : Type := mkMission {
  mission_editing : bool;
  mission_formData : list (string * json)
}.

(** [MissionStatus.handleSave] (lines 1363-1371); [onRefresh] is
    [loadDashboardData] (line 467). *)
Definition handleSave (astronautId : string) (ans : reply json)
    (ans_refresh : reply (option summary)) : C (mission * dash) unit :=
  sw ← (λ sw, (sw, Normal sw));
  try_catch
    (call (api_updateContext
             (astronaut_body astronautId (mission_formData sw.1.1)) ans) ;;
     set_own (λ st, {| mission_editing := false;
                      mission_formData := mission_formData st |}) ;;
     in_parent (loadDashboardData astronautId ans_refresh))
    (λ _, call (console_error "Failed to update:")).

(** *** [CrewOverview] (lines 1436-1472) *)

Record crew_state : Type := mkCrewState {
  crew_astronauts : list string;
  crewData : gmap string (option summary)
}.

Definition CrewOverview_initial : crew_state :=
  {| crew_astronauts := []; crewData := ∅ |}.

Record roster_result : Type := mkRoster {
  roster : option (list string)              (* .astronauts *)
}.

(** One round of the loop (lines 1447-1452) on the object [data]. *)
Definition loadCrew_round (id : string) (ans : reply (option summary))
  : C (gmap string (option summary)) unit :=
  try_catch
    (summary ← call (api_getDashboardSummary id ans);
     set_state (λ data, <[ id := summary ]> data))
    (λ _, set_state (λ data, <[ id := None ]> data)).

Fixpoint loadCrew_loop (ids : list string) (i : nat)
    (answers : nat → reply (option summary))
  : C (gmap string (option summary)) unit :=
  match ids with
  | [] => mret tt
  | id :: rest =>
      loadCrew_round id (answers i) ;; loadCrew_loop rest (S i) answers
  end.

(** The loop started on the empty object, as a step of the component:
    it hands back the object it built. *)
Definition loadCrew_data (ids : list string)
    (answers : nat → reply (option summary))
  : C crew_state (gmap string (option summary)) := λ sw,
  match loadCrew_loop ids 0 answers (∅, sw.2) with
  | ((data, w'), Normal _) => ((sw.1, w'), Normal data)
  | ((_, w'), Throw e) => ((sw.1, w'), Throw e)
  end.

(** [loadCrew] (lines 1441-1457). *)
Definition loadCrew (ans : reply (option roster_result))
    (answers : nat → reply (option summary)) : C crew_state unit :=
  try_catch
    (result ← call (api_getAstronauts ans);
     l ← read result roster;
     set_state (λ st, {| crew_astronauts := Js.or_empty l;
                         crewData := crewData st |}) ;;
     data ← loadCrew_data (Js.or_empty l) answers;
     set_state (λ st, {| crew_astronauts := crew_astronauts st;
                         crewData := data |}))
    (λ _, call (console_error "Failed to load crew:")).

(** The status of a card (lines 1469-1472): [crewData[id]] is undefined
    for an id without entry and may be [null]. *)
Definition crew_status (crewData : gmap string (option summary))
    (id : string) : string :=
  match health_of (mjoin (crewData !! id)) with
  | None => "unknown"
  | Some h => if gt (Health.stress_level h) 70 then "warning" else "healthy"
  end.

(** A series of clicks on navigation entries. *)
Definition click_through (u : option user_profile) (items : list view)
    (sw : dash * world) : dash * world :=
  fold_left (λ sw item, (navigate u item sw).1) items sw.

End Unnamed.

(** ** The gateway of [src/frontend/src/App.js] *)

Module Frontend.

Definition fetch_headers (options : request_init) : gmap string string :=
  opt_headers options ∪ {[ "Content-Type" := "application/json" ]}.

Definition fetch_request (w : world) (endpoint : string)
    (options : request_init) : request :=
  {| url := BACKEND_URL w ++ endpoint;
     method := opt_method options;
     body := opt_body options;
     headers := fetch_headers options |}.

(** [api.fetch] (lines 18-28) *)
Definition api_fetch {A} (endpoint : string) (options : request_init)
    (ans : reply A) : M A :=
  w ← get_world;
  response ← browser_fetch (fetch_request w endpoint options) ans;
  (if negb (ok response.1)
   then throw (ApiError response.1)
   else mret tt) ;;
  response_json response.2.

(** *** The thin named calls (lines 30-46) *)

Definition api_getLatestHealth {A} (id : string) (ans : reply A) : M A :=
  api_fetch ("/api/health/latest/" ++ id) no_options ans.

Definition api_getTimeline {A} (id : string) (days : nat) (ans : reply A)
  : M A :=
  api_fetch ("/api/health/timeline/" ++ id ++ "?days=" ++ pretty days)
    no_options ans.

Definition api_getBaseline {A} (id : string) (ans : reply A) : M A :=
  api_fetch ("/api/baseline/" ++ id) no_options ans.

Definition api_getAlerts {A} (id : string) (ans : reply A) : M A :=
  api_fetch ("/api/alerts/" ++ id) no_options ans.

Definition api_getContext {A} (id : string) (ans : reply A) : M A :=
  api_fetch ("/api/context/" ++ id) no_options ans.

Definition api_getChatHistory {A} (id : string) (ans : reply A) : M A :=
  api_fetch ("/api/chat/history/" ++ id) no_options ans.

Definition api_sendChat {A} (data : payload) (ans : reply A) : M A :=
  api_fetch "/api/chat/send" (post data) ans.

Definition api_storeFacialAnalysis {A} (data : payload) (ans : reply A)
  : M A :=
  api_fetch "/api/facial/analyze" (post data) ans.

(** *** [App]: state, polling and views (lines 50-301) *)

Inductive view : Type :=
| dashboard | health_view | facial | timeline_view | chat_view
| alerts_view | context_view | crew.

#[global] Instance view_eq_dec : EqDecision view.
Proof. solve_decision. Defined.

Record app : Type := mkApp {
  currentView : view;
  astronautId : string;
  userRole : string;
  healthData : option Health.record;
  timeline : list json;
  baseline : option json;
  alerts : list json;
  context : option json;
  chatHistory : list chat_exchange;
  astronauts : list string;
  loading : bool
}.

Definition App_initial : app :=
  {| currentView := dashboard; astronautId := "AST-001";
     userRole := "astronaut"; healthData := None; timeline := [];
     baseline := None; alerts := []; context := None; chatHistory := [];
     astronauts := []; loading := true |}.

Definition setCurrentView (v : view) (st : app) : app :=
  mkApp v (astronautId st) (userRole st) (healthData st) (timeline st)
    (baseline st) (alerts st) (context st) (chatHistory st) (astronauts st)
    (loading st).

Definition setHealthData (h : option Health.record) (st : app) : app :=
  mkApp (currentView st) (astronautId st) (userRole st) h (timeline st)
    (baseline st) (alerts st) (context st) (chatHistory st) (astronauts st)
    (loading st).

Definition setTimeline (t : list json) (st : app) : app :=
  mkApp (currentView st) (astronautId st) (userRole st) (healthData st) t
    (baseline st) (alerts st) (context st) (chatHistory st) (astronauts st)
    (loading st).

Definition setBaseline (b : option json) (st : app) : app :=
  mkApp (currentView st) (astronautId st) (userRole st) (healthData st)
    (timeline st) b (alerts st) (context st) (chatHistory st) (astronauts st)
    (loading st).

Definition setAlerts (a : list json) (st : app) : app :=
  mkApp (currentView st) (astronautId st) (userRole st) (healthData st)
    (timeline st) (baseline st) a (context st) (chatHistory st)
    (astronauts st) (loading st).

Definition setContext (c : option json) (st : app) : app :=
  mkApp (currentView st) (astronautId st) (userRole st) (healthData st)
    (timeline st) (baseline st) (alerts st) c (chatHistory st)
    (astronauts st) (loading st).

Definition setChatHistory (h : list chat_exchange) (st : app) : app :=
  mkApp (currentView st) (astronautId st) (userRole st) (healthData st)
    (timeline st) (baseline st) (alerts st) (context st) h (astronauts st)
    (loading st).

(** The objects the timeline and alerts endpoints answer with. *)
Record timeline_result : Type := mkTimeline {
  records : option (list json);
  daily_averages : option (list json)
}.

Record alerts_result : Type := mkAlerts {
  alerts_of : option (list json)             (* .alerts *)
}.

(** One answer per fetch of the polling batch. Each may be [null]. *)
Record batch : Type := mkBatch {
  latestHealth : reply (option Health.record);
  timelineData : reply (option timeline_result);
  baselineData : reply (option json);
  alertsData : reply (option alerts_result);
  contextData : reply (option json);
  chatData : reply (option history_result)
}.

(** [promise.catch(() => d)] *)
Definition catch_with {S A} (m : St S A) (d : A) : St S A :=
  try_catch m (λ _, mret d).

(** [loadAstronautData] (lines 88-108): one polling cycle. The six calls
    do not depend on one another; they are run here in source order. *)
Definition loadAstronautData (id : string) (b : batch) : C app unit :=
  try_catch
    (latestHealth ← call (catch_with (api_getLatestHealth id (latestHealth b)) None);
     timelineData ← call (catch_with (api_getTimeline id 7 (timelineData b))
                            (Some {| records := Some []; daily_averages := Some [] |}));
     baselineData ← call (catch_with (api_getBaseline id (baselineData b)) None);
     alertsData ← call (catch_with (api_getAlerts id (alertsData b))
                          (Some {| alerts_of := Some [] |}));
     contextData ← call (catch_with (api_getContext id (contextData b)) None);
     chatData ← call (catch_with (api_getChatHistory id (chatData b))
                        (Some {| history := Some [] |}));
     set_state (setHealthData latestHealth) ;;
     averages ← read timelineData daily_averages;
     set_state (setTimeline (Js.or_empty averages)) ;;
     set_state (setBaseline baselineData) ;;
     active ← read alertsData alerts_of;
     set_state (setAlerts (Js.or_empty active)) ;;
     set_state (setContext contextData) ;;
     h ← read chatData history;
     set_state (setChatHistory (Js.or_empty h)))
    (λ _, call (console_error "Failed to load astronaut data:")).

Definition is_supervisor (st : app) : bool := String.eqb (userRole st) "supervisor".

Definition navItems (st : app) : list view :=
  [dashboard; health_view; facial; timeline_view; chat_view; alerts_view;
   context_view] ++ (if is_supervisor st then [crew] else []).

(** The view component in the tree (lines 238-297). *)
Definition mounted_view (st : app) : option view :=
  if loading st then None
  else match currentView st with
       | crew => if is_supervisor st then Some crew else None
       | v => Some v
       end.

Definition issue (endpoint : string) (options : request_init) : M unit :=
  w ← get_world;
  emit (NetRequest (fetch_request w endpoint options)).

(** What the mount effect of each view component sends before its first
    [await]: [HealthTimeline] loads the timeline with [days = 7]
    (lines 1045-1058); [CrewOverview] starts its loop over the roster with
    the two calls for the first astronaut (lines 1699-1715); the effect of
    [SupportChat] only scrolls, [FacialScan] mounts with
    [consent = false], and the other views have no effect. *)
Definition mount_effect (st : app) (v : view) : M unit :=
  match v with
  | timeline_view =>
      issue ("/api/health/timeline/" ++ astronautId st ++ "?days=" ++ pretty 7%nat)
        no_options
  | crew =>
      match astronauts st with
      | first :: _ =>
          issue ("/api/health/latest/" ++ first) no_options ;;
          issue ("/api/alerts/" ++ first) no_options
      | [] => mret tt
      end
  | dashboard | health_view | facial | chat_view | alerts_view
  | context_view => mret tt
  end.

(** A click on a navigation entry: [setCurrentView(item.id)] (line 157),
    the render, and the mount effect of the component that enters the
    tree, if one does. *)
Definition navigate (item : view) : C app unit :=
  sw ← (λ sw, (sw, Normal sw));
  set_state (setCurrentView item) ;;
  let before := mounted_view sw.1 in
  let after := mounted_view (setCurrentView item sw.1) in
  if decide (after = before) then mret tt
  else match after with
       | Some v => call (mount_effect (setCurrentView item sw.1) v)
       | None => mret tt
       end.

(** *** [Dashboard]: the risk level (lines 319-325) *)

Definition riskLevel (healthData : option Health.record) : nat :=
  match healthData with
  | Some h =>
      if truthy_number (Health.validation h ≫= Health.adjusted_confidence)
      then if gt (Health.stress_level h) 70 || gt (Health.fatigue_level h) 70
           then 2
           else if gt (Health.stress_level h) 50 then 1 else 0
      else 0
  | None => 0
  end.

Definition riskLabels : list string := ["Optimal"; "Elevated"; "High"].

(** [riskLabels[riskLevel]] (line 433) *)
Definition risk_label (healthData : option Health.record) : option string :=
  riskLabels !! riskLevel healthData.

(** *** [SupportChat]: the chat pipeline (lines 1163-1213) *)

(** [chatHistory] is the state of [App] handed down as a prop;
    [message] and [sending] are local. *)
Record support_chat : Type := mkSupport {
  history_prop : list chat_exchange;       (* chatHistory *)
  message : string;
  sending : bool
}.

Definition chat_setHistory (h : list chat_exchange) (st : support_chat)
  : support_chat :=
  {| history_prop := h; message := message st; sending := sending st |}.

Definition setMessage (s : string) (st : support_chat) : support_chat :=
  {| history_prop := history_prop st; message := s; sending := sending st |}.

Definition setSending (b : bool) (st : support_chat) : support_chat :=
  {| history_prop := history_prop st; message := message st; sending := b |}.

(** The guard of line 1178: [!message.trim() || sending] *)
Definition send_refused (st : support_chat) : bool :=
  negb (Js.truthy_string (Js.trim (message st))) || sending st.

(** While the request is awaited, the polling cycle of [App] may land:
    [setChatHistory(chatData.history || [])] (line 104). *)
Definition during_await (landed : option (list chat_exchange))
    (st : support_chat) : support_chat :=
  match landed with
  | Some h => chat_setHistory h st
  | None => st
  end.

(** [sendMessage] (lines 1176-1213). [chatHistory] inside the handler is
    the value of the render the handler was created in. [now] is
    [Date.now()]; [iso1] and [iso2] are the two [toISOString()] reads. *)
Definition sendMessage (astronautId : string) (st : support_chat)
    (now : Z) (iso1 iso2 : string) (landed : option (list chat_exchange))
    (ans : reply chat_result) : M support_chat :=
  if send_refused st then mret st
  else
    let userMessage := Js.trim (message st) in
    let chatHistory := history_prop st in
    let st1 := setSending true (setMessage "" st) in
    let tempHistory :=
      (chatHistory ++ [ {| id := JStr (pretty now);
                           user_message := userMessage;
                           assistant_response := None;
                           timestamp := iso1 |} ])%list in
    let st2 := chat_setHistory tempHistory st1 in
    let st3 := during_await landed st2 in
    st4 ← try_catch
            (result ← api_sendChat (ChatBody astronautId userMessage) ans;
             mret (chat_setHistory
                     (chatHistory ++ [ {| id := message_id result;
                                          user_message := userMessage;
                                          assistant_response := Some (response result);
                                          timestamp := iso2 |} ])%list
                     st3))
            (λ _, console_error "Failed to send message:" ;;
                  mret (chat_setHistory chatHistory st3));
    mret (setSending false st4).

(** *** [FacialScan]: the mock scan (lines 781-880) *)

Record vital_estimates_t : Type := mkVital {
  heart_rate : Q;
  respiration_rate : Q;
  hrv_trend : Q;
  oxygen_saturation_trend : Q;
  blood_pressure_trend : string
}.

Record mental_indicators_t : Type := mkMental {
  mood_state : option string;
  mental_stress_index : Q;
  fatigue_probability : Q;
  alertness_level : Q;
  facial_tension : Q;
  pain_likelihood : Q
}.

Record physical_indicators_t : Type := mkPhysical {
  blink_rate : Q;
  eye_openness : Q;
  skin_hydration : string;
  dehydration_risk : Q
}.

Record confidence_scores_t : Type := mkConfidence {
  overall : Q;
  vital : Q;
  mental : Q
}.

Record scan_results : Type := mkResults {
  vital_estimates : vital_estimates_t;
  mental_indicators : mental_indicators_t;
  physical_indicators : physical_indicators_t;
  confidence_scores : confidence_scores_t
}.

Definition moods : list string :=
  ["calm"; "neutral"; "focused"; "slightly_stressed"].

(** The object literal of lines 822-850. *)
Definition simulatedResults (rand : random_source) : scan_results :=
  {| vital_estimates :=
       {| heart_rate := (65 + rand 0%nat * 20)%Q;
          respiration_rate := (14 + rand 1%nat * 6)%Q;
          hrv_trend := (45 + rand 2%nat * 30)%Q;
          oxygen_saturation_trend := (95 + rand 3%nat * 4)%Q;
          blood_pressure_trend :=
            if_gt (rand 4%nat) (1 # 2) "normal" "slightly_elevated" |};
     mental_indicators :=
       {| mood_state := pick moods (rand 5%nat);
          mental_stress_index := (20 + rand 6%nat * 40)%Q;
          fatigue_probability := (15 + rand 7%nat * 35)%Q;
          alertness_level := (60 + rand 8%nat * 30)%Q;
          facial_tension := (10 + rand 9%nat * 30)%Q;
          pain_likelihood := (rand 10%nat * 15)%Q |};
     physical_indicators :=
       {| blink_rate := (15 + rand 11%nat * 10)%Q;
          eye_openness := (70 + rand 12%nat * 25)%Q;
          skin_hydration := if_gt (rand 13%nat) (3 # 10) "adequate" "low";
          dehydration_risk := (rand 14%nat * 30)%Q |};
     confidence_scores :=
       {| overall := ((3 # 4) + rand 15%nat * (1 # 5))%Q;
          vital := ((6 # 10) + rand 16%nat * (3 # 10))%Q;
          mental := ((7 # 10) + rand 17%nat * (1 # 4))%Q |} |}.

Definition optional_field (k : string) (o : option string)
  : list (string * json) :=
  match o with
  | Some s => [(k, JStr s)]
  | None => []
  end.

(** The object of lines 856-874, as the properties [JSON.stringify]
    writes; an [undefined] property is left out. *)
Definition store_fields (r : scan_results) : list (string * json) :=
  let v := vital_estimates r in
  let m := mental_indicators r in
  let p := physical_indicators r in
  let c := confidence_scores r in
  ([("estimated_hr", JNum (heart_rate v));
    ("respiration_rate", JNum (respiration_rate v));
    ("hrv_trend", JNum (hrv_trend v));
    ("oxygen_saturation_trend", JNum (oxygen_saturation_trend v));
    ("blood_pressure_trend", JStr (blood_pressure_trend v))]
   ++ optional_field "mood_state" (mood_state m)
   ++ [("mental_stress_index", JNum (mental_stress_index m));
       ("fatigue_probability", JNum (fatigue_probability m));
       ("alertness_level", JNum (alertness_level m));
       ("facial_tension", JNum (facial_tension m));
       ("pain_likelihood", JNum (pain_likelihood m));
       ("blink_rate", JNum (blink_rate p));
       ("eye_openness", JNum (eye_openness p));
       ("skin_hydration_indicator", JStr (skin_hydration p));
       ("dehydration_risk", JNum (dehydration_risk p));
       ("confidence_scores",
        JObj [("overall", JNum (overall c)); ("vital", JNum (vital c));
              ("mental", JNum (mental c))])])%list.

Definition scan : Type := Scan.state scan_results.

Definition camera_denied : string :=
  "Unable to access camera. Please grant permission.".

Definition stopCamera : scan → Scan.device → Scan.device := Scan.stopCamera.

Definition scan_step : scan * Scan.device → Scan.action → scan * Scan.device :=
  Scan.step camera_denied.

Definition scan_run : scan * Scan.device → list Scan.action
                      → scan * Scan.device :=
  Scan.run_actions camera_denied.

(** [performScan] (lines 816-880). The 3 s timer is a suspension point
    only. *)
Definition performScan (astronautId : string) (rand : random_source)
    (ans : reply json) : C scan unit :=
  set_state (Scan.setScanning true) ;;
  let simulatedResults := simulatedResults rand in
  set_state (Scan.setResults (Some simulatedResults)) ;;
  try_catch
    (call (api_storeFacialAnalysis
             (FacialBody astronautId (JObj (store_fields simulatedResults)))
             ans) ;;
     mret tt)
    (λ _, call (console_error "Failed to store facial analysis:")) ;;
  set_state (Scan.setScanning false).

(** *** [App]: the initial load (lines 55 and 68-84) *)

(** The state cells of [App] that the initial load writes next to those of
    [app]. *)
Record shell : Type := mkShell {
  shell_app : app;
  systemStatus : option string
}.

Definition shell_initial : shell :=
  {| shell_app := App_initial; systemStatus := Some "healthy" |}.

Definition setLoading (b : bool) (sh : shell) : shell :=
  {| shell_app :=
       mkApp (currentView (shell_app sh)) (astronautId (shell_app sh))
         (userRole (shell_app sh)) (healthData (shell_app sh))
         (timeline (shell_app sh)) (baseline (shell_app sh))
         (alerts (shell_app sh)) (context (shell_app sh))
         (chatHistory (shell_app sh)) (astronauts (shell_app sh)) b;
     systemStatus := systemStatus sh |}.

Definition setAstronauts (l : list string) (sh : shell) : shell :=
  {| shell_app :=
       mkApp (currentView (shell_app sh)) (astronautId (shell_app sh))
         (userRole (shell_app sh)) (healthData (shell_app sh))
         (timeline (shell_app sh)) (baseline (shell_app sh))
         (alerts (shell_app sh)) (context (shell_app sh))
         (chatHistory (shell_app sh)) l (loading (shell_app sh));
     systemStatus := systemStatus sh |}.

Definition setSystemStatus (s : option string) (sh : shell) : shell :=
  {| shell_app := shell_app sh; systemStatus := s |}.

Record roster_result : Type := mkRoster {
  roster : option (list string)              (* .astronauts *)
}.

Record health_status : Type := mkStatus {
  service_status : option string             (* .status *)
}.

Definition api_getAstronauts {A} (ans : reply A) : M A :=
  api_fetch "/api/astronauts" no_options ans.

Definition api_getHealth {A} (ans : reply A) : M A :=
  api_fetch "/api/health" no_options ans.

Definition default_astronauts : list string :=
  ["AST-001"; "AST-002"; "AST-003"].

(** [astList.astronauts || [...]] *)
Definition or_default_astronauts (o : option (list string)) : list string :=
  match o with
  | Some l => l
  | None => default_astronauts
  end.

(** [loadData] (lines 69-82). Either answer may be the JSON value
    [null]. *)
Definition loadData (ans_roster : reply (option roster_result))
    (ans_health : reply (option health_status)) : C shell unit :=
  set_state (setLoading true) ;;
  try_catch
    (both ← call (Promise_all2 (api_getAstronauts ans_roster)
                    (api_getHealth ans_health));
     l ← read both.1 roster;
     set_state (setAstronauts (or_default_astronauts l)) ;;
     s ← read both.2 service_status;
     set_state (setSystemStatus s))
    (λ _, call (console_error "Failed to load initial data:")) ;;
  set_state (setLoading false).

(** *** [AlertsPanel] (lines 1330-1346) *)

Definition api_acknowledgeAlert {A} (data : payload) (ans : reply A) : M A :=
  api_fetch "/api/alerts/acknowledge" (post data) ans.

(** The updater of line 1338:
    [a.id === alertId ? { ...a, status: action } : a] *)
Definition acknowledge_in (alertId action : string) (l : list alert)
  : list alert :=
  map (λ a, if String.eqb (alert_id a) alertId then with_status action a
            else a) l.

(** [handleAcknowledge] (lines 1331-1343). [alerts] inside the handler is
    the list of the render the handler was created in; while the call is
    awaited the polling cycle may land with [landed]
    ([setAlerts(alertsData.alerts || [])], line 102). *)
Definition handleAcknowledge (astronautId alertId action : string)
    (landed : option (list alert)) (ans : reply json) : C (list alert) unit :=
  sw ← (λ sw, (sw, Normal sw));
  let alerts := sw.1 in
  try_catch
    (call (api_acknowledgeAlert
             (astronaut_body astronautId
                [("alert_id", JStr alertId); ("action", JStr action)])
             ans) ;;
     set_state (λ current,
                  match landed with Some h => h | None => current end) ;;
     set_state (λ _, acknowledge_in alertId action alerts))
    (λ _,
       set_state (λ current,
                    match landed with Some h => h | None => current end) ;;
       call (console_error "Failed to acknowledge alert:")).

(** Lines 1345-1346. *)
Definition activeAlerts (l : list alert) : list alert := filter is_active l.

Definition acknowledgedAlerts (l : list alert) : list alert :=
  filter (λ a, negb (is_active a)) l.

(** *** [CrewOverview] (lines 1696-1727) *)

Record crew_entry : Type := mkCrew {
  crew_health : option Health.record;
  crew_alerts : option (list alert)          (* undefined when absent *)
}.






(** [getStatus] (lines 1718-1727), label and colour. Reading [.some] of
    an absent [alerts] raises a TypeError. *)
Definition getStatus (data : crew_entry) : completion (string * string) :=
  match crew_health data with
  | None => Normal ("No Data", "text-gray-400")
  | Some h =>
      match crew_alerts data with
      | None => Throw TypeError
      | Some al =>
          if existsb (λ a, is_active a && (2 <=? level a)%Z) al
          then Normal ("Attention Needed", "text-space-red")
          else if gt (Health.stress_level h) 70 || gt (Health.fatigue_level h) 70
               then Normal ("Elevated", "text-space-yellow")
               else Normal ("Optimal", "text-space-green")
      end
  end.

(** *** [HealthGauge] (lines 726-728) *)

Definition HealthGauge_percentage (value max : Q) : Q :=
  ((value / max) * 100)%Q.

(** *** [HealthTimeline] (lines 1044-1058) *)

(** [loadTimeline], the effect of [astronautId] and [days]. *)
Definition loadTimeline (id : string) (days : nat)
    (ans : reply (option timeline_result)) : C (list json) unit :=
  try_catch
    (result ← call (api_getTimeline id days ans);
     averages ← read result daily_averages;
     set_state (λ _, Js.or_empty averages))
    (λ _, call (console_error "Failed to load timeline:")).

(** *** [Dashboard]: the demo-data button (lines 305-317) *)

Definition api_generateSimulation {A} (id : string) (days : nat)
    (ans : reply A) : M A :=
  api_fetch ("/api/simulate/generate?astronaut_id=" ++ id ++ "&days="
             ++ pretty days) post_empty ans.

(** [generateDemoData] on the cell [generating]. *)
Definition generateDemoData (astronautId : string) (ans : reply json)
  : C bool unit :=
  set_state (λ _, true) ;;
  try_catch
    (call (api_generateSimulation astronautId 7 ans) ;;
     call window_location_reload)
    (λ _, call (console_error "Failed to generate data:")) ;;
  set_state (λ _, false).

(** *** [MissionContext]: saving the form (lines 1494-1516) *)

Definition api_updateContext {A} (data : payload) (ans : reply A) : M A :=
  api_fetch "/api/context/update" (post data) ans.

Record context_result : Type := mkContextResult {
  result_context : option json               (* .context *)
}.

(** The cells [editing] and [formData] of the component, and the cell
    [context] of [App] behind the prop [setContext]. *)
Record mission : Type := mkMission {
  editing : bool;
  formData : list (string * json);
  mission_context : option json
}.

(** [handleSave] (lines 1505-1516). *)
Definition handleSave (astronautId : string)
    (ans : reply (option context_result)) : C mission unit :=
  sw ← (λ sw, (sw, Normal sw));
  try_catch
    (result ← call (api_updateContext
                      (astronaut_body astronautId (formData sw.1)) ans);
     c ← read result result_context;
     set_state (λ st, {| editing := editing st; formData := formData st;
                         mission_context := c |}) ;;
     set_state (λ st, {| editing := false; formData := formData st;
                         mission_context := mission_context st |}))
    (λ _, call (console_error "Failed to update context:")).

(** A series of clicks on navigation entries. *)
Definition click_through (items : list view) (sw : app * world)
  : app * world :=
  fold_left (λ sw item, (navigate item sw).1) items sw.

End Frontend.

(** * Sample inputs and proof automation *)

(** Unfold one layer of gateway code and let the monad compute. *)
Ltac run_M :=
  unfold Unnamed.api_fetch, Frontend.api_fetch, Unnamed.api_setToken,
    Unnamed.set_api_token, window_location_reload, console_error,
    localStorage_removeItem, localStorage_setItem, response_json, throw,
    browser_fetch, try_catch, get_world, emit, raise, read, call, set_state,
    mbind, M_bind, C_bind, St_bind, mret, M_ret, C_ret, St_ret;
  cbn.

(** Read a byte test of [Js.strip_white_space] as equations on the
    bytes. *)
Ltac read_byte_tests :=
  repeat match goal with
    | H : (_ || _) = true |- _ => apply orb_true_iff in H; destruct H as [H | H]
    | H : (_ && _) = true |- _ => apply andb_true_iff in H; destruct H as [? ?]
    | H : (_ =? _)%N = true |- _ => apply N.eqb_eq in H
    | H : (_ <=? _)%N = true |- _ => apply N.leb_le in H
    end.

(** Membership of a closed list. *)
Ltac in_closed_list :=
  repeat first [apply list_elem_of_here | apply list_elem_of_further].

Definition w_stale : world :=
  {| REACT_APP_BACKEND_URL := None;
     api_token := Some "tok";
     localStorage := {[ "astra_token" := "tok" ]};
     trace := [] |}.

Definition w_fresh : world :=
  {| REACT_APP_BACKEND_URL := None; api_token := None;
     localStorage := ∅; trace := [] |}.

Definition commander : Unnamed.user_profile :=
  {| Unnamed.email := Some "a@b.c"; Unnamed.full_name := Some "A";
     Unnamed.role := Some "astronaut"; Unnamed.astronaut_id := Some "AST-001" |}.

Definition reply_hello : reply chat_result :=
  HttpResponse 200 (Some {| response := "hello"; message_id := JStr "m-1" |}).

Definition idle_chat : Unnamed.chat :=
  {| Unnamed.messages := []; Unnamed.input := " hi "; Unnamed.sending := false |}.

Definition idle_support : Frontend.support_chat :=
  {| Frontend.history_prop := []; Frontend.message := " hi ";
     Frontend.sending := false |}.

Definition answered (n : Z) (q a : string) : chat_exchange :=
  {| id := JNum (inject_Z n); user_message := q;
     assistant_response := Some a; timestamp := "t0" |}.

Definition unanswered (n : Z) (q : string) : chat_exchange :=
  {| id := JNum (inject_Z n); user_message := q;
     assistant_response := None; timestamp := "t0" |}.

Definition half : random_source := λ _, (1 # 2)%Q.

Definition front_camera : Scan.media_stream := Scan.mkStream [1%nat].

(** The retry after a refusal: consent, the camera is refused, stop, consent
    again, and this time the stream arrives. *)
Definition retry_session : list Scan.action :=
  [Scan.ClickConsent; Scan.MediaDenied; Scan.ClickStop;
   Scan.ClickConsent; Scan.MediaGranted front_camera; Scan.ClickStop].

Definition loaded_summary : Unnamed.summary :=
  {| Unnamed.health := None; Unnamed.baseline := None;
     Unnamed.timeline := Some [JStr "2026-01-01"];
     Unnamed.context := None;
     Unnamed.alerts := Some [JStr "alert-1"];
     Unnamed.facial_analysis := None |}.

Definition loaded_dash : Unnamed.dash :=
  {| Unnamed.currentView := Unnamed.dashboard; Unnamed.sidebarOpen := true;
     Unnamed.dashboardData := Some loaded_summary;
     Unnamed.dash_loading := false; Unnamed.facialData := None |}.

Definition mixed_batch : Frontend.batch :=
  {| Frontend.latestHealth := NetworkFailure;
     Frontend.timelineData := HttpResponse 500 None;
     Frontend.baselineData := HttpResponse 200 (Some (Some (JStr "baseline")));
     Frontend.alertsData :=
       HttpResponse 200 (Some (Some {| Frontend.alerts_of := Some [JStr "alert-1"] |}));
     Frontend.contextData := NetworkFailure;
     Frontend.chatData := HttpResponse 404 None |}.

Definition loaded_app : Frontend.app :=
  {| Frontend.currentView := Frontend.dashboard;
     Frontend.astronautId := "AST-001"; Frontend.userRole := "astronaut";
     Frontend.healthData := None; Frontend.timeline := [];
     Frontend.baseline := None; Frontend.alerts := [];
     Frontend.context := None; Frontend.chatHistory := [];
     Frontend.astronauts := ["AST-001"]; Frontend.loading := false |}.

Definition timeline_request : request :=
  {| url := "http://localhost:8001/api/health/timeline/AST-001?days=7";
     method := None; body := None;
     headers := {[ "Content-Type" := "application/json" ]} |}.

Definition caller_headers : request_init :=
  {| opt_method := None; opt_body := None;
     opt_headers := {[ "Authorization" := "Basic abc"; "X-Trace" := "1" ]} |}.

Definition roster_without_list : reply (option Frontend.roster_result) :=
  HttpResponse 200 (Some (Some {| Frontend.roster := None |})).

Definition health_degraded : reply (option Frontend.health_status) :=
  HttpResponse 200 (Some (Some {| Frontend.service_status := Some "degraded" |})).

Definition stress_alert : alert :=
  {| alert_id := "a-1"; level := 3; alert_message := "High stress";
     status := "active" |}.

Definition sleep_alert : alert :=
  {| alert_id := "a-2"; level := 1; alert_message := "Short sleep";
     status := "active" |}.

Definition calm_vitals : Health.record :=
  {| Health.heart_rate := 70; Health.hrv := 50; Health.stress_level := 35;
     Health.fatigue_level := 30; Health.validation := None |}.


Definition summary_with_scan : Unnamed.summary :=
  {| Unnamed.health := Some calm_vitals; Unnamed.baseline := None;
     Unnamed.timeline := None; Unnamed.context := None;
     Unnamed.alerts := None;
     Unnamed.facial_analysis := Some (JObj [("mood_state", JStr "calm")]) |}.

Definition roster_of_two : reply (option Unnamed.roster_result) :=
  HttpResponse 200
    (Some (Some {| Unnamed.roster := Some ["AST-001"; "AST-002"] |})).

(** Round 0 answers a summary; every other round is refused. *)
Definition summary_answers (i : nat) : reply (option Unnamed.summary) :=
  match i with
  | O => HttpResponse 200 (Some (Some summary_with_scan))
  | _ => HttpResponse 500 None
  end.

Definition strained_vitals : Health.record :=
  {| Health.heart_rate := 170; Health.hrv := 20; Health.stress_level := 100;
     Health.fatigue_level := 100; Health.validation := None |}.

(** A message of white space only: SPACE, NO-BREAK SPACE, LINE SEPARATOR. *)
Definition blank_message : string := Js.utf8 [0x20; 0xA0; 0x2028]%N.

(** * Properties *)

(** ** Shared facts about the effect monad and the gateways *)

Lemma truthy_Some (t : string) :
  t ≠ "" → Js.truthy_string t = true.
Proof. destruct t; [congruence | reflexivity]. Qed.

(** [api.setToken(null)] leaves no token in memory and none in storage. *)
Lemma setToken_null (w : world) :
  Unnamed.api_setToken None w =
    ({| REACT_APP_BACKEND_URL := REACT_APP_BACKEND_URL w;
        api_token := None;
        localStorage := delete "astra_token" (localStorage w);
        trace := (trace w ++ [RemoveItem "astra_token"])%list |}, Normal tt).
Proof. reflexivity. Qed.

(** ** C2: the gateway, the bearer token and the 401 policy *)

(** C2, as stated, fails for the gateway of [src/frontend/src/App.js]: a 401
    answer is thrown like any other status; nothing is cleared and no reload
    is requested. *)
Lemma C2_frontend_401_does_not_reload :
  let out := Frontend.api_fetch "/api/health" no_options
               (HttpResponse 401 (@None json)) w_stale in
  out.2 = Throw (ApiError 401)
  ∧ trace (out.1) =
      [NetRequest (Frontend.fetch_request w_stale "/api/health" no_options);
       Thrown (ApiError 401)]
  ∧ (Reload ∉ trace (out.1))
  ∧ headers (Frontend.fetch_request w_stale "/api/health" no_options)
      !! "Authorization" = None
  ∧ localStorage (out.1) !! "astra_token" = Some "tok".
Proof.
  cbn. repeat split.
  intros H. repeat (apply elem_of_cons in H as [H | H]; [discriminate |]).
  now apply elem_of_nil in H.
Qed.

(** C2 (amended): for every request issued through the gateway of
    [src/unnamed/part_000], the request carries [Authorization: Bearer <token>]
    whenever a token is present; any non-2xx answer ends in a thrown error
    carrying the status; and on a 401 answer the token has been cleared in
    memory and in storage and the reload requested before that error is
    thrown. The gateway of [src/frontend/src/App.js] keeps no token: it adds
    no Authorization header of its own and throws on a 401 as on any other
    non-2xx status, with no other step. *)
Theorem C2_gateway_bearer_and_401 {A} (w : world) (endpoint : string)
    (options : request_init) :
  let r := Unnamed.fetch_request w endpoint options in
  (∀ t, api_token w = Some t → t ≠ "" →
        headers r !! "Authorization" = Some ("Bearer " ++ t))
  ∧ (∀ body : option A,
       let out := Unnamed.api_fetch endpoint options (HttpResponse 401 body) w in
       out.2 = Throw (ApiError 401)
       ∧ api_token (out.1) = None
       ∧ localStorage (out.1) !! "astra_token" = None
       ∧ trace (out.1) =
           (trace w ++ [NetRequest r; RemoveItem "astra_token"; Reload;
                        Thrown (ApiError 401)])%list)
  ∧ (∀ (status : Z) (body : option A), ok status = false →
       (Unnamed.api_fetch endpoint options (HttpResponse status body) w).2
       = Throw (ApiError status))
  ∧ (let r' := Frontend.fetch_request w endpoint options in
     headers r' !! "Authorization" = opt_headers options !! "Authorization"
     ∧ ∀ (status : Z) (body : option A), ok status = false →
         Frontend.api_fetch endpoint options (HttpResponse status body) w
         = ({| REACT_APP_BACKEND_URL := REACT_APP_BACKEND_URL w;
               api_token := api_token w;
               localStorage := localStorage w;
               trace := (trace w ++ [NetRequest r'; Thrown (ApiError status)])%list |},
            Throw (ApiError status))).
Proof.
  cbn zeta. split; [| split; [| split; [| split]]].
  - intros t Ht Hne. unfold Unnamed.fetch_request, Unnamed.fetch_headers; cbn.
    rewrite Ht, (truthy_Some t Hne). apply lookup_insert_eq.
  - intros body. run_M. rewrite <- !app_assoc. cbn.
    repeat split. apply lookup_delete_eq.
  - intros status body Hok.
    run_M.
    destruct (status =? 401)%Z; cbn; rewrite Hok; reflexivity.
  - unfold Frontend.fetch_request, Frontend.fetch_headers; cbn.
    rewrite lookup_union, lookup_singleton_ne by discriminate.
    now destruct (opt_headers options !! "Authorization").
  - intros status body Hok.
    run_M.
    rewrite Hok; cbn. now rewrite <- app_assoc.
Qed.

Lemma C2_gateway_bearer_and_401_witness :
  headers (Unnamed.fetch_request w_stale "/api/auth/me" no_options)
    !! "Authorization" = Some "Bearer tok"
  ∧ (Unnamed.api_fetch "/api/auth/me" no_options
       (HttpResponse 403 (@None json)) w_stale).2 = Throw (ApiError 403).
Proof.
  destruct (@C2_gateway_bearer_and_401 json w_stale "/api/auth/me" no_options)
    as (Hbearer & _ & Hthrow & _).
  split.
  - apply (Hbearer "tok"); [reflexivity | discriminate].
  - apply Hthrow. reflexivity.
Defined.

(** ** C4: login, then logout *)

Lemma ok_is_not_401 (status : Z) : ok status = true → (status =? 401)%Z = false.
Proof.
  unfold ok. intros H. apply andb_true_iff in H as [_ H].
  apply Z.leb_le in H. apply Z.eqb_neq. lia.
Qed.

(** Whatever the session was, [logout] ends with no token in memory, no
    token in storage and no user. *)
Lemma logout_clears (w : world) (st : Unnamed.app) :
  ∃ w', Unnamed.logout st w = (w', Normal (Unnamed.setUser None st))
        ∧ api_token w' = None
        ∧ localStorage w' !! "astra_token" = None.
Proof.
  unfold Unnamed.logout. run_M. eexists. split; [reflexivity |].
  cbn. split; [reflexivity | apply lookup_delete_eq].
Qed.

(** A login that the backend answers with a 2xx status and a result object
    stores what the object holds. *)
Lemma login_stores (w : world) (st : Unnamed.app) (email password : string)
    (status : Z) (result : Unnamed.auth_result) :
  ok status = true →
  ∃ w', Unnamed.login st email password
          (HttpResponse status (Some (Some result))) w
        = (w', Normal (Unnamed.setUser (Unnamed.user_of result) st))
        ∧ api_token w' = Unnamed.access_token result.
Proof.
  intros Hok. unfold Unnamed.login, Unnamed.api_login. run_M.
  rewrite (ok_is_not_401 _ Hok), Hok. cbn.
  destruct (Unnamed.access_token result) as [t |]; cbn.
  - destruct (Js.truthy_string t); cbn; eexists; split; reflexivity.
  - eexists; split; reflexivity.
Qed.

(** The start-up check always ends the loading state, so the login form
    is up whenever a login is submitted. *)
Lemma checkAuth_ends_loading (w : world) (st : Unnamed.app)
    (ans : reply (option Unnamed.user_profile)) :
  ∃ w' st', Unnamed.checkAuth st ans w = (w', Normal st')
            ∧ Unnamed.loading st' = false.
Proof.
  unfold Unnamed.checkAuth, Unnamed.api_getMe. run_M.
  destruct (Js.truthy (api_token w)); cbn; [| do 2 eexists; split; reflexivity].
  destruct ans as [| status body]; cbn; [do 2 eexists; split; reflexivity |].
  destruct (status =? 401)%Z; cbn; destruct (ok status); cbn;
    try destruct body; cbn; do 2 eexists; split; reflexivity.
Qed.

(** C4: for every successful login followed by logout (the login form is
    only shown once the start-up check has finished, [loading = false]), the
    session is back at token absent and user absent, the storage key
    [astra_token] is absent, and [App] renders the login page. *)
Theorem C4_login_then_logout (w : world) (st : Unnamed.app)
    (email password : string) (status : Z) (result : Unnamed.auth_result) :
  ok status = true →
  Unnamed.loading st = false →
  ∃ w1 st1 w2 st2,
    Unnamed.login st email password
      (HttpResponse status (Some (Some result))) w = (w1, Normal st1)
    ∧ Unnamed.logout st1 w1 = (w2, Normal st2)
    ∧ api_token w2 = None
    ∧ Unnamed.user st2 = None
    ∧ localStorage w2 !! "astra_token" = None
    ∧ Unnamed.App_render st2 = Unnamed.LoginScreen.
Proof.
  intros Hok Hload.
  destruct (login_stores w st email password status result Hok) as (w1 & H1 & _).
  destruct (logout_clears w1 (Unnamed.setUser (Unnamed.user_of result) st))
    as (w2 & H2 & Htok & Hsto).
  exists w1, (Unnamed.setUser (Unnamed.user_of result) st), w2,
    (Unnamed.setUser None (Unnamed.setUser (Unnamed.user_of result) st)).
  repeat split; try assumption.
  unfold Unnamed.App_render. cbn. now rewrite Hload.
Qed.

Lemma C4_login_then_logout_witness :
  ∃ w1 st1 w2 st2,
    Unnamed.login {| Unnamed.user := None; Unnamed.loading := false |}
      "a@b.c" "pw"
      (HttpResponse 200
         (Some (Some {| Unnamed.access_token := Some "tok";
                        Unnamed.user_of := Some commander |}))) w_fresh
    = (w1, Normal st1)
    ∧ Unnamed.logout st1 w1 = (w2, Normal st2)
    ∧ api_token w2 = None
    ∧ Unnamed.user st2 = None
    ∧ localStorage w2 !! "astra_token" = None
    ∧ Unnamed.App_render st2 = Unnamed.LoginScreen.
Proof.
  apply (C4_login_then_logout w_fresh
           {| Unnamed.user := None; Unnamed.loading := false |} "a@b.c" "pw" 200
           {| Unnamed.access_token := Some "tok";
              Unnamed.user_of := Some commander |});
    reflexivity.
Defined.

(** ** C1 and C10: the optimistic chat pipelines *)

Lemma slice_0_m1_snoc {A} (l : list A) (x : A) : Js.slice_0_m1 (l ++ [x]) = l.
Proof.
  unfold Js.slice_0_m1. rewrite length_app. cbn [length].
  replace (length l + 1 - 1)%nat with (length l) by lia.
  apply take_app_length.
Qed.

Lemma trim_truthy (text : string) :
  Js.trim text ≠ "" → Js.truthy_string (Js.trim text) = true.
Proof. apply truthy_Some. Qed.

(** A refused send changes nothing and sends nothing. *)
Lemma sendMessage_refused (w : world) (astronautId : string)
    (st : Unnamed.chat) (text : string) (now : Z) (iso : string)
    (landed : option (list chat_exchange)) (ans : reply chat_result) :
  Unnamed.send_refused st text = true →
  Unnamed.sendMessage astronautId st text now iso landed ans w = (w, Normal st).
Proof. intros H. unfold Unnamed.sendMessage. now rewrite H. Qed.

(** The send call succeeds on a 2xx answer with a JSON body and fails on a
    network failure: both outcomes occur. *)
Lemma sendChat_outcomes (w : world) (data : payload) (result : chat_result) :
  (∃ w', Unnamed.api_sendChat data (HttpResponse 200 (Some result)) w
         = (w', Normal result))
  ∧ (∃ w', Unnamed.api_sendChat data (@NetworkFailure chat_result) w
           = (w', Throw FetchRejected))
  ∧ (∃ w', Frontend.api_sendChat data (HttpResponse 200 (Some result)) w
           = (w', Normal result))
  ∧ (∃ w', Frontend.api_sendChat data (@NetworkFailure chat_result) w
           = (w', Throw FetchRejected)).
Proof.
  unfold Unnamed.api_sendChat, Frontend.api_sendChat.
  repeat split; run_M; eexists; reflexivity.
Qed.

(** What lands while a send is awaited: a history load that succeeds with
    the list [h] is [setMessages] to [h], that is [during_await (Some h)]. *)
Lemma loadHistory_lands (w : world) (astronautId : string) (st : Unnamed.chat)
    (h : list chat_exchange) :
  ∃ w', Unnamed.loadHistory astronautId st
          (HttpResponse 200 (Some (Some {| history := Some h |}))) w
        = (w', Normal (Unnamed.during_await (Some h) st)).
Proof.
  unfold Unnamed.loadHistory, Unnamed.api_getChatHistory. run_M.
  eexists. reflexivity.
Qed.

(** C1, evaluated for [AstraSupport] (part_000) on a send during which the
    history load of the mount effect lands. The history was empty before the
    send; the load brings three answered entries. On success the history
    then has three entries, not one, and none of them carries the reply: the
    exchange just sent is gone. On failure the last loaded entry is dropped
    and two remain, not zero. *)
Theorem C1_history_load_lands_during_send :
  let loaded := [answered 1 "a" "A"; answered 2 "b" "B"; answered 3 "c" "C"] in
  let sent := Unnamed.sendMessage "AST-001" idle_chat " hi " 1700 "t1"
                (Some loaded) reply_hello w_fresh in
  let failed := Unnamed.sendMessage "AST-001" idle_chat " hi " 1700 "t1"
                  (Some loaded) (@NetworkFailure chat_result) w_fresh in
  length (Unnamed.messages idle_chat) = 0%nat
  ∧ (∃ st', sent.2 = Normal st'
            ∧ Unnamed.messages st' = loaded
            ∧ length (Unnamed.messages st') ≠ 1%nat
            ∧ Forall (λ m, assistant_response m ≠ Some "hello")
                (Unnamed.messages st'))
  ∧ (∃ st', failed.2 = Normal st'
            ∧ Unnamed.messages st' = [answered 1 "a" "A"; answered 2 "b" "B"]
            ∧ length (Unnamed.messages st') ≠ 0%nat).
Proof.
  cbn zeta. split; [reflexivity |]. split.
  - eexists. split; [reflexivity |]. cbn. split; [reflexivity |].
    split; [discriminate |]. repeat constructor; discriminate.
  - eexists. split; [reflexivity |]. cbn. split; [reflexivity | discriminate].
Qed.

(** The round trip the pipelines are built for: a send of text that is not
    blank, with no send in flight. In [SupportChat] (App.js), whatever lands
    while the call is awaited, and in [AstraSupport] (part_000), when no
    history load lands while the call is awaited: if the chat call succeeds
    the history is one entry longer than before the send and its last entry,
    the exchange just sent, carries the reply; if the call fails the history
    is the one from before the send. *)
Lemma chat_round_trip_when_nothing_lands (w : world) (astronautId text : string)
    (now : Z) (iso1 iso2 : string) (ans : reply chat_result)
    (landed : option (list chat_exchange))
    (su : Unnamed.chat) (sf : Frontend.support_chat) :
  Js.trim text ≠ "" →
  Unnamed.sending su = false →
  Frontend.message sf = text →
  Frontend.sending sf = false →
  match Unnamed.api_sendChat (ChatBody astronautId (Js.trim text)) ans w with
  | (w', Normal result) =>
      ∃ su',
        Unnamed.sendMessage astronautId su text now iso1 None ans w
        = (w', Normal su')
        ∧ length (Unnamed.messages su') = S (length (Unnamed.messages su))
        ∧ last (Unnamed.messages su')
          = Some {| id := JNum (inject_Z now); user_message := Js.trim text;
                    assistant_response := Some (response result);
                    timestamp := iso1 |}
        ∧ Unnamed.sending su' = false
  | (w', Throw _) =>
      ∃ su',
        Unnamed.sendMessage astronautId su text now iso1 None ans w
        = (w', Normal su')
        ∧ Unnamed.messages su' = Unnamed.messages su
        ∧ Unnamed.sending su' = false
  end
  ∧
  match Frontend.api_sendChat (ChatBody astronautId (Js.trim text)) ans w with
  | (w', Normal result) =>
      ∃ sf',
        Frontend.sendMessage astronautId sf now iso1 iso2 landed ans w
        = (w', Normal sf')
        ∧ length (Frontend.history_prop sf') = S (length (Frontend.history_prop sf))
        ∧ last (Frontend.history_prop sf')
          = Some {| id := message_id result; user_message := Js.trim text;
                    assistant_response := Some (response result);
                    timestamp := iso2 |}
        ∧ Frontend.sending sf' = false
  | (w', Throw _) =>
      ∃ w'' sf',
        Frontend.sendMessage astronautId sf now iso1 iso2 landed ans w
        = (w'', Normal sf')
        ∧ Frontend.history_prop sf' = Frontend.history_prop sf
        ∧ Frontend.sending sf' = false
  end.
Proof.
  intros Htext Hsu Hmsg Hsf. split.
  - unfold Unnamed.sendMessage, Unnamed.send_refused.
    rewrite (trim_truthy _ Htext), Hsu. cbn [negb orb].
    unfold try_catch, mbind, M_bind, St_bind, mret, M_ret, St_ret.
    destruct (Unnamed.api_sendChat _ ans w) as [w' [result | e]];
      cbn -[Js.slice_0_m1].
    + eexists. split; [reflexivity |]. cbn.
      rewrite map_app, length_app, length_map. cbn [map]. rewrite last_snoc.
      cbn. repeat split. lia.
    + eexists. split; [reflexivity |]. cbn -[Js.slice_0_m1].
      unfold Unnamed.rollback. now rewrite slice_0_m1_snoc.
  - unfold Frontend.sendMessage, Frontend.send_refused.
    rewrite Hmsg, (trim_truthy _ Htext), Hsf. cbn [negb orb].
    unfold try_catch, mbind, M_bind, St_bind, mret, M_ret, St_ret.
    destruct (Frontend.api_sendChat _ ans w) as [w' [result | e]]; cbn.
    + eexists. split; [reflexivity |]. cbn.
      rewrite length_app, last_snoc. cbn. repeat split. lia.
    + do 2 eexists. split; [reflexivity |]. cbn. split; reflexivity.
Qed.

Lemma chat_round_trip_example :
  Js.trim " hi " = "hi"
  ∧ ∃ su' sf',
      (Unnamed.sendMessage "AST-001" idle_chat " hi " 1700 "t1" None
         reply_hello w_fresh).2 = Normal su'
      ∧ length (Unnamed.messages su') = 1%nat
      ∧ (Frontend.sendMessage "AST-001" idle_support 1700 "t1" "t2" None
           reply_hello w_fresh).2 = Normal sf'
      ∧ length (Frontend.history_prop sf') = 1%nat.
Proof.
  split; [reflexivity |].
  destruct (chat_round_trip_when_nothing_lands w_fresh "AST-001" " hi " 1700
              "t1" "t2" reply_hello None idle_chat idle_support)
    as [Hu Hf]; [discriminate | reflexivity | reflexivity | reflexivity |].
  cbn in Hu, Hf.
  destruct Hu as (su' & Hu & Hlu & _). destruct Hf as (sf' & Hf & Hlf & _).
  exists su', sf'. rewrite Hu, Hf. repeat split; assumption.
Defined.

Lemma fill_response_null (r : string) (m : chat_exchange) :
  assistant_response m = None →
  assistant_response (Unnamed.fill_response r m) = Some r
  ∧ id (Unnamed.fill_response r m) = id m
  ∧ user_message (Unnamed.fill_response r m) = user_message m.
Proof. intros H. unfold Unnamed.fill_response. now rewrite H. Qed.

Lemma fill_response_answered (r : string) (m : chat_exchange) :
  assistant_response m ≠ None → Unnamed.fill_response r m = m.
Proof.
  unfold Unnamed.fill_response. destruct (assistant_response m); congruence.
Qed.

(** C10: in [AstraSupport] (part_000) the reply and the rollback are applied
    to the message list as it is when the call settles, by null response and
    by position, never by the generated id. On success every entry whose
    response is null receives the reply, and the other entries are kept; on
    failure the last entry is dropped, whatever it is. So when the history
    load has replaced the list in between, a failure drops the last loaded
    entry even though it is not the pending one. *)
Theorem C10_reconcile_and_rollback_by_position (w : world)
    (astronautId text : string) (now : Z) (iso : string)
    (landed : option (list chat_exchange)) (ans : reply chat_result)
    (st : Unnamed.chat) :
  Unnamed.send_refused st text = false →
  let current :=
    match landed with
    | Some h => h
    | None => (Unnamed.messages st
               ++ [Unnamed.pending_exchange (Js.trim text) now iso])%list
    end in
  match Unnamed.api_sendChat (ChatBody astronautId (Js.trim text)) ans w with
  | (w', Normal result) =>
      ∃ st',
        Unnamed.sendMessage astronautId st text now iso landed ans w
        = (w', Normal st')
        ∧ Unnamed.messages st' = map (Unnamed.fill_response (response result)) current
        ∧ (∀ i m, current !! i = Some m → assistant_response m = None →
             ∃ m', Unnamed.messages st' !! i = Some m'
                   ∧ assistant_response m' = Some (response result)
                   ∧ id m' = id m)
        ∧ (∀ i m, current !! i = Some m → assistant_response m ≠ None →
             Unnamed.messages st' !! i = Some m)
  | (w', Throw _) =>
      ∃ st',
        Unnamed.sendMessage astronautId st text now iso landed ans w
        = (w', Normal st')
        ∧ Unnamed.messages st' = Js.slice_0_m1 current
        ∧ (∀ h m, current = (h ++ [m])%list → Unnamed.messages st' = h)
  end.
Proof.
  intros Hguard current. unfold Unnamed.sendMessage. rewrite Hguard.
  unfold try_catch, mbind, M_bind, St_bind, mret, M_ret, St_ret.
  destruct (Unnamed.api_sendChat _ ans w) as [w' [result | e]].
  - eexists. split; [reflexivity |].
    assert (Hcur : Unnamed.messages
                     (Unnamed.setSending false
                        (Unnamed.setMessages
                           (Unnamed.reconcile (response result))
                           (Unnamed.during_await landed
                              (Unnamed.setMessages
                                 (λ prev, (prev ++ [Unnamed.pending_exchange
                                                      (Js.trim text) now iso])%list)
                                 (Unnamed.setSending true
                                    (Unnamed.setInput "" st))))))
                   = map (Unnamed.fill_response (response result)) current).
    { subst current. now destruct landed. }
    rewrite Hcur. split; [reflexivity |]. split.
    + intros i m Hi Hnull. exists (Unnamed.fill_response (response result) m).
      rewrite list_lookup_fmap, Hi. split; [reflexivity |].
      destruct (fill_response_null (response result) m Hnull) as (? & ? & _).
      now split.
    + intros i m Hi Hans. rewrite list_lookup_fmap, Hi. cbn.
      now rewrite fill_response_answered.
  - eexists. split; [reflexivity |].
    assert (Hcur : Unnamed.messages
                     (Unnamed.setSending false
                        (Unnamed.setMessages Unnamed.rollback
                           (Unnamed.during_await landed
                              (Unnamed.setMessages
                                 (λ prev, (prev ++ [Unnamed.pending_exchange
                                                      (Js.trim text) now iso])%list)
                                 (Unnamed.setSending true
                                    (Unnamed.setInput "" st))))))
                   = Js.slice_0_m1 current).
    { subst current. now destruct landed. }
    rewrite Hcur. split; [reflexivity |].
    intros h m ->. apply slice_0_m1_snoc.
Qed.

(** The two situations C10 names, on concrete lists: the history load lands
    with two answered entries and the send fails, so the second loaded entry
    is dropped; two entries are unanswered when the reply arrives, so both
    receive it. *)
Lemma C10_reconcile_and_rollback_by_position_witness :
  Unnamed.send_refused idle_chat " hi " = false
  ∧ (∃ st',
       (Unnamed.sendMessage "AST-001" idle_chat " hi " 1700 "t1"
          (Some [answered 1 "a" "A"; answered 2 "b" "B"])
          (@NetworkFailure chat_result) w_fresh).2 = Normal st'
       ∧ Unnamed.messages st' = [answered 1 "a" "A"])
  ∧ (∃ st',
       (Unnamed.sendMessage "AST-001" idle_chat " hi " 1700 "t1"
          (Some [unanswered 1 "a"; unanswered 2 "b"])
          reply_hello w_fresh).2 = Normal st'
       ∧ Unnamed.messages st'
         = [answered 1 "a" "hello"; answered 2 "b" "hello"]).
Proof.
  split; [reflexivity |]. split.
  - pose proof (C10_reconcile_and_rollback_by_position w_fresh "AST-001" " hi "
                  1700 "t1" (Some [answered 1 "a" "A"; answered 2 "b" "B"])
                  (@NetworkFailure chat_result) idle_chat eq_refl) as H.
    cbn in H. destruct H as (st' & Hrun & Hmsg & _).
    exists st'. rewrite Hrun. split; [reflexivity | exact Hmsg].
  - pose proof (C10_reconcile_and_rollback_by_position w_fresh "AST-001" " hi "
                  1700 "t1" (Some [unanswered 1 "a"; unanswered 2 "b"])
                  reply_hello idle_chat eq_refl) as H.
    cbn in H. destruct H as (st' & Hrun & Hmsg & _).
    exists st'. rewrite Hrun. split; [reflexivity | exact Hmsg].
Defined.

(** ** C3: the ranges of the mock scan *)

Lemma pick_in_range (arr : list string) (r : Q) :
  arr ≠ [] → (0 <= r)%Q → (r < 1)%Q →
  ∃ m, pick arr r = Some m ∧ m ∈ arr.
Proof.
  intros Hne H0 H1. unfold pick, Js.Math_floor.
  set (n := Z.of_nat (length arr)).
  assert (Hn : (0 < n)%Z) by (destruct arr; [congruence | subst n; cbn; lia]).
  assert (Hlo : (0 <= Qfloor (r * inject_Z n))%Z).
  { change 0%Z with (Qfloor 0). apply Qfloor_resp_le.
    apply Qmult_le_0_compat; [assumption |].
    change 0%Q with (inject_Z 0). rewrite <- Zle_Qle. lia. }
  assert (Hhi : (Qfloor (r * inject_Z n) < n)%Z).
  { rewrite Zlt_Qlt. eapply Qle_lt_trans; [apply Qfloor_le |].
    rewrite <- (Qmult_1_l (inject_Z n)) at 2.
    apply Qmult_lt_compat_r; [| assumption].
    change 0%Q with (inject_Z 0). rewrite <- Zlt_Qlt. lia. }
  destruct (Z.ltb_spec (Qfloor (r * inject_Z n)) 0) as [Hneg | _]; [lia |].
  destruct (lookup_lt_is_Some_2 arr (Z.to_nat (Qfloor (r * inject_Z n))))
    as [m Hm]; [subst n; lia |].
  exists m. split; [exact Hm |]. eapply list_elem_of_lookup_2, Hm.
Qed.

(** What [performScan] leaves in the component, for any answer of the
    backend and any state of the camera. *)
Lemma performScan_state_unnamed (astronautId : string) (rand : random_source)
    (onScanComplete : Unnamed.scan_results → M unit) (ans : reply json)
    (st : Unnamed.scan) (w : world) :
  ∃ w', Unnamed.performScan astronautId rand onScanComplete ans (st, w)
        = ((Scan.setScanning false
              (Scan.setResults (Some (Unnamed.simulatedResults rand))
                 (Scan.setScanning true st)), w'), Normal tt).
Proof.
  unfold Unnamed.performScan. run_M.
  destruct (Unnamed.api_storeFacialAnalysis _ ans w) as [w1 [j | e]]; cbn.
  - destruct (onScanComplete _ w1) as [w2 [[] | e]]; cbn; eexists; reflexivity.
  - eexists; reflexivity.
Qed.

Lemma performScan_state_frontend (astronautId : string) (rand : random_source)
    (ans : reply json) (st : Frontend.scan) (w : world) :
  ∃ w', Frontend.performScan astronautId rand ans (st, w)
        = ((Scan.setScanning false
              (Scan.setResults (Some (Frontend.simulatedResults rand))
                 (Scan.setScanning true st)), w'), Normal tt).
Proof.
  unfold Frontend.performScan. run_M.
  destruct (Frontend.api_storeFacialAnalysis _ ans w) as [w1 [j | e]]; cbn;
    eexists; reflexivity.
Qed.

(** C3: whenever [Math.random] answers within [0, 1), the bundle of either
    variant has its heart-rate estimate in [65, 90], its stress index in
    [15, 60], its alertness in [55, 90] and its overall confidence in
    [0.75, 0.95]; the mood is one of the four of the variant's list; and the
    bundle a scan stores as its results is this function of the random draws
    alone, whatever the component state (video element, stream) and the
    world are. *)
Theorem C3_mock_scan_ranges (rand : random_source) :
  unit_interval rand →
  let u := Unnamed.simulatedResults rand in
  let f := Frontend.simulatedResults rand in
  (65 <= Unnamed.estimated_hr u <= 90)%Q
  ∧ (15 <= Unnamed.mental_stress_index u <= 60)%Q
  ∧ (55 <= Unnamed.alertness_level u <= 90)%Q
  ∧ ((3 # 4) <= Unnamed.confidence_overall u <= (19 # 20))%Q
  ∧ (∃ m, Unnamed.mood_state u = Some m
          ∧ m ∈ ["calm"; "neutral"; "focused"; "alert"])
  ∧ (65 <= Frontend.heart_rate (Frontend.vital_estimates f) <= 90)%Q
  ∧ (15 <= Frontend.mental_stress_index (Frontend.mental_indicators f) <= 60)%Q
  ∧ (55 <= Frontend.alertness_level (Frontend.mental_indicators f) <= 90)%Q
  ∧ ((3 # 4) <= Frontend.overall (Frontend.confidence_scores f) <= (19 # 20))%Q
  ∧ (∃ m, Frontend.mood_state (Frontend.mental_indicators f) = Some m
          ∧ m ∈ ["calm"; "neutral"; "focused"; "slightly_stressed"])
  ∧ (∀ astronautId onScanComplete ans (st : Unnamed.scan) w,
       Scan.results
         (Unnamed.performScan astronautId rand onScanComplete ans (st, w)).1.1
       = Some u)
  ∧ (∀ astronautId ans (st : Frontend.scan) w,
       Scan.results (Frontend.performScan astronautId rand ans (st, w)).1.1
       = Some f).
Proof.
  intros Hr u f.
  pose proof (Hr 0%nat) as [? ?]. pose proof (Hr 5%nat) as [? ?].
  pose proof (Hr 6%nat) as [? ?]. pose proof (Hr 8%nat) as [? ?].
  pose proof (Hr 15%nat) as [? ?].
  subst u f. cbn -[pick Qplus Qmult Qle].
  repeat match goal with |- _ ∧ _ => split end;
    try (cbn -[Qplus Qmult Qle]; lra).
  - apply pick_in_range; [discriminate | assumption | assumption].
  - apply pick_in_range; [discriminate | assumption | assumption].
  - intros astronautId onScanComplete ans st w.
    destruct (performScan_state_unnamed astronautId rand onScanComplete ans st w)
      as [w' ->]. reflexivity.
  - intros astronautId ans st w.
    destruct (performScan_state_frontend astronautId rand ans st w)
      as [w' ->]. reflexivity.
Qed.

Lemma half_in_unit_interval : unit_interval half.
Proof. intros i. unfold half. split; [discriminate | reflexivity]. Qed.

Lemma C3_mock_scan_ranges_witness :
  unit_interval half
  ∧ (65 <= Unnamed.estimated_hr (Unnamed.simulatedResults half) <= 90)%Q
  ∧ (∃ m, Unnamed.mood_state (Unnamed.simulatedResults half) = Some m
          ∧ m ∈ ["calm"; "neutral"; "focused"; "alert"]).
Proof.
  split; [exact half_in_unit_interval |].
  destruct (C3_mock_scan_ranges half half_in_unit_interval)
    as (Hhr & _ & _ & _ & Hmood & _).
  split; assumption.
Defined.

(** The remaining numeric fields, each within the range its expression
    spans. *)
Lemma scan_other_fields_in_range (rand : random_source) :
  unit_interval rand →
  let u := Unnamed.simulatedResults rand in
  let f := Frontend.simulatedResults rand in
  ((14 <= Unnamed.respiration_rate u <= 20)%Q
   ∧ (45 <= Unnamed.hrv_trend u <= 75)%Q
   ∧ (95 <= Unnamed.oxygen_saturation_trend u <= 99)%Q
   ∧ (15 <= Unnamed.fatigue_probability u <= 55)%Q
   ∧ (10 <= Unnamed.facial_tension u <= 40)%Q
   ∧ (0 <= Unnamed.pain_likelihood u <= 15)%Q
   ∧ (15 <= Unnamed.blink_rate u <= 25)%Q
   ∧ (70 <= Unnamed.eye_openness u <= 95)%Q
   ∧ (0 <= Unnamed.dehydration_risk u <= 30)%Q)
  ∧ ((65 <= Frontend.heart_rate (Frontend.vital_estimates f) <= 85)%Q
     ∧ (14 <= Frontend.respiration_rate (Frontend.vital_estimates f) <= 20)%Q
     ∧ (45 <= Frontend.hrv_trend (Frontend.vital_estimates f) <= 75)%Q
     ∧ (95 <= Frontend.oxygen_saturation_trend (Frontend.vital_estimates f) <= 99)%Q
     ∧ (20 <= Frontend.mental_stress_index (Frontend.mental_indicators f) <= 60)%Q
     ∧ (15 <= Frontend.fatigue_probability (Frontend.mental_indicators f) <= 50)%Q
     ∧ (60 <= Frontend.alertness_level (Frontend.mental_indicators f) <= 90)%Q
     ∧ (10 <= Frontend.facial_tension (Frontend.mental_indicators f) <= 40)%Q
     ∧ (0 <= Frontend.pain_likelihood (Frontend.mental_indicators f) <= 15)%Q
     ∧ (15 <= Frontend.blink_rate (Frontend.physical_indicators f) <= 25)%Q
     ∧ (70 <= Frontend.eye_openness (Frontend.physical_indicators f) <= 95)%Q
     ∧ (0 <= Frontend.dehydration_risk (Frontend.physical_indicators f) <= 30)%Q
     ∧ ((6 # 10) <= Frontend.vital (Frontend.confidence_scores f) <= (9 # 10))%Q
     ∧ ((7 # 10) <= Frontend.mental (Frontend.confidence_scores f) <= (19 # 20))%Q).
Proof.
  intros Hr u f. subst u f. cbn -[Qplus Qmult Qle].
  pose proof (Hr 0%nat) as [? ?]. pose proof (Hr 1%nat) as [? ?].
  pose proof (Hr 2%nat) as [? ?]. pose proof (Hr 3%nat) as [? ?].
  pose proof (Hr 6%nat) as [? ?]. pose proof (Hr 7%nat) as [? ?].
  pose proof (Hr 8%nat) as [? ?]. pose proof (Hr 9%nat) as [? ?].
  pose proof (Hr 10%nat) as [? ?]. pose proof (Hr 11%nat) as [? ?].
  pose proof (Hr 12%nat) as [? ?]. pose proof (Hr 14%nat) as [? ?].
  pose proof (Hr 16%nat) as [? ?]. pose proof (Hr 17%nat) as [? ?].
  repeat match goal with |- _ ∧ _ => split end; lra.
Qed.

(** ** C8: a failed store does not touch the displayed results *)

(** Every gateway call first sends its request. *)
Lemma unnamed_fetch_sends_first {A} (endpoint : string)
    (options : request_init) (ans : reply A) (w : world) :
  ∃ rest, trace (Unnamed.api_fetch endpoint options ans w).1
          = (trace w ++ NetRequest (Unnamed.fetch_request w endpoint options)
                        :: rest)%list.
Proof.
  run_M. destruct ans as [| status body]; cbn.
  - now exists [].
  - destruct (status =? 401)%Z; cbn; destruct (ok status); cbn;
      destruct body; cbn; rewrite <- ?app_assoc; cbn; eexists; reflexivity.
Qed.

Lemma frontend_fetch_sends_first {A} (endpoint : string)
    (options : request_init) (ans : reply A) (w : world) :
  ∃ rest, trace (Frontend.api_fetch endpoint options ans w).1
          = (trace w ++ NetRequest (Frontend.fetch_request w endpoint options)
                        :: rest)%list.
Proof.
  run_M. destruct ans as [| status body]; cbn.
  - now exists [].
  - destruct (ok status); cbn; destruct body; cbn; rewrite <- ?app_assoc; cbn;
      eexists; reflexivity.
Qed.

(** What a gateway call leaves in the world. In part_000 a 401 answer
    clears the token in memory and in storage and asks for a reload; no
    other answer touches the session. *)
Lemma unnamed_fetch_world {A} (endpoint : string) (options : request_init)
    (ans : reply A) (w : world) :
  let cleared :=
    match ans with
    | HttpResponse s _ => (s =? 401)%Z
    | NetworkFailure => false
    end in
  (Unnamed.api_fetch endpoint options ans w).1
  = {| REACT_APP_BACKEND_URL := REACT_APP_BACKEND_URL w;
       api_token := if cleared then None else api_token w;
       localStorage := if cleared then delete "astra_token" (localStorage w)
                       else localStorage w;
       trace :=
         (trace w
          ++ NetRequest (Unnamed.fetch_request w endpoint options)
             :: (if cleared then [RemoveItem "astra_token"; Reload] else [])
             ++ match ans with
                | HttpResponse s _ => if ok s then [] else [Thrown (ApiError s)]
                | NetworkFailure => []
                end)%list |}
  ∧ match payload_of ans with
    | Some a => (Unnamed.api_fetch endpoint options ans w).2 = Normal a
    | None => ∃ e, (Unnamed.api_fetch endpoint options ans w).2 = Throw e
    end.
Proof.
  cbv zeta. run_M. destruct ans as [| s [a |]]; cbn.
  - split; [reflexivity | eauto].
  - destruct (s =? 401)%Z eqn:H401; cbn.
    + apply Z.eqb_eq in H401 as ->. cbn. rewrite <- !app_assoc. cbn.
      split; [reflexivity | eauto].
    + destruct (ok s); cbn; rewrite <- ?app_assoc; cbn;
        (split; [reflexivity | eauto]).
  - destruct (s =? 401)%Z eqn:H401; cbn.
    + apply Z.eqb_eq in H401 as ->. cbn. rewrite <- !app_assoc. cbn.
      split; [reflexivity | eauto].
    + destruct (ok s); cbn; rewrite <- ?app_assoc; cbn;
        (split; [reflexivity | eauto]).
Qed.

Lemma frontend_fetch_world {A} (endpoint : string) (options : request_init)
    (ans : reply A) (w : world) :
  (Frontend.api_fetch endpoint options ans w).1
  = {| REACT_APP_BACKEND_URL := REACT_APP_BACKEND_URL w;
       api_token := api_token w;
       localStorage := localStorage w;
       trace :=
         (trace w
          ++ NetRequest (Frontend.fetch_request w endpoint options)
             :: match ans with
                | HttpResponse s _ => if ok s then [] else [Thrown (ApiError s)]
                | NetworkFailure => []
                end)%list |}
  ∧ match payload_of ans with
    | Some a => (Frontend.api_fetch endpoint options ans w).2 = Normal a
    | None => ∃ e, (Frontend.api_fetch endpoint options ans w).2 = Throw e
    end.
Proof.
  run_M. destruct ans as [| s [a |]]; cbn;
    try destruct (ok s); cbn; rewrite <- ?app_assoc; cbn;
    (split; [reflexivity | eauto]).
Qed.

Lemma fails_false_payload {A} (ans : reply A) :
  fails ans = false → ∃ a, payload_of ans = Some a.
Proof.
  destruct ans as [| status [a |]]; cbn; try discriminate;
    destruct (ok status); cbn; try discriminate; eauto.
Qed.

Lemma fails_no_payload {A} (ans : reply A) :
  fails ans = true → payload_of ans = None.
Proof.
  destruct ans as [| status [a |]]; cbn; [reflexivity | |];
    destruct (ok status); cbn; congruence.
Qed.

(** C8, as stated, fails in part_000 for a store that the backend answers
    with status 401: the results stay in the component, but the failure is
    not only logged. The gateway clears the session token in memory and in
    storage and asks for a reload of the page before the handler logs. *)
Lemma C8_unnamed_401_store_resets_session :
  let out := Unnamed.performScan "AST-001" half (λ _, mret tt)
               (HttpResponse 401 None) (Scan.initial, w_stale) in
  Scan.results (out.1.1) = Some (Unnamed.simulatedResults half)
  ∧ api_token w_stale = Some "tok"
  ∧ api_token (out.1.2) = None
  ∧ localStorage (out.1.2) !! "astra_token" = None
  ∧ ∃ r, trace (out.1.2)
         = [NetRequest r; RemoveItem "astra_token"; Reload;
            Thrown (ApiError 401); ConsoleError "Failed to store:"].
Proof. cbn. repeat split. eexists. reflexivity. Qed.

(** C8 (amended). In both variants the handler itself posts the bundle it
    displays to [/api/facial/analyze]: the request is the first step it
    adds to the world, and its body carries the astronaut id and every
    field of the bundle under its key, and nothing else. Whatever the store
    answers, the handler completes and the component ends with the bundle
    as its results and [scanning] false. In App.js a failed store adds the
    request, the error the gateway throws and one log line, and nothing
    else changes; a store that succeeds adds the request only. In part_000
    the same holds for every failure other than status 401; on status 401
    the gateway also clears the session token in memory and in storage and
    asks for a reload of the page, before the handler logs. After a store
    that succeeds, part_000 runs [onScanComplete] on the bundle, and logs
    if that callback throws. *)
Theorem C8_store_failure_keeps_results (astronautId : string)
    (rand : random_source) (onScanComplete : Unnamed.scan_results → M unit)
    (ans : reply json) (su : Unnamed.scan) (sf : Frontend.scan) (w : world) :
  let bu := Unnamed.simulatedResults rand in
  let bf := Frontend.simulatedResults rand in
  let du := FacialBody astronautId (JObj (Unnamed.results_fields bu)) in
  let df := FacialBody astronautId (JObj (Frontend.store_fields bf)) in
  let ru := Unnamed.fetch_request w "/api/facial/analyze" (post du) in
  let rf := Frontend.fetch_request w "/api/facial/analyze" (post df) in
  let thrown :=
    match ans with
    | HttpResponse s _ => if ok s then [] else [Thrown (ApiError s)]
    | NetworkFailure => []
    end in
  let after (tokens : option string * gmap string string)
        (steps : list event) :=
    {| REACT_APP_BACKEND_URL := REACT_APP_BACKEND_URL w;
       api_token := tokens.1;
       localStorage := tokens.2;
       trace := (trace w ++ steps)%list |} in
  let outu := Unnamed.performScan astronautId rand onScanComplete ans (su, w) in
  let outf := Frontend.performScan astronautId rand ans (sf, w) in
  (outu.2 = Normal tt
   ∧ Scan.results (outu.1.1) = Some bu
   ∧ Scan.scanning (outu.1.1) = false
   ∧ (fails ans = true → (∀ body, ans ≠ HttpResponse 401 body) →
      outu.1.2
      = after (api_token w, localStorage w)
          (NetRequest ru :: thrown ++ [ConsoleError "Failed to store:"]))
   ∧ (∀ body, ans = HttpResponse 401 body →
      outu.1.2
      = after (None, delete "astra_token" (localStorage w))
          [NetRequest ru; RemoveItem "astra_token"; Reload;
           Thrown (ApiError 401); ConsoleError "Failed to store:"])
   ∧ (fails ans = false →
      outu.1.2
      = match onScanComplete bu
                (after (api_token w, localStorage w) [NetRequest ru]) with
        | (w', Normal _) => w'
        | (w', Throw _) => (console_error "Failed to store:" w').1
        end))
  ∧ (outf.2 = Normal tt
     ∧ Scan.results (outf.1.1) = Some bf
     ∧ Scan.scanning (outf.1.1) = false
     ∧ outf.1.2
       = after (api_token w, localStorage w)
           (NetRequest rf
            :: (if fails ans
                then thrown ++ [ConsoleError "Failed to store facial analysis:"]
                else []))%list)
  ∧ (body ru = Some (FacialBody astronautId (JObj (Unnamed.results_fields bu)))
     ∧ method ru = Some "POST"
     ∧ body rf = Some (FacialBody astronautId (JObj (Frontend.store_fields bf)))
     ∧ method rf = Some "POST"
     ∧ Unnamed.results_fields bu
       = ([("estimated_hr", JNum (Unnamed.estimated_hr bu));
           ("respiration_rate", JNum (Unnamed.respiration_rate bu));
           ("hrv_trend", JNum (Unnamed.hrv_trend bu));
           ("oxygen_saturation_trend",
            JNum (Unnamed.oxygen_saturation_trend bu));
           ("blood_pressure_trend", JStr (Unnamed.blood_pressure_trend bu))]
          ++ match Unnamed.mood_state bu with
             | Some m => [("mood_state", JStr m)]
             | None => []
             end
          ++ [("mental_stress_index", JNum (Unnamed.mental_stress_index bu));
              ("fatigue_probability", JNum (Unnamed.fatigue_probability bu));
              ("alertness_level", JNum (Unnamed.alertness_level bu));
              ("facial_tension", JNum (Unnamed.facial_tension bu));
              ("pain_likelihood", JNum (Unnamed.pain_likelihood bu));
              ("blink_rate", JNum (Unnamed.blink_rate bu));
              ("eye_openness", JNum (Unnamed.eye_openness bu));
              ("skin_hydration_indicator",
               JStr (Unnamed.skin_hydration_indicator bu));
              ("dehydration_risk", JNum (Unnamed.dehydration_risk bu));
              ("confidence_scores",
               JObj [("overall", JNum (Unnamed.confidence_overall bu))])])%list
     ∧ Frontend.store_fields bf
       = ([("estimated_hr",
            JNum (Frontend.heart_rate (Frontend.vital_estimates bf)));
           ("respiration_rate",
            JNum (Frontend.respiration_rate (Frontend.vital_estimates bf)));
           ("hrv_trend",
            JNum (Frontend.hrv_trend (Frontend.vital_estimates bf)));
           ("oxygen_saturation_trend",
            JNum (Frontend.oxygen_saturation_trend
                    (Frontend.vital_estimates bf)));
           ("blood_pressure_trend",
            JStr (Frontend.blood_pressure_trend (Frontend.vital_estimates bf)))]
          ++ match Frontend.mood_state (Frontend.mental_indicators bf) with
             | Some m => [("mood_state", JStr m)]
             | None => []
             end
          ++ [("mental_stress_index",
               JNum (Frontend.mental_stress_index
                       (Frontend.mental_indicators bf)));
              ("fatigue_probability",
               JNum (Frontend.fatigue_probability
                       (Frontend.mental_indicators bf)));
              ("alertness_level",
               JNum (Frontend.alertness_level (Frontend.mental_indicators bf)));
              ("facial_tension",
               JNum (Frontend.facial_tension (Frontend.mental_indicators bf)));
              ("pain_likelihood",
               JNum (Frontend.pain_likelihood (Frontend.mental_indicators bf)));
              ("blink_rate",
               JNum (Frontend.blink_rate (Frontend.physical_indicators bf)));
              ("eye_openness",
               JNum (Frontend.eye_openness (Frontend.physical_indicators bf)));
              ("skin_hydration_indicator",
               JStr (Frontend.skin_hydration (Frontend.physical_indicators bf)));
              ("dehydration_risk",
               JNum (Frontend.dehydration_risk
                       (Frontend.physical_indicators bf)));
              ("confidence_scores",
               JObj [("overall",
                      JNum (Frontend.overall (Frontend.confidence_scores bf)));
                     ("vital",
                      JNum (Frontend.vital (Frontend.confidence_scores bf)));
                     ("mental",
                      JNum (Frontend.mental (Frontend.confidence_scores bf)))])])%list).
Proof.
  cbn zeta. split; [| split].
  - destruct (performScan_state_unnamed astronautId rand onScanComplete ans su w)
      as [w' Hrun].
    rewrite Hrun. cbn [fst snd].
    split; [reflexivity |]. split; [reflexivity |]. split; [reflexivity |].
    revert Hrun. unfold Unnamed.performScan, Unnamed.api_storeFacialAnalysis.
    destruct (unnamed_fetch_world "/api/facial/analyze"
                (post (FacialBody astronautId
                         (JObj (Unnamed.results_fields
                                  (Unnamed.simulatedResults rand)))))
                ans w) as [Hw Hr].
    cbv zeta in Hw.
    unfold try_catch, call, set_state, console_error, emit, mbind, mret,
      C_bind, C_ret, St_bind, St_ret.
    cbn [fst snd].
    destruct (Unnamed.api_fetch _ _ ans w) as [w1 r]. cbn [fst snd] in Hw, Hr.
    subst w1.
    destruct (fails ans) eqn:Hf.
    + rewrite (fails_no_payload _ Hf) in Hr. destruct Hr as [e ->].
      cbn. intros [= <-]. cbn.
      split; [| split; [| discriminate]].
      * intros _ Hn.
        destruct ans as [| s b]; cbn; [now rewrite <- app_assoc |].
        destruct (s =? 401)%Z eqn:H401;
          [apply Z.eqb_eq in H401 as ->; now destruct (Hn b) |].
        rewrite <- !app_assoc. reflexivity.
      * intros b ->. cbn. rewrite <- !app_assoc. reflexivity.
    + destruct (fails_false_payload _ Hf) as [a Ha]. rewrite Ha in Hr. subst r.
      assert (Hplain :
        (match ans with
         | HttpResponse s _ => (s =? 401)%Z
         | NetworkFailure => false
         end = false)
        ∧ match ans with
          | HttpResponse s _ => if ok s then [] else [Thrown (ApiError s)]
          | NetworkFailure => []
          end = []).
      { destruct ans as [| s [b |]]; cbn in Hf; try discriminate;
          destruct (ok s) eqn:Hok; cbn in Hf; try discriminate.
        rewrite (ok_is_not_401 _ Hok). split; reflexivity. }
      destruct Hplain as [-> ->]. cbn [app].
      destruct (onScanComplete _ _) as [w2 [[] | e]] eqn:Hcb; cbn;
        intros [= <-]; cbn.
      * split; [discriminate |]. split; [| reflexivity].
        intros b ->. discriminate Hf.
      * split; [discriminate |]. split; [| reflexivity].
        intros b ->. discriminate Hf.
  - destruct (performScan_state_frontend astronautId rand ans sf w) as [w' Hrun].
    rewrite Hrun. cbn [fst snd].
    split; [reflexivity |]. split; [reflexivity |]. split; [reflexivity |].
    revert Hrun. unfold Frontend.performScan, Frontend.api_storeFacialAnalysis.
    run_M.
    destruct ans as [| s [a |]]; cbn; try destruct (ok s); cbn;
      intros [= <-]; rewrite <- ?app_assoc; reflexivity.
  - repeat split.
Qed.

Lemma C8_store_failure_keeps_results_witness :
  let out := Unnamed.performScan "AST-001" half (λ _, mret tt)
               (HttpResponse 500 None) (Scan.initial, w_stale) in
  api_token (out.1.2) = Some "tok"
  ∧ ∃ r, trace (out.1.2)
         = [NetRequest r; Thrown (ApiError 500);
            ConsoleError "Failed to store:"].
Proof.
  pose proof (C8_store_failure_keeps_results "AST-001" half (λ _, mret tt)
                (HttpResponse 500 None) Scan.initial Scan.initial w_stale) as H.
  cbv zeta in H. destruct H as ((_ & _ & _ & H & _) & _).
  specialize (H eq_refl). cbv zeta.
  assert (Hw := H ltac:(discriminate)).
  split; [exact (f_equal api_token Hw) |].
  eexists. exact (f_equal trace Hw).
Defined.

(** A store that the backend answers with status 500, in part_000: the
    results stay, the scan ends, and the steps are the request, the throw of
    the gateway and the log line of the handler. *)
Example store_failure_500 :
  let out := Unnamed.performScan "AST-001" half (λ _, mret tt)
               (HttpResponse 500 None) (Scan.initial, w_fresh) in
  Scan.results (out.1.1) = Some (Unnamed.simulatedResults half)
  ∧ Scan.scanning (out.1.1) = false
  ∧ ∃ r, trace (out.1.2)
         = [NetRequest r; Thrown (ApiError 500); ConsoleError "Failed to store:"].
Proof. cbn. repeat split. eexists. reflexivity. Qed.

(** ** C7: releasing the camera *)

(** The ordinary session: consent, the stream arrives and is attached, stop.
    Every track is stopped and the pipeline awaits consent again. *)
Lemma stop_releases_attached_stream {R} (denied : string) (st : Scan.state R)
    (dev : Scan.device) (stream : Scan.media_stream) :
  Scan.mounted st = true →
  Scan.consent st = true →
  Scan.videoRef st = Some (Scan.mkVideo (Some stream)) →
  dev ⊆ list_to_set (Scan.getTracks stream) →
  let out := Scan.step denied (st, dev) Scan.ClickStop in
  out.2 = ∅ ∧ Scan.awaiting_consent (out.1).
Proof.
  intros Hm Hc Hv Hdev. cbn. unfold Scan.click_stop. rewrite Hm, Hc. cbn.
  unfold Scan.stopCamera at 2. rewrite Hv. cbn.
  unfold Scan.commit, Scan.video_rendered. cbn. rewrite andb_false_r. cbn.
  split; [| split; reflexivity].
  unfold Scan.stopCamera. cbn. now apply subseteq_empty_difference_L.
Qed.

(** The same on unmount, provided the ref still points at the video element
    when the cleanup runs. *)
Lemma unmount_releases_attached_stream {R} (denied : string)
    (st : Scan.state R) (dev : Scan.device) (stream : Scan.media_stream) :
  Scan.mounted st = true →
  Scan.videoRef st = Some (Scan.mkVideo (Some stream)) →
  dev ⊆ list_to_set (Scan.getTracks stream) →
  (Scan.step denied (st, dev) (Scan.Unmount false)).2 = ∅.
Proof.
  intros Hm Hv Hdev. cbn. unfold Scan.unmount. rewrite Hm. cbn.
  unfold Scan.stopCamera. rewrite Hv. cbn.
  now apply subseteq_empty_difference_L.
Qed.

(** C7, evaluated on the retry session, in both variants. When the stream
    arrives the error text of the first attempt is still set, so no video
    element is in the tree and the stream is attached to nothing; the stop
    action then finds no [srcObject]. The pipeline is back at the consent
    card with no results, and track 1 is still live. *)
Theorem C7_stop_after_retry_leaves_track_live :
  let outu := Unnamed.scan_run (Scan.initial, ∅) retry_session in
  let outf := Frontend.scan_run (Scan.initial, ∅) retry_session in
  Scan.awaiting_consent (outu.1) ∧ outu.2 = {[ 1%nat ]}
  ∧ Scan.awaiting_consent (outf.1) ∧ outf.2 = {[ 1%nat ]}.
Proof.
  cbn zeta. repeat split; vm_compute; reflexivity.
Qed.

(** The ordinary session on the same stream ends with the device free. *)
Lemma C7_ordinary_session_releases :
  let out := Unnamed.scan_run (Scan.initial, ∅)
               [Scan.ClickConsent; Scan.MediaGranted front_camera;
                Scan.ClickStop] in
  Scan.awaiting_consent (out.1) ∧ out.2 = ∅.
Proof.
  cbn zeta. repeat split; vm_compute; reflexivity.
Qed.

(** ** C5: one polling cycle *)


(** A call of the App.js gateway with [.catch(() => d)] never fails: it
    resolves with the payload, or with [d]. *)
Lemma frontend_caught {A} (endpoint : string) (options : request_init)
    (ans : reply A) (d : A) (w : world) :
  ∃ w', Frontend.catch_with (Frontend.api_fetch endpoint options ans) d w
        = (w', Normal (default d (payload_of ans))).
Proof.
  unfold Frontend.catch_with. run_M. destruct ans as [| status body]; cbn.
  - eexists; reflexivity.
  - destruct (ok status); cbn; [destruct body; cbn |]; eexists; reflexivity.
Qed.

(** The same with the world it leaves: the request, and the error the
    gateway throws on a status that is not 2xx; the [catch] adds nothing. *)
Lemma frontend_caught_world {A} (endpoint : string) (options : request_init)
    (ans : reply A) (d : A) (w : world) :
  Frontend.catch_with (Frontend.api_fetch endpoint options ans) d w
  = ({| REACT_APP_BACKEND_URL := REACT_APP_BACKEND_URL w;
        api_token := api_token w;
        localStorage := localStorage w;
        trace :=
          (trace w
           ++ NetRequest (Frontend.fetch_request w endpoint options)
              :: match ans with
                 | HttpResponse s _ => if ok s then [] else [Thrown (ApiError s)]
                 | NetworkFailure => []
                 end)%list |},
     Normal (default d (payload_of ans))).
Proof.
  unfold Frontend.catch_with. run_M.
  destruct ans as [| s [a |]]; cbn; try destruct (ok s); cbn;
    rewrite <- ?app_assoc; reflexivity.
Qed.

(** A failing call of the part_000 gateway throws. *)
Lemma unnamed_fetch_fails {A} (endpoint : string) (options : request_init)
    (ans : reply A) (w : world) :
  fails ans = true →
  ∃ w' e, Unnamed.api_fetch endpoint options ans w = (w', Throw e).
Proof.
  intros Hf. run_M. destruct ans as [| status body]; cbn.
  - do 2 eexists; reflexivity.
  - cbn in Hf. destruct (status =? 401)%Z; cbn; destruct (ok status); cbn;
      try (do 2 eexists; reflexivity);
      destruct body; cbn in *; try discriminate; do 2 eexists; reflexivity.
Qed.

Lemma bind_call_normal {S A B} (m : M A) (k : A → C S B) (s : S)
    (w w' : world) (a : A) :
  m w = (w', Normal a) → (call m ≫= k) (s, w) = k a (s, w').
Proof.
  intros H. unfold mbind, C_bind, St_bind, call. cbn. now rewrite H.
Qed.

Lemma bind_call_throw {S A B} (m : M A) (k : A → C S B) (s : S)
    (w w' : world) (e : thrown) :
  m w = (w', Throw e) → (call m ≫= k) (s, w) = ((s, w'), Throw e).
Proof.
  intros H. unfold mbind, C_bind, St_bind, call. cbn. now rewrite H.
Qed.

(** The six caught calls of [loadAstronautData] always resolve; what is left
    is the run of the setters on the six values. *)
Lemma loadAstronautData_after_fetches (id : string) (b : Frontend.batch)
    (st : Frontend.app) (w : world) :
  let request endpoint := Frontend.fetch_request w endpoint no_options in
  let thrown (A : Type) (ans : reply A) :=
    match ans with
    | HttpResponse s _ => if ok s then [] else [Thrown (ApiError s)]
    | NetworkFailure => []
    end in
  ∃ w',
    w' = {| REACT_APP_BACKEND_URL := REACT_APP_BACKEND_URL w;
            api_token := api_token w;
            localStorage := localStorage w;
            trace :=
              (trace w
               ++ NetRequest (request ("/api/health/latest/" ++ id)%string)
                  :: thrown _ (Frontend.latestHealth b)
               ++ NetRequest (request ("/api/health/timeline/" ++ id
                                       ++ "?days=7")%string)
                  :: thrown _ (Frontend.timelineData b)
               ++ NetRequest (request ("/api/baseline/" ++ id)%string)
                  :: thrown _ (Frontend.baselineData b)
               ++ NetRequest (request ("/api/alerts/" ++ id)%string)
                  :: thrown _ (Frontend.alertsData b)
               ++ NetRequest (request ("/api/context/" ++ id)%string)
                  :: thrown _ (Frontend.contextData b)
               ++ NetRequest (request ("/api/chat/history/" ++ id)%string)
                  :: thrown _ (Frontend.chatData b))%list |}
    ∧ Frontend.loadAstronautData id b (st, w)
    = try_catch
        (set_state (Frontend.setHealthData
                      (default None (payload_of (Frontend.latestHealth b)))) ;;
         averages ← read (default (Some {| Frontend.records := Some [];
                                           Frontend.daily_averages := Some [] |})
                            (payload_of (Frontend.timelineData b)))
                      Frontend.daily_averages;
         set_state (Frontend.setTimeline (Js.or_empty averages)) ;;
         set_state (Frontend.setBaseline
                      (default None (payload_of (Frontend.baselineData b)))) ;;
         active ← read (default (Some {| Frontend.alerts_of := Some [] |})
                          (payload_of (Frontend.alertsData b)))
                    Frontend.alerts_of;
         set_state (Frontend.setAlerts (Js.or_empty active)) ;;
         set_state (Frontend.setContext
                      (default None (payload_of (Frontend.contextData b)))) ;;
         h ← read (default (Some {| history := Some [] |})
                     (payload_of (Frontend.chatData b)))
               history;
         set_state (Frontend.setChatHistory (Js.or_empty h)))
        (λ _, call (console_error "Failed to load astronaut data:"))
        (st, w').
Proof.
  unfold Frontend.loadAstronautData, Frontend.api_getLatestHealth,
    Frontend.api_getTimeline, Frontend.api_getBaseline, Frontend.api_getAlerts,
    Frontend.api_getContext, Frontend.api_getChatHistory.
  unfold try_catch at 1.
  do 6 (erewrite bind_call_normal by apply frontend_caught_world).
  eexists. split; [| reflexivity].
  unfold Frontend.fetch_request, BACKEND_URL. cbn.
  rewrite <- !app_assoc. cbn. rewrite <- ?app_assoc. reflexivity.
Qed.

(** Whatever the six answers are, a cycle of [loadAstronautData] completes
    normally: nothing is thrown to the caller. *)
Lemma loadAstronautData_never_throws (id : string) (b : Frontend.batch)
    (st : Frontend.app) (w : world) :
  (Frontend.loadAstronautData id b (st, w)).2 = Normal tt.
Proof.
  destruct (loadAstronautData_after_fetches id b st w) as (w' & _ & ->).
  destruct (payload_of (Frontend.timelineData b)) as [[t |] |];
    destruct (payload_of (Frontend.alertsData b)) as [[a |] |];
    destruct (payload_of (Frontend.chatData b)) as [[h |] |];
    reflexivity.
Qed.

(** C5, as stated, fails for the polling cycle of part_000
    ([loadDashboardData]): when its fetch fails after an earlier cycle has
    loaded data, no placeholder is substituted; the timeline and the alerts
    on display stay the ones loaded before. *)
Lemma C5_unnamed_failed_cycle_keeps_stale_slices :
  let out := Unnamed.loadDashboardData "AST-001"
               (@NetworkFailure (option Unnamed.summary)) (loaded_dash, w_fresh) in
  out.2 = Normal tt
  ∧ Unnamed.timeline_of (Unnamed.dashboardData (out.1.1)) = [JStr "2026-01-01"]
  ∧ Unnamed.timeline_of (Unnamed.dashboardData (out.1.1)) ≠ []
  ∧ Unnamed.alerts_of (Unnamed.dashboardData (out.1.1)) = [JStr "alert-1"]
  ∧ Unnamed.alerts_of (Unnamed.dashboardData (out.1.1)) ≠ [].
Proof. cbn. repeat split; discriminate. Qed.

(** C5 (amended). In App.js ([loadAstronautData]) a cycle completes
    normally and, when no endpoint of the timeline, alerts or chat answers
    with the JSON value null, every slice is set from its own fetch alone: a
    failed fetch leaves its slice at the placeholder (no vitals, the empty
    timeline, no baseline, no alerts, no context, the empty history) and the
    other slices get what their fetches returned; all six requests are
    sent whatever the earlier ones answered, and beside them the cycle adds
    to the world only the errors the gateway throws, which stay inside the
    cycle (no log line, no reload, the session untouched). In part_000
    ([loadDashboardData]) the cycle is one fetch; when it fails the cycle
    still completes, ends the loading state and logs the failure, and no
    placeholder is substituted: the state of the dashboard, and with it the
    timeline and the alerts that the views read from it, stay as they were
    before the cycle (with no summary loaded these are the empty timeline
    and no alerts). For a failure other than status 401 the session is not
    touched: the cycle adds the request, the error the gateway throws and
    the log line, and nothing else. On status 401 the gateway also clears
    the session token in memory and in storage and asks for a reload of the
    page, before the handler logs. *)
Theorem C5_polling_fault_tolerance (id : string) (b : Frontend.batch)
    (sf : Frontend.app) (ans : reply (option Unnamed.summary))
    (su : Unnamed.dash) (w : world) :
  payload_of (Frontend.timelineData b) ≠ Some None →
  payload_of (Frontend.alertsData b) ≠ Some None →
  payload_of (Frontend.chatData b) ≠ Some None →
  fails ans = true →
  let outf := Frontend.loadAstronautData id b (sf, w) in
  let outu := Unnamed.loadDashboardData id ans (su, w) in
  let request :=
    Unnamed.fetch_request w ("/api/dashboard/summary/" ++ id) no_options in
  let thrown :=
    match ans with
    | HttpResponse s _ => if ok s then [] else [Thrown (ApiError s)]
    | NetworkFailure => []
    end in
  let requestf endpoint := Frontend.fetch_request w endpoint no_options in
  let thrownf (A : Type) (a : reply A) :=
    match a with
    | HttpResponse s _ => if ok s then [] else [Thrown (ApiError s)]
    | NetworkFailure => []
    end in
  (outf.2 = Normal tt
   ∧ outf.1.1
     = {| Frontend.currentView := Frontend.currentView sf;
          Frontend.astronautId := Frontend.astronautId sf;
          Frontend.userRole := Frontend.userRole sf;
          Frontend.healthData :=
            default None (payload_of (Frontend.latestHealth b));
          Frontend.timeline :=
            match payload_of (Frontend.timelineData b) with
            | Some (Some t) => Js.or_empty (Frontend.daily_averages t)
            | _ => []
            end;
          Frontend.baseline :=
            default None (payload_of (Frontend.baselineData b));
          Frontend.alerts :=
            match payload_of (Frontend.alertsData b) with
            | Some (Some a) => Js.or_empty (Frontend.alerts_of a)
            | _ => []
            end;
          Frontend.context :=
            default None (payload_of (Frontend.contextData b));
          Frontend.chatHistory :=
            match payload_of (Frontend.chatData b) with
            | Some (Some h) => Js.or_empty (history h)
            | _ => []
            end;
          Frontend.astronauts := Frontend.astronauts sf;
          Frontend.loading := Frontend.loading sf |}
   ∧ (fails (Frontend.latestHealth b) = true →
        Frontend.healthData (outf.1.1) = None)
   ∧ (fails (Frontend.timelineData b) = true →
        Frontend.timeline (outf.1.1) = [])
   ∧ (fails (Frontend.baselineData b) = true →
        Frontend.baseline (outf.1.1) = None)
   ∧ (fails (Frontend.alertsData b) = true → Frontend.alerts (outf.1.1) = [])
   ∧ (fails (Frontend.contextData b) = true →
        Frontend.context (outf.1.1) = None)
   ∧ (fails (Frontend.chatData b) = true →
        Frontend.chatHistory (outf.1.1) = [])
   ∧ outf.1.2
     = {| REACT_APP_BACKEND_URL := REACT_APP_BACKEND_URL w;
          api_token := api_token w;
          localStorage := localStorage w;
          trace :=
            (trace w
             ++ NetRequest (requestf ("/api/health/latest/" ++ id)%string)
                :: thrownf _ (Frontend.latestHealth b)
             ++ NetRequest (requestf ("/api/health/timeline/" ++ id
                                      ++ "?days=7")%string)
                :: thrownf _ (Frontend.timelineData b)
             ++ NetRequest (requestf ("/api/baseline/" ++ id)%string)
                :: thrownf _ (Frontend.baselineData b)
             ++ NetRequest (requestf ("/api/alerts/" ++ id)%string)
                :: thrownf _ (Frontend.alertsData b)
             ++ NetRequest (requestf ("/api/context/" ++ id)%string)
                :: thrownf _ (Frontend.contextData b)
             ++ NetRequest (requestf ("/api/chat/history/" ++ id)%string)
                :: thrownf _ (Frontend.chatData b))%list |})
  ∧ (outu.2 = Normal tt
     ∧ outu.1.1 = Unnamed.setDashLoading false su
     ∧ last (trace (outu.1.2)) = Some (ConsoleError "Failed to load dashboard:")
     ∧ Unnamed.timeline_of None = []
     ∧ Unnamed.alerts_of None = []
     ∧ Unnamed.timeline_of (Unnamed.dashboardData (outu.1.1))
       = Unnamed.timeline_of (Unnamed.dashboardData su)
     ∧ Unnamed.alerts_of (Unnamed.dashboardData (outu.1.1))
       = Unnamed.alerts_of (Unnamed.dashboardData su)
     ∧ ((∀ body, ans ≠ HttpResponse 401 body) →
        outu.1.2
        = {| REACT_APP_BACKEND_URL := REACT_APP_BACKEND_URL w;
             api_token := api_token w;
             localStorage := localStorage w;
             trace :=
               (trace w
                ++ NetRequest request
                   :: thrown ++ [ConsoleError "Failed to load dashboard:"])%list |})
     ∧ (∀ body, ans = HttpResponse 401 body →
        outu.1.2
        = {| REACT_APP_BACKEND_URL := REACT_APP_BACKEND_URL w;
             api_token := None;
             localStorage := delete "astra_token" (localStorage w);
             trace :=
               (trace w
                ++ [NetRequest request; RemoveItem "astra_token"; Reload;
                    Thrown (ApiError 401);
                    ConsoleError "Failed to load dashboard:"])%list |})).
Proof.
  intros Ht Ha Hc Hfail. cbn zeta.
  assert (Hstate :
    ∃ w',
      w' = {| REACT_APP_BACKEND_URL := REACT_APP_BACKEND_URL w;
              api_token := api_token w;
              localStorage := localStorage w;
              trace :=
                (trace w
                 ++ NetRequest (Frontend.fetch_request w
                                  ("/api/health/latest/" ++ id)%string no_options)
                    :: match Frontend.latestHealth b with
                       | HttpResponse s _ =>
                           if ok s then [] else [Thrown (ApiError s)]
                       | NetworkFailure => []
                       end
                 ++ NetRequest (Frontend.fetch_request w
                                  ("/api/health/timeline/" ++ id
                                   ++ "?days=7")%string no_options)
                    :: match Frontend.timelineData b with
                       | HttpResponse s _ =>
                           if ok s then [] else [Thrown (ApiError s)]
                       | NetworkFailure => []
                       end
                 ++ NetRequest (Frontend.fetch_request w
                                  ("/api/baseline/" ++ id)%string no_options)
                    :: match Frontend.baselineData b with
                       | HttpResponse s _ =>
                           if ok s then [] else [Thrown (ApiError s)]
                       | NetworkFailure => []
                       end
                 ++ NetRequest (Frontend.fetch_request w
                                  ("/api/alerts/" ++ id)%string no_options)
                    :: match Frontend.alertsData b with
                       | HttpResponse s _ =>
                           if ok s then [] else [Thrown (ApiError s)]
                       | NetworkFailure => []
                       end
                 ++ NetRequest (Frontend.fetch_request w
                                  ("/api/context/" ++ id)%string no_options)
                    :: match Frontend.contextData b with
                       | HttpResponse s _ =>
                           if ok s then [] else [Thrown (ApiError s)]
                       | NetworkFailure => []
                       end
                 ++ NetRequest (Frontend.fetch_request w
                                  ("/api/chat/history/" ++ id)%string no_options)
                    :: match Frontend.chatData b with
                       | HttpResponse s _ =>
                           if ok s then [] else [Thrown (ApiError s)]
                       | NetworkFailure => []
                       end)%list |}
      ∧ Frontend.loadAstronautData id b (sf, w)
          = (({| Frontend.currentView := Frontend.currentView sf;
                 Frontend.astronautId := Frontend.astronautId sf;
                 Frontend.userRole := Frontend.userRole sf;
                 Frontend.healthData :=
                   default None (payload_of (Frontend.latestHealth b));
                 Frontend.timeline :=
                   match payload_of (Frontend.timelineData b) with
                   | Some (Some t) => Js.or_empty (Frontend.daily_averages t)
                   | _ => []
                   end;
                 Frontend.baseline :=
                   default None (payload_of (Frontend.baselineData b));
                 Frontend.alerts :=
                   match payload_of (Frontend.alertsData b) with
                   | Some (Some a) => Js.or_empty (Frontend.alerts_of a)
                   | _ => []
                   end;
                 Frontend.context :=
                   default None (payload_of (Frontend.contextData b));
                 Frontend.chatHistory :=
                   match payload_of (Frontend.chatData b) with
                   | Some (Some h) => Js.or_empty (history h)
                   | _ => []
                   end;
                 Frontend.astronauts := Frontend.astronauts sf;
                 Frontend.loading := Frontend.loading sf |}, w'), Normal tt)).
  { destruct (loadAstronautData_after_fetches id b sf w) as (w' & Hw' & ->).
    exists w'. split; [exact Hw' |].
    destruct (payload_of (Frontend.timelineData b)) as [[t |] |];
      [| congruence |];
      destruct (payload_of (Frontend.alertsData b)) as [[a |] |];
      try congruence;
      destruct (payload_of (Frontend.chatData b)) as [[h |] |];
      try congruence; reflexivity. }
  destruct Hstate as (w' & Hw' & ->). cbn [fst snd]. split.
  - split; [reflexivity |]. split; [reflexivity |].
    cbn [Frontend.healthData Frontend.timeline Frontend.baseline
           Frontend.alerts Frontend.context Frontend.chatHistory].
    repeat split; try exact Hw';
      intros Hf; rewrite (fails_no_payload _ Hf); reflexivity.
  - destruct (unnamed_fetch_fails ("/api/dashboard/summary/" ++ id) no_options
                ans w Hfail) as (w1 & e & Hthrow).
    assert (Hrun : Unnamed.loadDashboardData id ans (su, w)
                   = ((Unnamed.setDashLoading false su,
                       (console_error "Failed to load dashboard:" w1).1),
                      Normal tt)).
    { unfold Unnamed.loadDashboardData, Unnamed.api_getDashboardSummary.
      unfold mbind at 1. unfold C_bind at 1. unfold St_bind at 1.
      unfold try_catch. erewrite bind_call_throw by exact Hthrow.
      reflexivity. }
    rewrite Hrun. cbn [fst snd].
    split; [reflexivity |]. split; [reflexivity |].
    split; [cbn; now rewrite last_snoc |].
    split; [reflexivity |]. split; [reflexivity |].
    split; [reflexivity |]. split; [reflexivity |].
    destruct (unnamed_fetch_world ("/api/dashboard/summary/" ++ id) no_options
                ans w) as [Hw _].
    cbv zeta in Hw. rewrite Hthrow in Hw. cbn [fst] in Hw. subst w1.
    split.
    + intros Hn. destruct ans as [| s bd]; cbn; [now rewrite <- app_assoc |].
      destruct (s =? 401)%Z eqn:H401;
        [apply Z.eqb_eq in H401 as ->; now destruct (Hn bd) |].
      rewrite <- !app_assoc. reflexivity.
    + intros bd ->. cbn. rewrite <- !app_assoc. reflexivity.
Qed.

Lemma C5_polling_fault_tolerance_witness :
  fails (Frontend.timelineData mixed_batch) = true
  ∧ fails (Frontend.alertsData mixed_batch) = false
  ∧ (let out := Frontend.loadAstronautData "AST-001" mixed_batch
                  (Frontend.App_initial, w_fresh) in
     out.2 = Normal tt
     ∧ Frontend.timeline (out.1.1) = []
     ∧ Frontend.alerts (out.1.1) = [JStr "alert-1"]
     ∧ Frontend.baseline (out.1.1) = Some (JStr "baseline"))
  ∧ (Unnamed.loadDashboardData "AST-001"
       (@NetworkFailure (option Unnamed.summary)) (loaded_dash, w_fresh)).1.1
    = Unnamed.setDashLoading false loaded_dash.
Proof.
  split; [reflexivity |]. split; [reflexivity |].
  destruct (C5_polling_fault_tolerance "AST-001" mixed_batch
              Frontend.App_initial (@NetworkFailure (option Unnamed.summary))
              loaded_dash w_fresh)
    as ((Hn & Hst & _ & Htl & _) & (_ & Hu & _));
    [discriminate | discriminate | discriminate | reflexivity |].
  split; [| exact Hu].
  cbn zeta. rewrite Hst in *. split; [exact Hn |].
  split; [apply Htl; reflexivity |]. split; reflexivity.
Defined.

(** ** C6: switching views *)

(** C6, as stated, fails in both variants: the switch from the dashboard to
    the timeline view mounts [HealthTimeline], whose mount effect fetches the
    timeline; in part_000 the switch to the chat view fetches the chat
    history in the same way. *)
Lemma C6_switch_to_timeline_fetches :
  trace (Unnamed.navigate (Some commander) Unnamed.timeline_view
           (loaded_dash, w_fresh)).1.2
  = [NetRequest timeline_request]
  ∧ trace (Frontend.navigate Frontend.timeline_view (loaded_app, w_fresh)).1.2
    = [NetRequest timeline_request]
  ∧ trace (Unnamed.navigate (Some commander) Unnamed.chat_view
             (loaded_dash, w_fresh)).1.2
    = [NetRequest
         {| url := "http://localhost:8001/api/chat/history/AST-001";
            method := None; body := None;
            headers := {[ "Content-Type" := "application/json" ]} |}].
Proof. repeat split; vm_compute; reflexivity. Qed.

Lemma unnamed_mount_effect_normal (id : string) (v : Unnamed.view) (w : world) :
  (Unnamed.mount_effect id v w).2 = Normal tt.
Proof. destruct v; reflexivity. Qed.

Lemma frontend_mount_effect_normal (st : Frontend.app) (v : Frontend.view)
    (w : world) :
  (Frontend.mount_effect st v w).2 = Normal tt.
Proof.
  destruct v; try reflexivity. cbn. destruct (Frontend.astronauts st); reflexivity.
Qed.

(** A navigation click, step by step: the selector is set; when another
    component enters the tree its mount effect runs on the world. *)
Lemma unnamed_navigate_run (u : option Unnamed.user_profile)
    (item : Unnamed.view) (st : Unnamed.dash) (w : world) :
  Unnamed.navigate u item (st, w)
  = ((Unnamed.setCurrentView item st,
      if decide (Unnamed.mounted_view u (Unnamed.setCurrentView item st)
                 = Unnamed.mounted_view u st)
      then w
      else match Unnamed.mounted_view u (Unnamed.setCurrentView item st) with
           | Some v => (Unnamed.mount_effect (Unnamed.astronautId_of u) v w).1
           | None => w
           end),
     Normal tt).
Proof.
  unfold Unnamed.navigate. run_M. destruct (decide _); [reflexivity |].
  destruct (Unnamed.mounted_view u (Unnamed.setCurrentView item st)) as [v |];
    [| reflexivity].
  cbv beta. cbn [fst snd].
  pose proof (unnamed_mount_effect_normal (Unnamed.astronautId_of u) v w) as Hn.
  destruct (Unnamed.mount_effect (Unnamed.astronautId_of u) v w) as [w' r].
  cbn in *. now subst r.
Qed.

Lemma frontend_navigate_run (item : Frontend.view) (st : Frontend.app)
    (w : world) :
  Frontend.navigate item (st, w)
  = ((Frontend.setCurrentView item st,
      if decide (Frontend.mounted_view (Frontend.setCurrentView item st)
                 = Frontend.mounted_view st)
      then w
      else match Frontend.mounted_view (Frontend.setCurrentView item st) with
           | Some v => (Frontend.mount_effect (Frontend.setCurrentView item st) v w).1
           | None => w
           end),
     Normal tt).
Proof.
  unfold Frontend.navigate. run_M. destruct (decide _); [reflexivity |].
  destruct (Frontend.mounted_view (Frontend.setCurrentView item st)) as [v |];
    [| reflexivity].
  cbv beta. cbn [fst snd].
  pose proof (frontend_mount_effect_normal (Frontend.setCurrentView item st) v w)
    as Hn.
  destruct (Frontend.mount_effect (Frontend.setCurrentView item st) v w) as [w' r].
  cbn in *. now subst r.
Qed.

(** C6 (amended). A view switch changes the component state in the
    current-view selector only and always completes. It sends no request when
    the selected view is the one already shown, or is the dashboard, the
    vitals, the scan, the alerts or the mission view (in App.js also the chat
    view). A switch to the timeline view from another view, once the
    dashboard has loaded, sends the 7-day timeline request of the mount
    effect of [HealthTimeline]; in part_000 a switch to the chat view sends
    the chat-history request of the mount effect of [AstraSupport]. *)
Theorem C6_view_switch_and_mount_fetches (u : option Unnamed.user_profile)
    (itemu : Unnamed.view) (itemf : Frontend.view)
    (su : Unnamed.dash) (sf : Frontend.app) (w : world) :
  let outu := Unnamed.navigate u itemu (su, w) in
  let outf := Frontend.navigate itemf (sf, w) in
  (outu.2 = Normal tt ∧ outu.1.1 = Unnamed.setCurrentView itemu su)
  ∧ (outf.2 = Normal tt ∧ outf.1.1 = Frontend.setCurrentView itemf sf)
  ∧ (Unnamed.currentView su = itemu → outu.1.2 = w)
  ∧ (Frontend.currentView sf = itemf → outf.1.2 = w)
  ∧ (itemu ∈ [Unnamed.dashboard; Unnamed.health_view; Unnamed.facial;
              Unnamed.alerts_view; Unnamed.context_view] → outu.1.2 = w)
  ∧ (itemf ∈ [Frontend.dashboard; Frontend.health_view; Frontend.facial;
              Frontend.chat_view; Frontend.alerts_view; Frontend.context_view] →
     outf.1.2 = w)
  ∧ (Unnamed.dash_loading su = false →
     Unnamed.currentView su ≠ Unnamed.timeline_view →
     itemu = Unnamed.timeline_view →
     trace (outu.1.2)
     = (trace w
        ++ [NetRequest
              (Unnamed.fetch_request w
                 ("/api/health/timeline/" ++ Unnamed.astronautId_of u ++ "?days=7")
                 no_options)])%list)
  ∧ (Unnamed.dash_loading su = false →
     Unnamed.currentView su ≠ Unnamed.chat_view →
     itemu = Unnamed.chat_view →
     trace (outu.1.2)
     = (trace w
        ++ [NetRequest
              (Unnamed.fetch_request w
                 ("/api/chat/history/" ++ Unnamed.astronautId_of u)
                 no_options)])%list)
  ∧ (Frontend.loading sf = false →
     Frontend.currentView sf ≠ Frontend.timeline_view →
     itemf = Frontend.timeline_view →
     trace (outf.1.2)
     = (trace w
        ++ [NetRequest
              (Frontend.fetch_request w
                 ("/api/health/timeline/" ++ Frontend.astronautId sf ++ "?days=7")
                 no_options)])%list).
Proof.
  cbn zeta. rewrite unnamed_navigate_run, frontend_navigate_run. cbn [fst snd].
  repeat match goal with |- _ ∧ _ => split end; try reflexivity.
  - intros <-. destruct su; cbn.
    destruct (decide _) as [| Hne]; [reflexivity | now destruct Hne].
  - intros <-. destruct sf; cbn.
    destruct (decide _) as [| Hne]; [reflexivity | now destruct Hne].
  - intros Hin. case_decide; [reflexivity |].
    unfold Unnamed.mounted_view in *. cbn in *.
    destruct (Unnamed.dash_loading su); [reflexivity |].
    repeat (apply elem_of_cons in Hin as [-> | Hin]; [reflexivity |]).
    now apply elem_of_nil in Hin.
  - intros Hin. case_decide; [reflexivity |].
    unfold Frontend.mounted_view in *. cbn in *.
    destruct (Frontend.loading sf); [reflexivity |].
    repeat (apply elem_of_cons in Hin as [-> | Hin]; [reflexivity |]).
    now apply elem_of_nil in Hin.
  - intros Hl Hne ->. unfold Unnamed.mounted_view. cbn. rewrite Hl.
    case_decide as Heq.
    + destruct (Unnamed.currentView su); try discriminate;
        [congruence | destruct (Unnamed.is_supervisor u); discriminate].
    + reflexivity.
  - intros Hl Hne ->. unfold Unnamed.mounted_view. cbn. rewrite Hl.
    case_decide as Heq.
    + destruct (Unnamed.currentView su); try discriminate;
        [congruence | destruct (Unnamed.is_supervisor u); discriminate].
    + reflexivity.
  - intros Hl Hne ->. unfold Frontend.mounted_view. cbn. rewrite Hl.
    case_decide as Heq.
    + destruct (Frontend.currentView sf); try discriminate;
        [congruence | destruct (Frontend.is_supervisor _); discriminate].
    + reflexivity.
Qed.

Lemma C6_view_switch_and_mount_fetches_witness :
  (Frontend.navigate Frontend.facial (loaded_app, w_fresh)).1.2 = w_fresh
  ∧ trace (Unnamed.navigate (Some commander) Unnamed.timeline_view
             (loaded_dash, w_fresh)).1.2
    = [NetRequest timeline_request].
Proof.
  destruct (C6_view_switch_and_mount_fetches (Some commander)
              Unnamed.timeline_view Frontend.facial loaded_dash loaded_app
              w_fresh)
    as (_ & _ & _ & _ & _ & Hquiet & Htimeline & _).
  split.
  - apply Hquiet. apply list_elem_of_In. cbn. tauto.
  - rewrite Htimeline; [reflexivity | reflexivity | discriminate | reflexivity].
Defined.

(** ** C9: the wellness defaults *)

(** C9: with no vitals (no summary at all, or a summary without [health]) the
    wellness index of [CommandCenter] (part_000) is 85, shown as excellent
    condition; with no vitals the risk level of [Dashboard] (App.js) is 0,
    labelled Optimal, the lowest of the three levels. Both computations are
    total, and the risk label is defined for every input: there is no
    failure case. *)
Theorem C9_wellness_defaults :
  Unnamed.wellnessScore (Unnamed.health_of None) = 85%Z
  ∧ (∀ b t c a f,
       Unnamed.wellnessScore
         (Unnamed.health_of (Some (Unnamed.mkSummary None b t c a f))) = 85%Z)
  ∧ Unnamed.wellness_caption (Unnamed.wellnessScore None) = "Excellent Condition"
  ∧ Frontend.riskLevel None = 0%nat
  ∧ Frontend.risk_label None = Some "Optimal"
  ∧ Frontend.riskLabels !! 0%nat = Some "Optimal"
  ∧ (∀ h, is_Some (Frontend.risk_label h)).
Proof.
  repeat split; try reflexivity. intros h.
  unfold Frontend.risk_label, Frontend.riskLevel.
  destruct h as [h |]; [| now eexists].
  destruct (truthy_number _); [| now eexists].
  destruct (_ || _); [now eexists |].
  destruct (gt _ _); now eexists.
Qed.

(** With vitals the index is the rounded formula: the rest pulse of 70 with
    stress 40 and fatigue 30 scores 75. *)
Example wellnessScore_75 :
  Unnamed.wellnessScore
    (Some {| Health.heart_rate := 70; Health.hrv := 60;
             Health.stress_level := 40; Health.fatigue_level := 30;
             Health.validation := None |}) = 75%Z.
Proof. reflexivity. Qed.

Example riskLevel_high :
  Frontend.risk_label
    (Some {| Health.heart_rate := 70; Health.hrv := 60;
             Health.stress_level := 80; Health.fatigue_level := 30;
             Health.validation :=
               Some {| Health.adjusted_confidence := Some (9 # 10)%Q |} |})
  = Some "High".
Proof. reflexivity. Qed.

(** * Further properties of the code *)

(** ** The gateway: one request per call, and its headers *)

Lemma requests_of_app (tr1 tr2 : list event) :
  requests_of (tr1 ++ tr2) = (requests_of tr1 ++ requests_of tr2)%list.
Proof. unfold requests_of. apply omap_app. Qed.

(** Every call of either gateway sends exactly one request, the one built
    from its arguments, whatever the backend answers: no call is retried
    and none is skipped. *)
Theorem gateway_sends_exactly_one_request {A} (endpoint : string)
    (options : request_init) (ans : reply A) (w : world) :
  requests_of (trace (Unnamed.api_fetch endpoint options ans w).1)
  = (requests_of (trace w) ++ [Unnamed.fetch_request w endpoint options])%list
  ∧ requests_of (trace (Frontend.api_fetch endpoint options ans w).1)
    = (requests_of (trace w) ++ [Frontend.fetch_request w endpoint options])%list.
Proof.
  split; run_M; destruct ans as [| status body]; cbn;
    try (now rewrite requests_of_app);
    try destruct (status =? 401)%Z; cbn; destruct (ok status); cbn;
    try destruct body; cbn;
    rewrite ?requests_of_app; cbn; rewrite <- ?app_assoc; cbn;
    rewrite ?app_nil_r; reflexivity.
Qed.

Lemma unnamed_fetch_headers_lookup (w : world) (endpoint : string)
    (options : request_init) :
  let r := Unnamed.fetch_request w endpoint options in
  headers r !! "Content-Type"
  = Some (default "application/json" (opt_headers options !! "Content-Type"))
  ∧ headers r !! "Authorization"
    = match api_token w with
      | Some t => if Js.truthy_string t then Some ("Bearer " ++ t)
                  else opt_headers options !! "Authorization"
      | None => opt_headers options !! "Authorization"
      end
  ∧ (∀ k, k ≠ "Content-Type" → k ≠ "Authorization" →
          headers r !! k = opt_headers options !! k).
Proof.
  cbn zeta. unfold Unnamed.fetch_request, Unnamed.fetch_headers. cbn.
  assert (Hbase : ∀ k,
    (opt_headers options ∪ {[ "Content-Type" := "application/json" ]}) !! k
    = match opt_headers options !! k with
      | Some v => Some v
      | None => if decide (k = "Content-Type") then Some "application/json"
                else None
      end).
  { intros k. rewrite lookup_union.
    destruct (opt_headers options !! k) as [v |] eqn:Hk; cbn.
    - now destruct ({[ "Content-Type" := "application/json" ]} !! k).
    - destruct (decide (k = "Content-Type")) as [-> | Hne].
      + now rewrite lookup_singleton_eq.
      + now rewrite lookup_singleton_ne. }
  destruct (api_token w) as [t |]; [destruct (Js.truthy_string t) |].
  - repeat split.
    + rewrite lookup_insert_ne by discriminate. rewrite Hbase.
      now destruct (opt_headers options !! "Content-Type").
    + apply lookup_insert_eq.
    + intros k Hc Ha. rewrite lookup_insert_ne by congruence. rewrite Hbase.
      destruct (opt_headers options !! k); [reflexivity |].
      now destruct (decide (k = "Content-Type")).
  - repeat split.
    + rewrite Hbase. now destruct (opt_headers options !! "Content-Type").
    + rewrite Hbase. now destruct (opt_headers options !! "Authorization").
    + intros k Hc Ha. rewrite Hbase.
      destruct (opt_headers options !! k); [reflexivity |].
      now destruct (decide (k = "Content-Type")).
  - repeat split.
    + rewrite Hbase. now destruct (opt_headers options !! "Content-Type").
    + rewrite Hbase. now destruct (opt_headers options !! "Authorization").
    + intros k Hc Ha. rewrite Hbase.
      destruct (opt_headers options !! k); [reflexivity |].
      now destruct (decide (k = "Content-Type")).
Qed.


(** The headers of a request of the part_000 gateway: the caller's headers
    are passed on; the content type is JSON unless the caller sets one; and
    when a truthy token is held, [Authorization] is the bearer token even if
    the caller supplied its own. *)
Theorem gateway_headers (w : world) (endpoint : string)
    (options : request_init) :
  let r := Unnamed.fetch_request w endpoint options in
  headers r !! "Content-Type"
  = Some (default "application/json" (opt_headers options !! "Content-Type"))
  ∧ headers r !! "Authorization"
    = match api_token w with
      | Some t => if Js.truthy_string t then Some ("Bearer " ++ t)
                  else opt_headers options !! "Authorization"
      | None => opt_headers options !! "Authorization"
      end
  ∧ (∀ k, k ≠ "Content-Type" → k ≠ "Authorization" →
          headers r !! k = opt_headers options !! k).
Proof. apply unnamed_fetch_headers_lookup. Qed.

Lemma gateway_headers_witness :
  headers (Unnamed.fetch_request w_stale "/api/health" caller_headers)
    !! "Authorization" = Some "Bearer tok"
  ∧ headers (Unnamed.fetch_request w_stale "/api/health" caller_headers)
      !! "X-Trace" = Some "1".
Proof.
  destruct (gateway_headers w_stale "/api/health" caller_headers)
    as (_ & Hauth & Hother).
  split; [exact Hauth |].
  rewrite (Hother "X-Trace"); [reflexivity | discriminate | discriminate].
Defined.

(** ** The session: start-up, failed logins, and the token in storage *)

(** A call of the part_000 gateway leaves the token alone, in memory and in
    storage, unless the status is 401; then both are cleared and the call
    throws. *)
Lemma unnamed_fetch_session {A} (endpoint : string) (options : request_init)
    (ans : reply A) (w : world) :
  let out := Unnamed.api_fetch endpoint options ans w in
  (api_token (out.1) = api_token w ∧ localStorage (out.1) = localStorage w
   ∧ ∀ body, ans ≠ HttpResponse 401 body)
  ∨ (api_token (out.1) = None
     ∧ localStorage (out.1) = delete "astra_token" (localStorage w)
     ∧ out.2 = Throw (ApiError 401)).
Proof.
  cbn zeta. run_M. destruct ans as [| status body]; cbn.
  - left. repeat split. discriminate.
  - destruct (status =? 401)%Z eqn:H401; cbn.
    + apply Z.eqb_eq in H401 as ->. right. cbn. repeat split.
    + left. destruct (ok status); cbn; [destruct body |]; cbn;
        repeat split; intros b [= -> _]; discriminate.
Qed.

Lemma setToken_consistent (token : option string) (w : world) :
  Unnamed.token_consistent (Unnamed.api_setToken token w).1.
Proof.
  unfold Unnamed.token_consistent. run_M.
  destruct token as [t |]; cbn; [destruct (Js.truthy_string t) eqn:Ht |]; cbn.
  - now rewrite lookup_insert_eq.
  - now rewrite lookup_delete_eq.
  - now rewrite lookup_delete_eq.
Qed.

Lemma fetch_consistent {A} (endpoint : string) (options : request_init)
    (ans : reply A) (w : world) :
  Unnamed.token_consistent w →
  Unnamed.token_consistent (Unnamed.api_fetch endpoint options ans w).1.
Proof.
  intros Hw. unfold Unnamed.token_consistent in *.
  destruct (unnamed_fetch_session endpoint options ans w)
    as [(Ht & Hs & _) | (Ht & Hs & _)]; rewrite Ht, Hs.
  - exact Hw.
  - now rewrite lookup_delete_eq.
Qed.

(** Invariants of the world pass through the monad. *)
Lemma bind_inv {S A B} (P : S → Prop) (m : St S A) (f : A → St S B) (s : S) :
  P (m s).1 → (∀ a s', P s' → P (f a s').1) → P ((m ≫= f) s).1.
Proof.
  intros Hm Hf. unfold mbind.
  change (P (match m s with
             | (s', Normal a) => f a s'
             | (s', Throw e) => (s', Throw e)
             end).1).
  destruct (m s) as [s' [a | e]]; cbn in *; auto.
Qed.

Lemma try_catch_inv {S A} (P : S → Prop) (c : St S A) (h : thrown → St S A)
    (s : S) :
  P (c s).1 → (∀ e s', P s' → P (h e s').1) → P (try_catch c h s).1.
Proof.
  intros Hc Hh. unfold try_catch.
  destruct (c s) as [s' [a | e]]; cbn in *; auto.
Qed.

Lemma session_step_world (m : M Unnamed.app) (st : Unnamed.app) (w : world) :
  (match m w with
   | (w', Normal st') => (st', w')
   | (w', Throw _) => (st, w')
   end).2 = (m w).1.
Proof. now destruct (m w) as [w' [st' | e]]. Qed.

Lemma session_step_consistent (sw : Unnamed.app * world)
    (a : Unnamed.session_action) :
  Unnamed.token_consistent (sw.2) →
  Unnamed.token_consistent (Unnamed.session_step sw a).2.
Proof.
  intros Hw. destruct sw as [st w]. cbn in Hw.
  destruct a as [ans | email password ans | | endpoint options ans];
    cbn [Unnamed.session_step fst snd]; rewrite ?session_step_world.
  - (* checkAuth *)
    unfold Unnamed.checkAuth, Unnamed.api_getMe, M_bind, M_ret.
    apply (bind_inv Unnamed.token_consistent); [exact Hw |]. intros w0 w' Hw'.
    apply (bind_inv Unnamed.token_consistent); [| now intros].
    destruct (Js.truthy (api_token w0)); [| exact Hw'].
    apply (try_catch_inv Unnamed.token_consistent).
    + apply (bind_inv Unnamed.token_consistent); [now apply fetch_consistent | now intros].
    + intros e s' _. apply (bind_inv Unnamed.token_consistent); [apply setToken_consistent | now intros].
  - (* login *)
    unfold Unnamed.login, Unnamed.api_login, M_bind, M_ret.
    apply (bind_inv Unnamed.token_consistent); [now apply fetch_consistent |]. intros result w' Hw'.
    apply (bind_inv Unnamed.token_consistent); [now destruct result |]. intros token w'' _.
    apply (bind_inv Unnamed.token_consistent); [apply setToken_consistent |]. intros _ w3 Hw3.
    apply (bind_inv Unnamed.token_consistent); [now destruct result | now intros].
  - (* logout *)
    unfold Unnamed.logout, M_bind, M_ret.
    apply (bind_inv Unnamed.token_consistent); [apply setToken_consistent | now intros].
  - (* any other call *)
    now apply fetch_consistent.
Qed.

(** From the load of the page on, through any sequence of start-up
    checks, logins (successful or not), logouts and other gateway calls
    with any answers, the token in memory and the token in storage agree;
    so the bearer header of the next request carries exactly the stored
    token, and none is sent when nothing non-empty is stored. *)
Theorem token_consistent_invariant (env : option string)
    (storage : gmap string string) (l : list Unnamed.session_action)
    (endpoint : string) :
  let w := (Unnamed.session_run (Unnamed.page_load env storage) l).2 in
  Unnamed.token_consistent w
  ∧ headers (Unnamed.fetch_request w endpoint no_options) !! "Authorization"
    = match localStorage w !! "astra_token" with
      | Some t => if Js.truthy_string t then Some ("Bearer " ++ t) else None
      | None => None
      end.
Proof.
  cbn zeta.
  assert (Hinv : Unnamed.token_consistent
                   (Unnamed.session_run (Unnamed.page_load env storage) l).2).
  { unfold Unnamed.session_run.
    assert (H0 : Unnamed.token_consistent (Unnamed.page_load env storage).2).
    { unfold Unnamed.token_consistent, Unnamed.page_load. cbn.
      now destruct (storage !! "astra_token"). }
    revert H0. generalize (Unnamed.page_load env storage).
    induction l as [| a l IH]; intros sw H0; cbn; [exact H0 |].
    apply IH. now apply session_step_consistent. }
  split; [exact Hinv |].
  destruct (unnamed_fetch_headers_lookup
              (Unnamed.session_run (Unnamed.page_load env storage) l).2
              endpoint no_options) as (_ & -> & _).
  unfold Unnamed.token_consistent in Hinv. cbn.
  destruct (localStorage _ !! "astra_token") as [t |] eqn:Hs.
  - rewrite Hinv. now destruct (Js.truthy_string t).
  - destruct (api_token _) as [t |]; [| reflexivity].
    cbn in Hinv. now rewrite Hinv.
Qed.

(** The start-up check. It never throws and always ends the loading
    state. Without a truthy token it sends nothing and changes nothing
    else. With one, a failed profile call clears the token in memory and in
    storage and leaves the user as it was; a profile call that succeeds sets
    the user and keeps the token. *)
Theorem checkAuth_startup (w : world) (st : Unnamed.app)
    (ans : reply (option Unnamed.user_profile)) :
  let out := Unnamed.checkAuth st ans w in
  (∃ st', out.2 = Normal st' ∧ Unnamed.loading st' = false)
  ∧ (Js.truthy (api_token w) = false →
       out = (w, Normal (Unnamed.setLoading false st)))
  ∧ (Js.truthy (api_token w) = true → fails ans = true →
       out.2 = Normal (Unnamed.setLoading false st)
       ∧ api_token (out.1) = None
       ∧ localStorage (out.1) !! "astra_token" = None)
  ∧ (Js.truthy (api_token w) = true →
     ∀ u, payload_of ans = Some u →
       out.2 = Normal (Unnamed.setLoading false (Unnamed.setUser u st))
       ∧ api_token (out.1) = api_token w
       ∧ localStorage (out.1) = localStorage w).
Proof.
  cbn zeta. split; [| split; [| split]].
  - destruct (checkAuth_ends_loading w st ans) as (w' & st' & -> & Hl).
    now exists st'.
  - intros Ht. unfold Unnamed.checkAuth. run_M. now rewrite Ht.
  - intros Ht Hf. unfold Unnamed.checkAuth, Unnamed.api_getMe. run_M.
    rewrite Ht. destruct ans as [| status body]; cbn.
    + repeat split. apply lookup_delete_eq.
    + cbn in Hf. destruct (status =? 401)%Z; cbn; destruct (ok status); cbn;
        cbn in Hf; try destruct body; cbn; try discriminate;
        repeat split; apply lookup_delete_eq.
  - intros Ht u Hu. unfold Unnamed.checkAuth, Unnamed.api_getMe. run_M.
    rewrite Ht. destruct ans as [| status body]; cbn in *; [discriminate |].
    destruct (ok status) eqn:Hok; [| discriminate]. subst body.
    rewrite (ok_is_not_401 _ Hok). cbn. repeat split.
Qed.

Lemma checkAuth_startup_witness :
  let out := Unnamed.checkAuth {| Unnamed.user := None; Unnamed.loading := true |}
               (HttpResponse 500 None) w_stale in
  out.2 = Normal {| Unnamed.user := None; Unnamed.loading := false |}
  ∧ api_token (out.1) = None
  ∧ localStorage (out.1) !! "astra_token" = None.
Proof.
  destruct (checkAuth_startup w_stale
              {| Unnamed.user := None; Unnamed.loading := true |}
              (HttpResponse 500 None)) as (_ & _ & Hfail & _).
  apply Hfail; reflexivity.
Defined.

(** A login that does not succeed, other than by a 401 answer, throws to
    its caller and leaves the token in memory and in storage as they
    were. *)
Theorem login_failure_keeps_session (w : world) (st : Unnamed.app)
    (email password : string) (ans : reply (option Unnamed.auth_result)) :
  (∀ body, ans ≠ HttpResponse 401 body) →
  (∀ result, payload_of ans ≠ Some (Some result)) →
  ∃ w' e,
    Unnamed.login st email password ans w = (w', Throw e)
    ∧ api_token w' = api_token w
    ∧ localStorage w' = localStorage w.
Proof.
  intros H401 Hfail. unfold Unnamed.login, Unnamed.api_login. run_M.
  destruct ans as [| status body]; cbn in *.
  - do 2 eexists. repeat split.
  - destruct (status =? 401)%Z eqn:Hs.
    + apply Z.eqb_eq in Hs as ->. now destruct (H401 body).
    + cbn. destruct (ok status); cbn.
      * destruct body as [[result |] |]; cbn.
        -- now destruct (Hfail result).
        -- do 2 eexists. repeat split.
        -- do 2 eexists. repeat split.
      * do 2 eexists. repeat split.
Qed.

Lemma login_failure_keeps_session_witness :
  ∃ w' e,
    Unnamed.login {| Unnamed.user := None; Unnamed.loading := false |}
      "a@b.c" "wrong" (HttpResponse 403 None) w_stale = (w', Throw e)
    ∧ api_token w' = Some "tok"
    ∧ localStorage w' = localStorage w_stale.
Proof.
  apply (login_failure_keeps_session w_stale
           {| Unnamed.user := None; Unnamed.loading := false |}
           "a@b.c" "wrong" (HttpResponse 403 None)).
  - intros body. discriminate.
  - intros result. discriminate.
Defined.

(** The submit handler of the login page never throws and always ends its
    loading state. When the chosen action (login or register, by the tab)
    succeeds the error text is empty; when it throws, the error text is the
    message of the error, or the fallback text when that message is absent
    or empty, so it is never empty and the banner is shown. *)
Theorem handleSubmit_surfaces_failure
    (browser_message : thrown → option string)
    (login : string → string → M unit)
    (register : Unnamed.login_form → M unit)
    (st : Unnamed.login_page) (w : world) :
  let action :=
    if Unnamed.isLogin st
    then login (Unnamed.form_email (Unnamed.formData st))
           (Unnamed.form_password (Unnamed.formData st))
    else register (Unnamed.formData st) in
  let out := Unnamed.handleSubmit browser_message login register (st, w) in
  out.2 = Normal tt
  ∧ Unnamed.page_loading (out.1.1) = false
  ∧ Unnamed.formData (out.1.1) = Unnamed.formData st
  ∧ Unnamed.isLogin (out.1.1) = Unnamed.isLogin st
  ∧ out.1.2 = (action w).1
  ∧ match (action w).2 with
    | Normal _ => Unnamed.error (out.1.1) = ""
    | Throw e =>
        Unnamed.error (out.1.1)
        = Js.or_else (message_of browser_message e) "Authentication failed"
        ∧ Unnamed.error (out.1.1) ≠ ""
    end.
Proof.
  cbn zeta. unfold Unnamed.handleSubmit. run_M.
  destruct (Unnamed.isLogin st) eqn:Hl; cbn.
  - destruct (login _ _ w) as [w' [[] | e]]; cbn; repeat split; try assumption.
    unfold Js.or_else. destruct (message_of browser_message e) as [m |];
      [destruct m |]; discriminate.
  - destruct (register _ w) as [w' [[] | e]]; cbn; repeat split; try assumption.
    unfold Js.or_else. destruct (message_of browser_message e) as [m |];
      [destruct m |]; discriminate.
Qed.

(** ** [App.js]: the initial load *)

(** The initial load of [App] (App.js lines 69-82) always asks for the
    roster and for the service health, never throws and ends with
    [loading] false. When one of the two calls fails, neither the roster
    nor the system status changes, whatever the other call answered; when
    both answer an object, the roster is the answered one, or the three
    built-in ids when the answer has none, and the status is the answered
    one. *)
Theorem loadData_all_or_nothing (ans_roster : reply (option Frontend.roster_result))
    (ans_health : reply (option Frontend.health_status))
    (sh : Frontend.shell) (w : world) :
  let out := Frontend.loadData ans_roster ans_health (sh, w) in
  let app' := Frontend.shell_app (out.1).1 in
  out.2 = Normal tt
  ∧ Frontend.loading app' = false
  ∧ firstn 2 (skipn (length (requests_of (trace w)))
                (requests_of (trace (out.1).2)))
    = [Frontend.fetch_request w "/api/astronauts" no_options;
       Frontend.fetch_request w "/api/health" no_options]
  ∧ (fails ans_roster || fails ans_health = true →
     Frontend.astronauts app' = Frontend.astronauts (Frontend.shell_app sh)
     ∧ Frontend.systemStatus (out.1).1 = Frontend.systemStatus sh)
  ∧ (∀ r h, payload_of ans_roster = Some (Some r) →
            payload_of ans_health = Some (Some h) →
            Frontend.astronauts app'
            = Frontend.or_default_astronauts (Frontend.roster r)
            ∧ Frontend.systemStatus (out.1).1 = Frontend.service_status h).
Proof.
  cbv zeta.
  unfold Frontend.loadData, Frontend.api_getAstronauts, Frontend.api_getHealth,
    Promise_all2.
  run_M.
  destruct ans_roster as [| s1 [[r |] |]], ans_health as [| s2 [[h |] |]]; cbn;
    try destruct (ok s1) eqn:H1; try destruct (ok s2) eqn:H2; cbn;
    rewrite ?requests_of_app; cbn; rewrite ?requests_of_app; cbn;
    rewrite <- ?app_assoc; cbn.
  all: repeat split; try (intros; discriminate); try (intros; congruence).
  all: try (rewrite drop_app_length; reflexivity).
Qed.

Lemma loadData_all_or_nothing_witness :
  let out := Frontend.loadData roster_without_list health_degraded
               (Frontend.shell_initial, w_fresh) in
  Frontend.astronauts (Frontend.shell_app (out.1).1)
  = ["AST-001"; "AST-002"; "AST-003"]
  ∧ Frontend.systemStatus (out.1).1 = Some "degraded".
Proof.
  pose proof (loadData_all_or_nothing roster_without_list health_degraded
                Frontend.shell_initial w_fresh) as H.
  cbv zeta in H. destruct H as (_ & _ & _ & _ & H).
  exact (H _ _ eq_refl eq_refl).
Defined.

(** ** [App.js]: the alerts panel *)

Lemma acknowledge_in_active (alertId action : string) (l : list alert) :
  action ≠ "active" →
  Frontend.activeAlerts (Frontend.acknowledge_in alertId action l)
  = filter (λ a, negb (String.eqb (alert_id a) alertId))
      (Frontend.activeAlerts l).
Proof.
  intros Ha. unfold Frontend.activeAlerts, Frontend.acknowledge_in.
  induction l as [| a l IH]; [reflexivity |].
  cbn [map].
  destruct (String.eqb (alert_id a) alertId) eqn:Hid.
  - assert (Hna : ¬ is_active (with_status action a)).
    { unfold is_active. cbn. apply String.eqb_neq in Ha. rewrite Ha. exact (λ H, H). }
    rewrite filter_cons_False by exact Hna.
    destruct (decide (is_active a)) as [Hact | Hact].
    + rewrite filter_cons_True by exact Hact.
      rewrite filter_cons_False by (rewrite Hid; exact (λ H, H)). exact IH.
    + rewrite filter_cons_False by exact Hact. exact IH.
  - destruct (decide (is_active a)) as [Hact | Hact].
    + rewrite !filter_cons_True by exact Hact.
      rewrite filter_cons_True by (rewrite Hid; exact I). now rewrite IH.
    + rewrite !filter_cons_False by exact Hact. exact IH.
Qed.

Lemma acknowledge_in_unknown (alertId action : string) (l : list alert) :
  alertId ∉ map alert_id l → Frontend.acknowledge_in alertId action l = l.
Proof.
  unfold Frontend.acknowledge_in. induction l as [| a l IH]; [reflexivity |].
  cbn. intros Hn. apply not_elem_of_cons in Hn as [Hne Hn].
  destruct (String.eqb (alert_id a) alertId) eqn:Hid.
  - apply String.eqb_eq in Hid. congruence.
  - now rewrite IH.
Qed.

(** [AlertsPanel.handleAcknowledge] (App.js lines 1331-1343) never throws.
    When the call fails the list is left to whatever the polling cycle
    wrote meanwhile. When it succeeds the list becomes the list of the
    render the click came from, with [status] replaced in the entries whose
    id is the clicked one: positions, length and all other entries are
    kept, an id that no entry has changes nothing, and for an action other
    than ['active'] the active alerts are the former active ones without
    that id. A list that landed during the call is overwritten. *)
Theorem handleAcknowledge_updates_status_in_place
    (astronautId alertId action : string) (landed : option (list alert))
    (ans : reply json) (alerts : list alert) (w : world) :
  let out := Frontend.handleAcknowledge astronautId alertId action landed ans
               (alerts, w) in
  let alerts' := (out.1).1 in
  out.2 = Normal tt
  ∧ (fails ans = true → alerts' = default alerts landed)
  ∧ (fails ans = false →
     length alerts' = length alerts
     ∧ (∀ i a, alerts !! i = Some a →
               alerts' !! i
               = Some (if String.eqb (alert_id a) alertId
                       then with_status action a else a))
     ∧ (alertId ∉ map alert_id alerts → alerts' = alerts)
     ∧ (action ≠ "active" →
        Frontend.activeAlerts alerts'
        = filter (λ a, negb (String.eqb (alert_id a) alertId))
            (Frontend.activeAlerts alerts))).
Proof.
  cbv zeta. unfold Frontend.handleAcknowledge, Frontend.api_acknowledgeAlert.
  run_M.
  destruct ans as [| s [j |]]; cbn; try destruct (ok s) eqn:Hok; cbn;
    (split; [reflexivity |]); (split; [destruct landed; cbn; congruence |]);
    intros Hf; try discriminate Hf.
  repeat split.
  - unfold Frontend.acknowledge_in. apply length_map.
  - intros i a Hi. unfold Frontend.acknowledge_in.
    change (map ?f alerts) with (f <$> alerts).
    rewrite list_lookup_fmap, Hi. reflexivity.
  - apply acknowledge_in_unknown.
  - apply acknowledge_in_active.
Qed.

Lemma handleAcknowledge_updates_status_in_place_witness :
  Frontend.activeAlerts
    (Frontend.handleAcknowledge "AST-001" "a-1" "acknowledged" None
       (HttpResponse 200 (Some JNull)) ([stress_alert; sleep_alert], w_fresh)).1.1
  = [sleep_alert].
Proof.
  pose proof (handleAcknowledge_updates_status_in_place "AST-001" "a-1"
                "acknowledged" None (HttpResponse 200 (Some JNull))
                [stress_alert; sleep_alert] w_fresh) as H.
  cbv zeta in H. destruct H as (_ & _ & H).
  destruct (H eq_refl) as (_ & _ & _ & Hactive).
  rewrite Hactive by discriminate. reflexivity.
Defined.

(** ** [App.js]: the crew overview *)






Lemma gt_spec (q c : Q) : gt q c = true ↔ (c < q)%Q.
Proof.
  unfold gt. rewrite negb_true_iff, <- not_true_iff_false, Qle_bool_iff.
  split; [apply Qnot_le_lt | apply Qlt_not_le].
Qed.

Lemma urgent_alert_spec (al : list alert) :
  existsb (λ a, is_active a && (2 <=? level a)%Z) al = true
  ↔ ∃ a, a ∈ al ∧ status a = "active" ∧ (2 ≤ level a)%Z.
Proof.
  rewrite existsb_exists. split.
  - intros (a & Hin & Ha). apply andb_true_iff in Ha as [Hs Hl].
    exists a. rewrite <- list_elem_of_In in Hin.
    apply String.eqb_eq in Hs. apply Z.leb_le in Hl. auto.
  - intros (a & Hin & Hs & Hl). exists a. rewrite <- list_elem_of_In.
    split; [exact Hin |]. apply andb_true_iff. split.
    + now apply String.eqb_eq.
    + now apply Z.leb_le.
Qed.

(** [CrewOverview.getStatus] (App.js lines 1718-1727) on a card with vitals
    and an alerts list: the label is "Attention Needed" exactly when some
    alert is active with level 2 or more, whatever the vitals are;
    otherwise it is "Elevated" exactly when stress or fatigue is above 70,
    and "Optimal" when both are at most 70. Acknowledged alerts and alerts
    of level 1 never raise the label. *)
Theorem getStatus_priority (h : Health.record) (al : list alert) :
  let urgent := ∃ a, a ∈ al ∧ status a = "active" ∧ (2 ≤ level a)%Z in
  let strained :=
    (70 < Health.stress_level h)%Q ∨ (70 < Health.fatigue_level h)%Q in
  ∃ label colour,
    Frontend.getStatus {| Frontend.crew_health := Some h;
                          Frontend.crew_alerts := Some al |}
    = Normal (label, colour)
    ∧ (label = "Attention Needed" ↔ urgent)
    ∧ (label = "Elevated" ↔ ¬ urgent ∧ strained)
    ∧ (label = "Optimal" ↔ ¬ urgent ∧ ¬ strained).
Proof.
  cbv zeta. unfold Frontend.getStatus. cbn [Frontend.crew_health Frontend.crew_alerts].
  destruct (existsb _ al) eqn:Hu.
  - apply urgent_alert_spec in Hu. do 2 eexists. split; [reflexivity |].
    repeat split; try discriminate; tauto.
  - assert (Hnu : ¬ ∃ a, a ∈ al ∧ status a = "active" ∧ (2 ≤ level a)%Z).
    { rewrite <- urgent_alert_spec, Hu. discriminate. }
    destruct (gt (Health.stress_level h) 70 || gt (Health.fatigue_level h) 70)
      eqn:Hs.
    + apply orb_true_iff in Hs. rewrite !gt_spec in Hs.
      do 2 eexists. split; [reflexivity |].
      repeat split; try discriminate; tauto.
    + apply orb_false_iff in Hs as [H1 H2].
      assert (¬ ((70 < Health.stress_level h)%Q ∨ (70 < Health.fatigue_level h)%Q)).
      { rewrite <- !gt_spec, H1, H2. intros [|]; discriminate. }
      do 2 eexists. split; [reflexivity |].
      repeat split; try discriminate; tauto.
Qed.

(** ** [part_000]: the dashboard loader and the handlers that refresh it *)

(** What one call of the part_000 gateway does, by the payload of the
    answer. *)
Lemma unnamed_fetch_run {A} (endpoint : string) (options : request_init)
    (ans : reply A) (w : world) :
  ∃ w' r,
    Unnamed.api_fetch endpoint options ans w = (w', r)
    ∧ requests_of (trace w')
      = (requests_of (trace w)
         ++ [Unnamed.fetch_request w endpoint options])%list
    ∧ REACT_APP_BACKEND_URL w' = REACT_APP_BACKEND_URL w
    ∧ match payload_of ans with
      | Some a => r = Normal a ∧ api_token w' = api_token w
                  ∧ localStorage w' = localStorage w
      | None => ∃ e, r = Throw e
      end.
Proof.
  run_M. destruct ans as [| status [a |]]; cbn.
  - do 2 eexists. split; [reflexivity |]. cbn. rewrite requests_of_app. cbn.
    repeat split. eauto.
  - destruct (status =? 401)%Z eqn:H401; cbn.
    + apply Z.eqb_eq in H401 as ->. cbn.
      do 2 eexists. split; [reflexivity |]. cbn.
      rewrite !requests_of_app. cbn. rewrite !app_nil_r. repeat split. eauto.
    + destruct (ok status); cbn; do 2 eexists; (split; [reflexivity |]); cbn;
        rewrite ?requests_of_app; cbn; rewrite ?app_nil_r; repeat split; eauto.
  - destruct (status =? 401)%Z eqn:H401; cbn.
    + apply Z.eqb_eq in H401 as ->. cbn.
      do 2 eexists. split; [reflexivity |]. cbn.
      rewrite !requests_of_app. cbn. rewrite !app_nil_r. repeat split. eauto.
    + destruct (ok status); cbn; do 2 eexists; (split; [reflexivity |]); cbn;
        rewrite ?requests_of_app; cbn; rewrite ?app_nil_r; repeat split; eauto.
Qed.

Lemma loadDashboardData_run (astronautId : string)
    (ans : reply (option Unnamed.summary)) (st : Unnamed.dash) (w : world) :
  ∃ w',
    Unnamed.loadDashboardData astronautId ans (st, w)
    = ((Unnamed.setDashLoading false
          match payload_of ans with
          | Some (Some d) =>
              if truthy_opt_json (Unnamed.facial_analysis d)
              then Unnamed.setFacialData (Unnamed.facial_analysis d)
                     (Unnamed.setDashboardData (Some d) st)
              else Unnamed.setDashboardData (Some d) st
          | Some None => Unnamed.setDashboardData None st
          | None => st
          end, w'), Normal tt)
    ∧ requests_of (trace w')
      = (requests_of (trace w)
         ++ [Unnamed.fetch_request w ("/api/dashboard/summary/" ++ astronautId)
               no_options])%list.
Proof.
  unfold Unnamed.loadDashboardData, Unnamed.api_getDashboardSummary.
  destruct (unnamed_fetch_run ("/api/dashboard/summary/" ++ astronautId)
              no_options ans w) as (w1 & r & E & R & _ & Hr).
  unfold try_catch, call, set_state, read, raise, console_error, emit,
    mbind, mret, C_bind, C_ret, St_bind, St_ret.
  cbn [fst snd]. rewrite E.
  destruct (payload_of ans) as [[d |] |].
  - destruct Hr as (-> & _). cbn.
    destruct (truthy_opt_json (Unnamed.facial_analysis d)); cbn;
      eexists; split; try reflexivity; exact R.
  - destruct Hr as (-> & _). cbn. eexists; split; [reflexivity |].
    cbn. rewrite requests_of_app. cbn. now rewrite app_nil_r.
  - destruct Hr as (e & ->). cbn. eexists; split; [reflexivity |].
    cbn. rewrite requests_of_app. cbn. now rewrite app_nil_r.
Qed.

(** One cycle of [Dashboard.loadDashboardData] (part_000 lines 319-330)
    sends the summary request, never throws and ends with [loading] false;
    the selected view and the sidebar are not touched. A failed call keeps
    the summary and the scan data. An answered summary replaces the old
    one; its [facial_analysis] replaces the scan data only when it is
    truthy, so scan data once shown is never cleared by a summary without
    one. An answer that is the JSON value [null] is stored as the summary
    (the dashboard loses its data) before the failure is logged. *)
Theorem loadDashboardData_outcomes (astronautId : string)
    (ans : reply (option Unnamed.summary)) (st : Unnamed.dash) (w : world) :
  let out := Unnamed.loadDashboardData astronautId ans (st, w) in
  let st' := (out.1).1 in
  out.2 = Normal tt
  ∧ Unnamed.dash_loading st' = false
  ∧ Unnamed.currentView st' = Unnamed.currentView st
  ∧ Unnamed.sidebarOpen st' = Unnamed.sidebarOpen st
  ∧ requests_of (trace (out.1).2)
    = (requests_of (trace w)
       ++ [Unnamed.fetch_request w ("/api/dashboard/summary/" ++ astronautId)
             no_options])%list
  ∧ (fails ans = true →
     Unnamed.dashboardData st' = Unnamed.dashboardData st
     ∧ Unnamed.facialData st' = Unnamed.facialData st)
  ∧ (∀ d, payload_of ans = Some (Some d) →
     Unnamed.dashboardData st' = Some d
     ∧ Unnamed.facialData st'
       = if truthy_opt_json (Unnamed.facial_analysis d)
         then Unnamed.facial_analysis d else Unnamed.facialData st)
  ∧ (payload_of ans = Some None →
     Unnamed.dashboardData st' = None
     ∧ Unnamed.facialData st' = Unnamed.facialData st).
Proof.
  cbv zeta.
  destruct (loadDashboardData_run astronautId ans st w) as (w' & E & R).
  rewrite E. cbn [fst snd].
  split; [reflexivity |]. split; [reflexivity |].
  split; [| split; [| split; [exact R |]]].
  - destruct (payload_of ans) as [[d |] |]; try reflexivity.
    now destruct (truthy_opt_json _).
  - destruct (payload_of ans) as [[d |] |]; try reflexivity.
    now destruct (truthy_opt_json _).
  - split; [| split].
    + intros Hf. now rewrite (fails_no_payload _ Hf).
    + intros d ->. now destruct (truthy_opt_json _).
    + now intros ->.
Qed.

Lemma loadDashboardData_outcomes_witness :
  let out := Unnamed.loadDashboardData "AST-001"
               (HttpResponse 200 (Some (Some summary_with_scan)))
               (Unnamed.Dashboard_initial, w_fresh) in
  Unnamed.dashboardData (out.1).1 = Some summary_with_scan
  ∧ Unnamed.facialData (out.1).1 = Some (JObj [("mood_state", JStr "calm")]).
Proof.
  pose proof (loadDashboardData_outcomes "AST-001"
                (HttpResponse 200 (Some (Some summary_with_scan)))
                Unnamed.Dashboard_initial w_fresh) as H.
  cbv zeta in H. destruct H as (_ & _ & _ & _ & _ & _ & H & _).
  exact (H _ eq_refl).
Defined.

Lemma unnamed_fetch_request_stable (w w' : world) (endpoint : string)
    (options : request_init) :
  REACT_APP_BACKEND_URL w' = REACT_APP_BACKEND_URL w →
  api_token w' = api_token w →
  Unnamed.fetch_request w' endpoint options
  = Unnamed.fetch_request w endpoint options.
Proof.
  intros Hu Ht. unfold Unnamed.fetch_request, BACKEND_URL. now rewrite Hu, Ht.
Qed.

(** The demo-data button (part_000 lines 484-493, App.js lines 308-317)
    sends one body-less POST for seven days, never throws and ends with
    [generating] false. In part_000 the dashboard is refreshed exactly when
    that call succeeded: on failure the cells of the dashboard are
    untouched and no second request is sent. In App.js the page is
    reloaded exactly when the call succeeded. *)
Theorem generateDemoData_follow_up_only_on_success (astronautId : string)
    (ans : reply json) (ans_refresh : reply (option Unnamed.summary))
    (g : bool) (st : Unnamed.dash) (w : world) :
  let outu := Unnamed.generateDemoData astronautId ans ans_refresh ((g, st), w) in
  let outf := Frontend.generateDemoData astronautId ans (g, w) in
  let endpoint := "/api/simulate/generate?astronaut_id=" ++ astronautId
                  ++ "&days=7" in
  (outu.2 = Normal tt ∧ (outu.1).1.1 = false)
  ∧ (outf.2 = Normal tt ∧ (outf.1).1 = false)
  ∧ (if fails ans
     then (outu.1).1.2 = st
          ∧ requests_of (trace (outu.1).2)
            = (requests_of (trace w)
               ++ [Unnamed.fetch_request w endpoint post_empty])%list
     else Unnamed.dash_loading (outu.1).1.2 = false
          ∧ requests_of (trace (outu.1).2)
            = (requests_of (trace w)
               ++ [Unnamed.fetch_request w endpoint post_empty;
                   Unnamed.fetch_request w
                     ("/api/dashboard/summary/" ++ astronautId) no_options])%list)
  ∧ requests_of (trace (outf.1).2)
    = (requests_of (trace w)
       ++ [Frontend.fetch_request w endpoint post_empty])%list
  ∧ (Reload ∈ trace (outf.1).2 ↔ Reload ∈ trace w ∨ fails ans = false).
Proof.
  cbv zeta. split; [| split; [| split]].
  - unfold Unnamed.generateDemoData, Unnamed.api_generateSimulation.
    destruct (unnamed_fetch_run
                ("/api/simulate/generate?astronaut_id=" ++ astronautId
                 ++ "&days=" ++ pretty 7%nat) post_empty ans w)
      as (w1 & r & E & _ & _ & Hr).
    unfold set_own, in_parent, try_catch, call, set_state, console_error, emit,
      mbind, C_bind, St_bind.
    cbn [fst snd]. rewrite E.
    destruct (payload_of ans) as [a |].
    + destruct Hr as (-> & _).
      destruct (loadDashboardData_run astronautId ans_refresh st w1)
        as (w2 & E2 & _).
      cbn [fst snd]. rewrite E2. now cbn.
    + destruct Hr as (e & ->). now cbn.
  - unfold Frontend.generateDemoData, Frontend.api_generateSimulation.
    run_M. destruct ans as [| s [j |]]; cbn; try destruct (ok s); now cbn.
  - unfold Unnamed.generateDemoData, Unnamed.api_generateSimulation.
    destruct (unnamed_fetch_run
                ("/api/simulate/generate?astronaut_id=" ++ astronautId
                 ++ "&days=" ++ pretty 7%nat) post_empty ans w)
      as (w1 & r & E & R & U & Hr).
    unfold set_own, in_parent, try_catch, call, set_state, console_error, emit,
      mbind, C_bind, St_bind.
    cbn [fst snd]. rewrite E.
    destruct (fails ans) eqn:Hf.
    + rewrite (fails_no_payload _ Hf) in Hr. destruct Hr as (e & ->). cbn.
      split; [reflexivity |]. rewrite requests_of_app. cbn.
      now rewrite app_nil_r.
    + destruct (fails_false_payload _ Hf) as (a & Ha). rewrite Ha in Hr.
      destruct Hr as (-> & Ht & _).
      destruct (loadDashboardData_run astronautId ans_refresh st w1)
        as (w2 & E2 & R2).
      cbn [fst snd]. rewrite E2. cbn. split; [reflexivity |].
      rewrite R2, R, <- app_assoc. cbn.
      now rewrite (unnamed_fetch_request_stable w w1 _ _ U Ht).
  - unfold Frontend.generateDemoData, Frontend.api_generateSimulation.
    run_M.
    destruct ans as [| s [j |]]; cbn; try destruct (ok s); cbn;
      rewrite ?requests_of_app; cbn; rewrite ?requests_of_app; cbn;
      rewrite ?app_nil_r; (split; [reflexivity |]);
      rewrite ?elem_of_app, ?elem_of_cons, ?elem_of_nil; split;
      try tauto; intros; intuition (try discriminate; try congruence).
Qed.

(** [AlertSystem.handleAcknowledge] of part_000 (lines 1280-1288) changes
    no alert itself: it posts the id and the action, and only after a
    successful post reloads the summary, whose alerts are then the ones
    shown. A failed post leaves the dashboard as it was and sends nothing
    more. The handler never throws. *)
Theorem unnamed_handleAcknowledge_reloads_summary
    (astronautId alertId action : string) (ans : reply json)
    (ans_refresh : reply (option Unnamed.summary))
    (st : Unnamed.dash) (w : world) :
  let out := Unnamed.handleAcknowledge astronautId alertId action ans
               ans_refresh (st, w) in
  let posted :=
    Unnamed.fetch_request w "/api/alerts/acknowledge"
      (post (astronaut_body astronautId
               [("alert_id", JStr alertId); ("action", JStr action)])) in
  out.2 = Normal tt
  ∧ (if fails ans
     then (out.1).1 = st
          ∧ requests_of (trace (out.1).2)
            = (requests_of (trace w) ++ [posted])%list
     else requests_of (trace (out.1).2)
          = (requests_of (trace w)
             ++ [posted;
                 Unnamed.fetch_request w
                   ("/api/dashboard/summary/" ++ astronautId) no_options])%list
          ∧ (fails ans_refresh = true →
             Unnamed.alerts_of (Unnamed.dashboardData (out.1).1)
             = Unnamed.alerts_of (Unnamed.dashboardData st))
          ∧ (∀ d, payload_of ans_refresh = Some (Some d) →
             Unnamed.alerts_of (Unnamed.dashboardData (out.1).1)
             = Js.or_empty (Unnamed.alerts d))).
Proof.
  cbv zeta. unfold Unnamed.handleAcknowledge, Unnamed.api_acknowledgeAlert.
  destruct (unnamed_fetch_run "/api/alerts/acknowledge"
              (post (astronaut_body astronautId
                       [("alert_id", JStr alertId); ("action", JStr action)]))
              ans w) as (w1 & r & E & R & U & Hr).
  unfold try_catch, call, console_error, emit, mbind, C_bind, St_bind.
  cbn [fst snd]. rewrite E.
  destruct (fails ans) eqn:Hf.
  - rewrite (fails_no_payload _ Hf) in Hr. destruct Hr as (e & ->). cbn.
    split; [reflexivity |]. split; [reflexivity |].
    rewrite requests_of_app. cbn. now rewrite app_nil_r.
  - destruct (fails_false_payload _ Hf) as (a & Ha). rewrite Ha in Hr.
    destruct Hr as (-> & Ht & _).
    destruct (loadDashboardData_run astronautId ans_refresh st w1)
      as (w2 & E2 & R2).
    cbn [fst snd]. rewrite E2. cbn [fst snd].
    split; [reflexivity |]. split; [| split].
    + rewrite R2, R, <- app_assoc. cbn.
      now rewrite (unnamed_fetch_request_stable w w1 _ _ U Ht).
    + intros Hfr. now rewrite (fails_no_payload _ Hfr).
    + intros d ->. now destruct (truthy_opt_json _).
Qed.

Lemma unnamed_handleAcknowledge_reloads_summary_witness :
  Unnamed.alerts_of
    (Unnamed.dashboardData
       (Unnamed.handleAcknowledge "AST-001" "a-1" "acknowledged"
          (HttpResponse 200 (Some JNull))
          (HttpResponse 200 (Some (Some summary_with_scan)))
          (Unnamed.Dashboard_initial, w_fresh)).1.1)
  = [].
Proof.
  pose proof (unnamed_handleAcknowledge_reloads_summary "AST-001" "a-1"
                "acknowledged" (HttpResponse 200 (Some JNull))
                (HttpResponse 200 (Some (Some summary_with_scan)))
                Unnamed.Dashboard_initial w_fresh) as H.
  cbv zeta in H. destruct H as (_ & H). cbn [fails ok] in H.
  destruct H as (_ & _ & H). exact (H _ eq_refl).
Defined.

(** Saving the mission form (part_000 lines 1363-1371, App.js lines
    1505-1516) posts the astronaut id with the form fields and never
    throws. The form leaves edit mode only when the save went through: in
    part_000 on every successful post, followed by a reload of the
    summary; in App.js when the answer is an object, whose [context]
    becomes the context shown, also when it is absent. After a failed post
    (in App.js also after an answer that is the JSON value [null]) the form
    stays as it was, with its fields, and nothing else changes. *)
Theorem handleSave_leaves_edit_mode_only_on_success (astronautId : string)
    (ansu : reply json) (ans_refresh : reply (option Unnamed.summary))
    (ansf : reply (option Frontend.context_result))
    (mu : Unnamed.mission) (st : Unnamed.dash) (mf : Frontend.mission)
    (w : world) :
  let outu := Unnamed.handleSave astronautId ansu ans_refresh ((mu, st), w) in
  let outf := Frontend.handleSave astronautId ansf (mf, w) in
  (outu.2 = Normal tt
   ∧ Unnamed.mission_formData (outu.1).1.1 = Unnamed.mission_formData mu
   ∧ requests_of (trace (outu.1).2)
     = (requests_of (trace w)
        ++ Unnamed.fetch_request w "/api/context/update"
             (post (astronaut_body astronautId (Unnamed.mission_formData mu)))
           :: (if fails ansu then []
               else [Unnamed.fetch_request w
                       ("/api/dashboard/summary/" ++ astronautId)
                       no_options]))%list
   ∧ (if fails ansu then (outu.1).1 = (mu, st)
      else Unnamed.mission_editing (outu.1).1.1 = false))
  ∧ (outf.2 = Normal tt
     ∧ Frontend.formData (outf.1).1 = Frontend.formData mf
     ∧ requests_of (trace (outf.1).2)
       = (requests_of (trace w)
          ++ [Frontend.fetch_request w "/api/context/update"
                (post (astronaut_body astronautId (Frontend.formData mf)))])%list
     ∧ match payload_of ansf with
       | Some (Some result) =>
           Frontend.editing (outf.1).1 = false
           ∧ Frontend.mission_context (outf.1).1
             = Frontend.result_context result
       | _ => (outf.1).1 = mf
       end).
Proof.
  cbv zeta. split.
  - unfold Unnamed.handleSave, Unnamed.api_updateContext.
    destruct (unnamed_fetch_run "/api/context/update"
                (post (astronaut_body astronautId (Unnamed.mission_formData mu)))
                ansu w) as (w1 & r & E & R & U & Hr).
    unfold set_own, in_parent, try_catch, call, set_state, console_error, emit,
      mbind, C_bind, St_bind.
    cbn [fst snd]. rewrite E.
    destruct (fails ansu) eqn:Hf.
    + rewrite (fails_no_payload _ Hf) in Hr. destruct Hr as (e & ->). cbn.
      repeat split. rewrite requests_of_app. cbn. now rewrite app_nil_r.
    + destruct (fails_false_payload _ Hf) as (a & Ha). rewrite Ha in Hr.
      destruct Hr as (-> & Ht & _).
      cbn [fst snd].
      destruct (loadDashboardData_run astronautId ans_refresh st w1)
        as (w2 & E2 & R2).
      rewrite E2. cbn [fst snd]. repeat split.
      rewrite R2, R, <- app_assoc. cbn.
      now rewrite (unnamed_fetch_request_stable w w1 _ _ U Ht).
  - unfold Frontend.handleSave, Frontend.api_updateContext.
    run_M. destruct mf as [e f c].
    destruct ansf as [| s [[result |] |]]; cbn; try destruct (ok s); cbn;
      rewrite ?requests_of_app; cbn; rewrite ?requests_of_app; cbn;
      rewrite ?app_nil_r; repeat split.
Qed.

(** ** [part_000]: the crew overview *)

Lemma loadCrew_round_result (id : string) (ans : reply (option Unnamed.summary))
    (data : gmap string (option Unnamed.summary)) (w : world) :
  ∃ w',
    Unnamed.loadCrew_round id ans (data, w)
    = ((<[ id := mjoin (payload_of ans) ]> data, w'), Normal tt)
    ∧ length (requests_of (trace w')) = S (length (requests_of (trace w))).
Proof.
  unfold Unnamed.loadCrew_round, Unnamed.api_getDashboardSummary.
  destruct (unnamed_fetch_run ("/api/dashboard/summary/" ++ id) no_options
              ans w) as (w1 & r & E & R & _ & Hr).
  unfold try_catch, call, set_state, mbind, C_bind, St_bind.
  cbn [fst snd]. rewrite E. exists w1.
  split.
  - destruct (payload_of ans) as [a |].
    + now destruct Hr as (-> & _).
    + now destruct Hr as (e & ->).
  - rewrite R, length_app. cbn. lia.
Qed.

Lemma loadCrew_loop_result (answers : nat → reply (option Unnamed.summary))
    (ids : list string) :
  ∀ (i : nat) (data : gmap string (option Unnamed.summary)) (w : world),
  ∃ data' w',
    Unnamed.loadCrew_loop ids i answers (data, w) = ((data', w'), Normal tt)
    ∧ length (requests_of (trace w'))
      = length (requests_of (trace w)) + length ids
    ∧ (∀ id, is_Some (data' !! id) ↔ id ∈ ids ∨ is_Some (data !! id))
    ∧ (∀ id, id ∉ ids → data' !! id = data !! id)
    ∧ (NoDup ids → ∀ k id, ids !! k = Some id →
       data' !! id = Some (mjoin (payload_of (answers (i + k))))).
Proof.
  induction ids as [| id0 rest IH]; intros i data w.
  - exists data, w. cbn. repeat split; try lia.
    + intros H. now right.
    + intros [H | H]; [by apply elem_of_nil in H | exact H].
    + intros _ k id H. discriminate H.
  - destruct (loadCrew_round_result id0 (answers i) data w) as (w1 & E1 & R1).
    destruct (IH (S i) (<[ id0 := mjoin (payload_of (answers i)) ]> data) w1)
      as (data' & w' & E & R & Hdom & Hkeep & Hentry).
    exists data', w'.
    cbn [Unnamed.loadCrew_loop].
    unfold mbind, C_bind, St_bind. rewrite E1.
    unfold mbind, C_bind, St_bind in E. rewrite E.
    split; [reflexivity |]. split; [| split; [| split]].
    + rewrite R, R1. cbn. lia.
    + intros id. rewrite Hdom, elem_of_cons.
      destruct (decide (id = id0)) as [-> | Hne].
      * rewrite lookup_insert_eq. split; [intros _; left; now left |].
        intros _. right. eauto.
      * rewrite lookup_insert_ne by congruence. tauto.
    + intros id Hn. apply not_elem_of_cons in Hn as [Hne Hn].
      rewrite Hkeep by exact Hn. now rewrite lookup_insert_ne by congruence.
    + intros Hnd k id Hk. apply NoDup_cons in Hnd as [Hfresh Hnd].
      destruct k as [| k]; cbn in Hk.
      * injection Hk as ->. rewrite Hkeep by exact Hfresh.
        rewrite lookup_insert_eq. now rewrite Nat.add_0_r.
      * rewrite (Hentry Hnd k id Hk). now replace (i + S k) with (S i + k) by lia.
Qed.

(** [CrewOverview.loadCrew] of part_000 (lines 1441-1457) never throws.
    When the roster call fails, or answers the JSON value [null], the
    component keeps its roster and its crew data and no summary is asked
    for. Otherwise the roster becomes the answered list (empty when the
    answer has none), one summary is requested per id, and the crew data
    are replaced by an object with an entry for exactly the ids of the
    roster; for a roster without repetition the entry of an id is the
    summary answered for it, or [null] when that call failed, and such a
    card shows the status 'unknown'. *)
Theorem loadCrew_outcomes (ans : reply (option Unnamed.roster_result))
    (answers : nat → reply (option Unnamed.summary))
    (st : Unnamed.crew_state) (w : world) :
  let out := Unnamed.loadCrew ans answers (st, w) in
  let st' := (out.1).1 in
  let sent := length (requests_of (trace (out.1).2)) in
  out.2 = Normal tt
  ∧ match payload_of ans with
    | Some (Some r) =>
        let ids := Js.or_empty (Unnamed.roster r) in
        Unnamed.crew_astronauts st' = ids
        ∧ sent = length (requests_of (trace w)) + 1 + length ids
        ∧ (∀ id, is_Some (Unnamed.crewData st' !! id) ↔ id ∈ ids)
        ∧ (NoDup ids → ∀ k id, ids !! k = Some id →
           Unnamed.crewData st' !! id = Some (mjoin (payload_of (answers k)))
           ∧ (fails (answers k) = true →
              Unnamed.crew_status (Unnamed.crewData st') id = "unknown"))
    | _ => st' = st ∧ sent = length (requests_of (trace w)) + 1
    end.
Proof.
  cbv zeta. unfold Unnamed.loadCrew, Unnamed.api_getAstronauts.
  destruct (unnamed_fetch_run "/api/astronauts" no_options ans w)
    as (w1 & r & E & R & _ & Hr).
  unfold try_catch, call, set_state, read, raise, console_error, emit,
    Unnamed.loadCrew_data, mbind, mret, C_bind, C_ret, St_bind, St_ret.
  cbn [fst snd]. rewrite E.
  destruct (payload_of ans) as [[ro |] |].
  - destruct Hr as (-> & _). cbn [fst snd].
    destruct (loadCrew_loop_result answers (Js.or_empty (Unnamed.roster ro)) 0
                ∅ w1) as (data' & w' & E2 & R2 & Hdom & _ & Hentry).
    rewrite E2. cbn [fst snd Unnamed.crew_astronauts Unnamed.crewData].
    split; [reflexivity |]. split; [reflexivity |]. split; [| split].
    + rewrite R2, R, length_app. cbn. lia.
    + intros id. rewrite Hdom, lookup_empty. split; [| tauto].
      intros [H | H]; [exact H | by destruct H].
    + intros Hnd k id Hk. specialize (Hentry Hnd k id Hk). cbn in Hentry.
      split; [exact Hentry |]. intros Hf.
      unfold Unnamed.crew_status. rewrite Hentry, (fails_no_payload _ Hf).
      reflexivity.
  - destruct Hr as (-> & _). cbn. destruct st. repeat split.
    rewrite requests_of_app, R, !length_app. cbn. lia.
  - destruct Hr as (e & ->). cbn. destruct st. repeat split.
    rewrite requests_of_app, R, !length_app. cbn. lia.
Qed.

Lemma loadCrew_outcomes_witness :
  let st' := (Unnamed.loadCrew roster_of_two summary_answers
                (Unnamed.CrewOverview_initial, w_fresh)).1.1 in
  Unnamed.crewData st' !! "AST-001" = Some (Some summary_with_scan)
  ∧ Unnamed.crew_status (Unnamed.crewData st') "AST-002" = "unknown".
Proof.
  pose proof (loadCrew_outcomes roster_of_two summary_answers
                Unnamed.CrewOverview_initial w_fresh) as H.
  cbv zeta in H. destruct H as (_ & H).
  change (payload_of roster_of_two)
    with (Some (Some {| Unnamed.roster := Some ["AST-001"; "AST-002"] |})) in H.
  cbn [Js.or_empty Unnamed.roster] in H.
  destruct H as (_ & _ & _ & H).
  assert (Hnd : NoDup ["AST-001"; "AST-002"])
    by (apply NoDup_cons; split;
        [intros Hin%list_elem_of_singleton; discriminate Hin
        | apply NoDup_singleton]).
  split.
  - exact (proj1 (H Hnd 0 "AST-001" eq_refl)).
  - exact (proj2 (H Hnd 1 "AST-002" eq_refl) eq_refl).
Defined.

(** ** The timeline view *)

(** [HealthTimeline.loadTimeline] (part_000 lines 1087-1094, App.js lines
    1049-1056) sends one request for the chosen number of days and never
    throws. The chart is replaced only by an answered object, with its
    [daily_averages] or the empty list when it has none; after a failed
    call, or an answer that is the JSON value [null], the chart keeps the
    data of the earlier range. *)
Theorem loadTimeline_keeps_chart_on_failure (id : string) (days : nat)
    (ansu : reply (option Unnamed.timeline_result))
    (ansf : reply (option Frontend.timeline_result))
    (chart : list json) (w : world) :
  let outu := Unnamed.loadTimeline id days ansu (chart, w) in
  let outf := Frontend.loadTimeline id days ansf (chart, w) in
  let endpoint := "/api/health/timeline/" ++ id ++ "?days=" ++ pretty days in
  (outu.2 = Normal tt
   ∧ requests_of (trace (outu.1).2)
     = (requests_of (trace w)
        ++ [Unnamed.fetch_request w endpoint no_options])%list
   ∧ (outu.1).1 = match payload_of ansu with
                  | Some (Some r) => Js.or_empty (Unnamed.daily_averages r)
                  | _ => chart
                  end)
  ∧ (outf.2 = Normal tt
     ∧ requests_of (trace (outf.1).2)
       = (requests_of (trace w)
          ++ [Frontend.fetch_request w endpoint no_options])%list
     ∧ (outf.1).1 = match payload_of ansf with
                    | Some (Some r) => Js.or_empty (Frontend.daily_averages r)
                    | _ => chart
                    end).
Proof.
  cbv zeta. split.
  - unfold Unnamed.loadTimeline, Unnamed.api_getTimeline.
    destruct (unnamed_fetch_run
                ("/api/health/timeline/" ++ id ++ "?days=" ++ pretty days)
                no_options ansu w) as (w1 & r & E & R & _ & Hr).
    unfold try_catch, call, set_state, read, raise, console_error, emit,
      mbind, mret, C_bind, C_ret, St_bind, St_ret.
    cbn [fst snd]. rewrite E.
    destruct (payload_of ansu) as [[res |] |].
    + destruct Hr as (-> & _). now cbn.
    + destruct Hr as (-> & _). cbn. repeat split.
      rewrite requests_of_app. cbn. now rewrite app_nil_r.
    + destruct Hr as (e & ->). cbn. repeat split.
      rewrite requests_of_app. cbn. now rewrite app_nil_r.
  - unfold Frontend.loadTimeline, Frontend.api_getTimeline.
    run_M.
    destruct ansf as [| s [[res |] |]]; cbn; try destruct (ok s); cbn;
      rewrite ?requests_of_app; cbn; rewrite ?requests_of_app; cbn;
      rewrite ?app_nil_r; repeat split.
Qed.

(** ** Gauges and the wellness index *)

Lemma Math_min_spec (a b : Q) :
  (Math_min a b <= b)%Q ∧ (Math_min a b <= a)%Q
  ∧ ((a <= b)%Q → Math_min a b = a) ∧ ((b < a)%Q → Math_min a b = b).
Proof.
  unfold Math_min. destruct (Qle_bool a b) eqn:H.
  - apply Qle_bool_iff in H. repeat split; try apply Qle_refl; auto.
    intros Hlt. now apply Qlt_not_le in Hlt.
  - assert (Hlt : (b < a)%Q).
    { apply Qnot_le_lt. intros Hle. apply Qle_bool_iff in Hle. congruence. }
    repeat split; try apply Qle_refl; auto.
    + now apply Qlt_le_weak.
    + intros Hle. now apply Qlt_not_le in Hlt.
Qed.

(** The gauge of part_000 (line 868) caps the filled share at 100: for a
    positive [max] and a non-negative value it lies between 0 and 100, and
    it is the share computed by App.js (line 727) as long as the value does
    not exceed [max]. Beyond [max] the two differ: part_000 shows 100, the
    share of App.js is above 100. *)
Theorem GaugeCard_percentage_is_capped (value max : Q) :
  (0 < max)%Q → (0 <= value)%Q →
  (0 <= Unnamed.GaugeCard_percentage value max)%Q
  ∧ (Unnamed.GaugeCard_percentage value max <= 100)%Q
  ∧ ((value <= max)%Q →
     Unnamed.GaugeCard_percentage value max
     = Frontend.HealthGauge_percentage value max)
  ∧ ((max < value)%Q →
     Unnamed.GaugeCard_percentage value max = 100%Q
     ∧ (100 < Frontend.HealthGauge_percentage value max)%Q).
Proof.
  intros Hmax Hv.
  unfold Unnamed.GaugeCard_percentage, Frontend.HealthGauge_percentage.
  assert (Hne : ¬ (max == 0)%Q).
  { intros E. rewrite E in Hmax. now apply Qlt_irrefl in Hmax. }
  assert (Hback : (value / max * 100 * max == value * 100)%Q) by (field; exact Hne).
  assert (Hcap : (100 * max == max * 100)%Q) by ring.
  assert (H0 : (0 <= value / max * 100)%Q).
  { apply (Qmult_le_r _ _ max Hmax). rewrite Hback, Qmult_0_l.
    apply Qmult_le_0_compat; [exact Hv | discriminate]. }
  destruct (Math_min_spec (value / max * 100)%Q 100) as (Hb & Ha & Hle & Hgt).
  split; [| split; [exact Hb | split]].
  - unfold Math_min. destruct (Qle_bool _ _); [exact H0 | discriminate].
  - intros Hvm. apply Hle.
    apply (Qmult_le_r _ _ max Hmax). rewrite Hback, Hcap.
    apply Qmult_le_compat_r; [exact Hvm | discriminate].
  - intros Hvm.
    assert (Hlt : (100 < value / max * 100)%Q).
    { apply (Qmult_lt_r _ _ max Hmax). rewrite Hback, Hcap.
      apply Qmult_lt_compat_r; [reflexivity | exact Hvm]. }
    split; [now apply Hgt | exact Hlt].
Qed.

Lemma GaugeCard_percentage_is_capped_witness :
  Unnamed.GaugeCard_percentage 150 100 = 100%Q
  ∧ (100 < Frontend.HealthGauge_percentage 150 100)%Q.
Proof.
  apply (GaugeCard_percentage_is_capped 150 100); reflexivity || discriminate.
Defined.

(** The wellness index of part_000 (line 501) is not clamped; it stays
    inside the 0-100 dial because of its inputs: with stress and fatigue
    not negative it is at most 100, and with stress and fatigue at most 100
    and a heart rate within 100 of 70 it is at least 0. A higher stress
    level never gives a higher index. *)
Theorem wellnessScore_range (h h' : Health.record) :
  (0 <= Health.stress_level h)%Q → (0 <= Health.fatigue_level h)%Q →
  (Unnamed.wellnessScore (Some h) ≤ 100)%Z
  ∧ ((Health.stress_level h <= 100)%Q → (Health.fatigue_level h <= 100)%Q →
     (Js.Math_abs (Health.heart_rate h - 70) <= 100)%Q →
     (0 ≤ Unnamed.wellnessScore (Some h))%Z)
  ∧ ((Health.stress_level h <= Health.stress_level h')%Q →
     Health.fatigue_level h' = Health.fatigue_level h →
     Health.heart_rate h' = Health.heart_rate h →
     (Unnamed.wellnessScore (Some h') ≤ Unnamed.wellnessScore (Some h))%Z).
Proof.
  intros Hs Hf. unfold Unnamed.wellnessScore, Js.Math_round, Js.Math_abs.
  assert (Hmono : (Health.stress_level h <= Health.stress_level h')%Q →
                  Health.fatigue_level h' = Health.fatigue_level h →
                  Health.heart_rate h' = Health.heart_rate h →
                  (Qfloor (100 - (Health.stress_level h' * (4 # 10)
                                  + Health.fatigue_level h' * (3 # 10)
                                  + Qabs (Health.heart_rate h' - 70) * (3 # 10))
                           + (1 # 2))
                   ≤ Qfloor (100 - (Health.stress_level h * (4 # 10)
                                    + Health.fatigue_level h * (3 # 10)
                                    + Qabs (Health.heart_rate h - 70) * (3 # 10))
                             + (1 # 2)))%Z).
  { intros Hle -> ->. apply Qfloor_resp_le.
    generalize dependent (Qabs (Health.heart_rate h - 70)). intros a.
    generalize dependent (Health.stress_level h'). intros s'.
    generalize dependent (Health.stress_level h). intros s.
    generalize dependent (Health.fatigue_level h). intros f. intros. lra. }
  pose proof (Qabs_nonneg (Health.heart_rate h - 70)) as Ha.
  generalize dependent (Qabs (Health.heart_rate h - 70)). intros a Hmono Ha.
  generalize dependent (Health.fatigue_level h). intros f Hf Hmono.
  generalize dependent (Health.stress_level h). intros s Hs Hmono.
  split; [| split; [| exact Hmono]].
  - apply (Z.le_trans _ (Qfloor (100 + (1 # 2)))); [| discriminate].
    apply Qfloor_resp_le. lra.
  - intros Hs' Hf' Ha'.
    apply (Z.le_trans _ (Qfloor (0 + (1 # 2)))); [discriminate |].
    apply Qfloor_resp_le. lra.
Qed.

Lemma wellnessScore_range_witness :
  (Unnamed.wellnessScore (Some strained_vitals) ≤ 100)%Z
  ∧ (0 ≤ Unnamed.wellnessScore (Some strained_vitals))%Z.
Proof.
  destruct (wellnessScore_range strained_vitals strained_vitals)
    as (Hu & Hl & _); [discriminate | discriminate |].
  split; [exact Hu |]. apply Hl; discriminate.
Defined.

(** ** Navigation *)

Lemma unnamed_navigate_requests (u : option Unnamed.user_profile)
    (item : Unnamed.view) (st : Unnamed.dash) (w : world) :
  Unnamed.is_supervisor u = false →
  let out := (Unnamed.navigate u item (st, w)).1 in
  ∃ new,
    requests_of (trace out.2) = (requests_of (trace w) ++ new)%list
    ∧ Forall (λ r, url r
                   ∈ [BACKEND_URL w ++ "/api/health/timeline/"
                      ++ Unnamed.astronautId_of u ++ "?days=7";
                      BACKEND_URL w ++ "/api/chat/history/"
                      ++ Unnamed.astronautId_of u]) new
    ∧ REACT_APP_BACKEND_URL out.2 = REACT_APP_BACKEND_URL w
    ∧ Unnamed.mounted_view u out.1 ≠ Some Unnamed.crew.
Proof.
  intros Hs. cbv zeta. rewrite unnamed_navigate_run. cbn [fst snd].
  assert (Hcrew : ∀ s, Unnamed.mounted_view u s ≠ Some Unnamed.crew).
  { intros s. unfold Unnamed.mounted_view. rewrite Hs.
    destruct (Unnamed.dash_loading s); [discriminate |].
    destruct (Unnamed.currentView s); discriminate. }
  destruct (decide _) as [| _].
  { exists []. rewrite app_nil_r. repeat split; auto. }
  destruct (Unnamed.mounted_view u (Unnamed.setCurrentView item st)) as [v |] eqn:Hv.
  2:{ exists []. rewrite app_nil_r. repeat split; auto. }
  destruct v; unfold Unnamed.mount_effect, Unnamed.issue; run_M;
    try (exists []; rewrite app_nil_r; repeat split; auto; fail).
  - eexists. rewrite requests_of_app. cbn. split; [reflexivity |].
    split; [| split; auto]. apply Forall_singleton. cbn. set_solver.
  - eexists. rewrite requests_of_app. cbn. split; [reflexivity |].
    split; [| split; auto]. apply Forall_singleton. cbn. set_solver.
  - now apply Hcrew in Hv.
Qed.

Lemma unnamed_click_through_requests (u : option Unnamed.user_profile)
    (items : list Unnamed.view) (st : Unnamed.dash) (w : world) :
  Unnamed.is_supervisor u = false →
  let out := Unnamed.click_through u items (st, w) in
  ∃ new,
    requests_of (trace out.2) = (requests_of (trace w) ++ new)%list
    ∧ Forall (λ r, url r
                   ∈ [BACKEND_URL w ++ "/api/health/timeline/"
                      ++ Unnamed.astronautId_of u ++ "?days=7";
                      BACKEND_URL w ++ "/api/chat/history/"
                      ++ Unnamed.astronautId_of u]) new
    ∧ REACT_APP_BACKEND_URL out.2 = REACT_APP_BACKEND_URL w
    ∧ (items ≠ [] → Unnamed.mounted_view u out.1 ≠ Some Unnamed.crew).
Proof.
  intros Hu. cbv zeta.
  induction items as [| item rest IH] using rev_ind.
  - exists []. rewrite app_nil_r. repeat split; auto.
  - unfold Unnamed.click_through in *. rewrite fold_left_app. cbn [fold_left].
    destruct IH as (new1 & R1 & F1 & U1 & _).
    destruct (fold_left _ rest (st, w)) as [st1 w1]. cbn [fst snd] in *.
    destruct (unnamed_navigate_requests u item st1 w1 Hu)
      as (new2 & R2 & F2 & U2 & M2).
    exists (new1 ++ new2)%list. rewrite R2, R1, <- app_assoc.
    split; [reflexivity |]. split; [| split; [congruence | intros _; exact M2]].
    apply Forall_app. split; [exact F1 |].
    unfold BACKEND_URL in *. now rewrite U1 in F2.
Qed.

Lemma frontend_navigate_requests (item : Frontend.view) (st : Frontend.app)
    (w : world) :
  Frontend.is_supervisor st = false →
  let out := (Frontend.navigate item (st, w)).1 in
  ∃ new,
    requests_of (trace out.2) = (requests_of (trace w) ++ new)%list
    ∧ Forall (λ r, url r = BACKEND_URL w ++ "/api/health/timeline/"
                           ++ Frontend.astronautId st ++ "?days=7") new
    ∧ REACT_APP_BACKEND_URL out.2 = REACT_APP_BACKEND_URL w
    ∧ Frontend.userRole out.1 = Frontend.userRole st
    ∧ Frontend.astronautId out.1 = Frontend.astronautId st
    ∧ Frontend.mounted_view out.1 ≠ Some Frontend.crew.
Proof.
  intros Hs. cbv zeta. rewrite frontend_navigate_run. cbn [fst snd].
  assert (Hcrew : Frontend.mounted_view (Frontend.setCurrentView item st)
                  ≠ Some Frontend.crew).
  { unfold Frontend.mounted_view, Frontend.is_supervisor in *. cbn. rewrite Hs.
    destruct (Frontend.loading st); [discriminate |].
    destruct item; discriminate. }
  destruct (decide _) as [| _].
  { exists []. rewrite app_nil_r. repeat split; auto. }
  destruct (Frontend.mounted_view (Frontend.setCurrentView item st)) as [v |] eqn:Hv.
  2:{ exists []. rewrite app_nil_r. repeat split; auto. }
  destruct v; unfold Frontend.mount_effect, Frontend.issue; run_M;
    try (exists []; rewrite app_nil_r; repeat split; auto; fail).
  - eexists. rewrite requests_of_app. cbn. split; [reflexivity |].
    split; [| repeat split; auto]. now apply Forall_singleton.
  - now destruct Hcrew.
Qed.

Lemma frontend_click_through_requests (items : list Frontend.view)
    (st : Frontend.app) (w : world) :
  Frontend.is_supervisor st = false →
  let out := Frontend.click_through items (st, w) in
  ∃ new,
    requests_of (trace out.2) = (requests_of (trace w) ++ new)%list
    ∧ Forall (λ r, url r = BACKEND_URL w ++ "/api/health/timeline/"
                           ++ Frontend.astronautId st ++ "?days=7") new
    ∧ REACT_APP_BACKEND_URL out.2 = REACT_APP_BACKEND_URL w
    ∧ Frontend.userRole out.1 = Frontend.userRole st
    ∧ Frontend.astronautId out.1 = Frontend.astronautId st
    ∧ (items ≠ [] → Frontend.mounted_view out.1 ≠ Some Frontend.crew).
Proof.
  intros Hs. cbv zeta.
  induction items as [| item rest IH] using rev_ind.
  - exists []. rewrite app_nil_r. repeat split; auto.
  - unfold Frontend.click_through in *. rewrite fold_left_app. cbn [fold_left].
    destruct IH as (new1 & R1 & F1 & U1 & Hr & Ha & _).
    destruct (fold_left _ rest (st, w)) as [st1 w1]. cbn [fst snd] in *.
    assert (Hs1 : Frontend.is_supervisor st1 = false).
    { unfold Frontend.is_supervisor in *. now rewrite Hr. }
    destruct (frontend_navigate_requests item st1 w1 Hs1)
      as (new2 & R2 & F2 & U2 & Hr2 & Ha2 & M2).
    exists (new1 ++ new2)%list. rewrite R2, R1, <- app_assoc.
    split; [reflexivity |].
    split; [| repeat split; try congruence; intros _; exact M2].
    apply Forall_app. split; [exact F1 |].
    unfold BACKEND_URL in *. now rewrite U1, Ha in F2.
Qed.

(** The crew overview is for supervisors only, in both variants
    (part_000 lines 338-350 and 469-471, App.js lines 114-126 and
    293-295): whatever navigation entries a user who is not a supervisor
    selects, in any order and including the crew entry itself, the crew
    component is never mounted, and the only requests the clicks cause are
    those of the 7-day timeline and, in part_000, of the chat history of
    the user's own astronaut id; no roster or crew request is sent. (In
    App.js the role is a switch of the header, line 214; the clicks here
    leave it alone.) *)
Theorem crew_view_closed_to_non_supervisors (u : option Unnamed.user_profile)
    (itemsu : list Unnamed.view) (itemsf : list Frontend.view)
    (su : Unnamed.dash) (sf : Frontend.app) (w : world) :
  Unnamed.is_supervisor u = false → Frontend.is_supervisor sf = false →
  let outu := Unnamed.click_through u itemsu (su, w) in
  let outf := Frontend.click_through itemsf (sf, w) in
  let sent (w' : world) :=
    drop (length (requests_of (trace w))) (requests_of (trace w')) in
  ((Unnamed.crew ∉ Unnamed.navItems u)
   ∧ (itemsu ≠ [] → Unnamed.mounted_view u outu.1 ≠ Some Unnamed.crew)
   ∧ Forall (λ r, url r
                  ∈ [BACKEND_URL w ++ "/api/health/timeline/"
                     ++ Unnamed.astronautId_of u ++ "?days=7";
                     BACKEND_URL w ++ "/api/chat/history/"
                     ++ Unnamed.astronautId_of u]) (sent outu.2))
  ∧ ((Frontend.crew ∉ Frontend.navItems sf)
     ∧ (itemsf ≠ [] → Frontend.mounted_view outf.1 ≠ Some Frontend.crew)
     ∧ Forall (λ r, url r = BACKEND_URL w ++ "/api/health/timeline/"
                            ++ Frontend.astronautId sf ++ "?days=7")
         (sent outf.2)).
Proof.
  intros Hu Hf. cbv zeta. split.
  - split; [unfold Unnamed.navItems; rewrite Hu; intros Hin;
            repeat (apply elem_of_cons in Hin as [Hin | Hin]; [discriminate |]);
            now apply elem_of_nil in Hin |].
    destruct (unnamed_click_through_requests u itemsu su w Hu)
      as (new & R & F & _ & Hm).
    split; [exact Hm |]. rewrite R, drop_app_length. exact F.
  - split; [unfold Frontend.navItems; rewrite Hf; intros Hin;
            repeat (apply elem_of_cons in Hin as [Hin | Hin]; [discriminate |]);
            now apply elem_of_nil in Hin |].
    destruct (frontend_click_through_requests itemsf sf w Hf)
      as (new & R & F & _ & _ & _ & Hm).
    split; [exact Hm |]. rewrite R, drop_app_length. exact F.
Qed.

Lemma crew_view_closed_to_non_supervisors_witness :
  Unnamed.mounted_view (Some commander)
    (Unnamed.click_through (Some commander) [Unnamed.crew]
       (loaded_dash, w_fresh)).1
  ≠ Some Unnamed.crew.
Proof.
  pose proof (crew_view_closed_to_non_supervisors (Some commander)
                [Unnamed.crew] [Frontend.crew] loaded_dash loaded_app w_fresh
                eq_refl eq_refl) as H.
  cbv zeta in H. destruct H as ((_ & H & _) & _). apply H. discriminate.
Defined.

(** ** The camera *)

Lemma scan_step_without_consent {R} (denied : string) (st : Scan.state R)
    (dev : Scan.device) (a : Scan.action) :
  a ≠ Scan.ClickConsent →
  Scan.consent st = false → Scan.pending_media st = 0 →
  Scan.videoRef st = None →
  let out := Scan.step denied (st, dev) a in
  out.2 = dev ∧ Scan.consent out.1 = false ∧ Scan.pending_media out.1 = 0
  ∧ Scan.videoRef out.1 = None.
Proof.
  intros Ha Hc Hp Hv. destruct a as [| stream | | | ref_reset]; cbn.
  - congruence.
  - unfold Scan.media_granted. now rewrite Hp.
  - unfold Scan.media_denied. now rewrite Hp.
  - unfold Scan.click_stop. rewrite Hc, orb_true_r. auto.
  - unfold Scan.unmount. destruct (Scan.mounted st); cbn; [| auto].
    repeat split; auto.
    destruct ref_reset; unfold Scan.stopCamera; cbn; now rewrite ?Hv.
Qed.

(** The scan components (part_000 lines 901-923, App.js lines 781-814)
    never touch the camera before the consent button is pressed: from the
    initial state, whatever else happens (answers of the media call that
    nobody asked for, stop clicks, the unmount), the set of live tracks
    stays as it was, consent stays off and no video element is
    referenced. *)
Theorem camera_untouched_without_consent {R} (denied : string)
    (l : list Scan.action) (dev : Scan.device) :
  Scan.ClickConsent ∉ l →
  let out := Scan.run_actions denied (Scan.initial (R := R), dev) l in
  out.2 = dev ∧ Scan.consent out.1 = false ∧ Scan.videoRef out.1 = None.
Proof.
  intros Hl. cbv zeta. unfold Scan.run_actions.
  assert (H : ∀ st : Scan.state R,
    Scan.consent st = false → Scan.pending_media st = 0 →
    Scan.videoRef st = None →
    (fold_left (Scan.step denied) l (st, dev)).2 = dev
    ∧ Scan.consent (fold_left (Scan.step denied) l (st, dev)).1 = false
    ∧ Scan.videoRef (fold_left (Scan.step denied) l (st, dev)).1 = None).
  { induction l as [| a rest IH]; intros st Hc Hp Hv; [cbn; auto |].
    apply not_elem_of_cons in Hl as [Ha Hrest].
    destruct (scan_step_without_consent denied st dev a (not_eq_sym Ha) Hc Hp Hv)
      as (Hd & Hc' & Hp' & Hv').
    cbn [fold_left].
    destruct (Scan.step denied (st, dev) a) as [st1 dev1]. cbn in *. subst dev1.
    now apply IH. }
  now apply H.
Qed.

Lemma camera_untouched_without_consent_witness :
  (Unnamed.scan_run (Scan.initial, ∅)
     [Scan.MediaGranted front_camera; Scan.ClickStop; Scan.Unmount false]).2
  = ∅.
Proof.
  apply (camera_untouched_without_consent Unnamed.camera_denied
           [Scan.MediaGranted front_camera; Scan.ClickStop; Scan.Unmount false]
           ∅).
  intros Hin.
  repeat (apply elem_of_cons in Hin as [Hin | Hin]; [discriminate |]).
  now apply elem_of_nil in Hin.
Defined.

(** Without a refusal the scan components hand the camera back: any
    number of rounds of consent, granted stream and stop, with any streams,
    ends in the initial state with no track live. *)
Theorem consent_grant_stop_round_trip {R} (denied : string)
    (streams : list Scan.media_stream) :
  Scan.run_actions denied (Scan.initial (R := R), ∅)
    (concat (map (λ s, [Scan.ClickConsent; Scan.MediaGranted s; Scan.ClickStop])
               streams))
  = (Scan.initial, ∅).
Proof.
  unfold Scan.run_actions.
  induction streams as [| s rest IH]; [reflexivity |].
  cbn [map concat]. rewrite fold_left_app.
  assert (Hround :
    fold_left (Scan.step denied)
      [Scan.ClickConsent; Scan.MediaGranted s; Scan.ClickStop]
      (Scan.initial (R := R), ∅)
    = (Scan.initial, ∅)).
  { cbn. unfold Scan.click_stop, Scan.stopCamera, Scan.commit; cbn.
    f_equal. rewrite union_empty_l_L. apply difference_diag_L. }
  rewrite Hround. exact IH.
Qed.

(** ** The session across page loads *)

(** A login outlives the page, a logout does not (part_000 lines 27-36,
    88-120). After a successful login with a non-empty token, a fresh load
    of the page starts with that token, its start-up check asks
    [/api/auth/me] with the bearer header of that token, and an answered
    profile leads to the dashboard. After a logout, a fresh load starts
    without a token, its start-up check sends nothing and the login page is
    shown. *)
Theorem session_survives_reload (w : world) (st : Unnamed.app)
    (email password : string) (status : Z) (result : Unnamed.auth_result)
    (t : string) (me : reply (option Unnamed.user_profile)) :
  ok status = true →
  Unnamed.access_token result = Some t →
  Js.truthy_string t = true →
  let logged_in :=
    Unnamed.login st email password
      (HttpResponse status (Some (Some result))) w in
  let page := Unnamed.page_load (REACT_APP_BACKEND_URL logged_in.1)
                (localStorage logged_in.1) in
  let out := Unnamed.checkAuth page.1 me page.2 in
  let logged_out := Unnamed.logout st logged_in.1 in
  let page' := Unnamed.page_load (REACT_APP_BACKEND_URL logged_out.1)
                 (localStorage logged_out.1) in
  let out' := Unnamed.checkAuth page'.1 me page'.2 in
  (api_token page.2 = Some t
   ∧ (∃ r, requests_of (trace out.1) = [r]
           ∧ url r = BACKEND_URL w ++ "/api/auth/me"
           ∧ headers r !! "Authorization" = Some ("Bearer " ++ t))
   ∧ (∀ profile, payload_of me = Some (Some profile) →
      ∃ st', out.2 = Normal st' ∧ Unnamed.user st' = Some profile
             ∧ Unnamed.App_render st' = Unnamed.DashboardScreen))
  ∧ (api_token page'.2 = None
     ∧ trace out'.1 = []
     ∧ ∃ st', out'.2 = Normal st'
              ∧ Unnamed.App_render st' = Unnamed.LoginScreen).
Proof.
  intros Hok Ht Htr. cbv zeta.
  assert (Hlogin : ∃ w1,
    Unnamed.login st email password (HttpResponse status (Some (Some result))) w
    = (w1, Normal (Unnamed.setUser (Unnamed.user_of result) st))
    ∧ localStorage w1 = <[ "astra_token" := t ]> (localStorage w)
    ∧ REACT_APP_BACKEND_URL w1 = REACT_APP_BACKEND_URL w).
  { unfold Unnamed.login, Unnamed.api_login. run_M.
    rewrite (ok_is_not_401 _ Hok), Hok. cbn. rewrite Ht. cbn. rewrite Htr. cbn.
    eexists. repeat split. }
  destruct Hlogin as (w1 & -> & Hs1 & Hu1). cbn [fst snd].
  split.
  - unfold Unnamed.page_load. cbn [fst snd api_token].
    rewrite Hs1, lookup_insert_eq. split; [reflexivity |].
    unfold Unnamed.checkAuth, Unnamed.api_getMe. run_M.
    rewrite ?lookup_insert_eq; cbn; rewrite ?Htr; cbn.
    split.
    + eexists. split; [| split].
      * destruct me as [| s [[p |] |]]; cbn;
          try (destruct (s =? 401)%Z eqn:H401; cbn);
          try (destruct (ok s) eqn:Hs; cbn); reflexivity.
      * cbn. unfold BACKEND_URL. now rewrite Hu1.
      * cbn. unfold Unnamed.fetch_headers. cbn.
        rewrite ?lookup_insert_eq, ?Htr. now rewrite ?lookup_insert_eq.
    + intros profile Hp.
      destruct me as [| s [[p |] |]]; cbn in Hp; try discriminate;
        destruct (ok s) eqn:Hs; try discriminate.
      injection Hp as ->. cbn. rewrite (ok_is_not_401 _ Hs). cbn.
      rewrite Hs. cbn. eexists. repeat split.
  - unfold Unnamed.logout. run_M. unfold Unnamed.page_load.
    cbn [fst snd api_token localStorage].
    rewrite ?lookup_delete_eq. split; [reflexivity |].
    unfold Unnamed.checkAuth. run_M. rewrite ?lookup_delete_eq. cbn.
    split; [reflexivity |]. eexists. split; reflexivity.
Qed.

Lemma session_survives_reload_witness :
  api_token
    (Unnamed.page_load None
       (localStorage
          (Unnamed.login {| Unnamed.user := None; Unnamed.loading := false |}
             "a@b.c" "pw"
             (HttpResponse 200
                (Some (Some {| Unnamed.access_token := Some "tok";
                               Unnamed.user_of := Some commander |})))
             w_fresh).1)).2
  = Some "tok".
Proof.
  exact (proj1 (proj1 (session_survives_reload w_fresh
           {| Unnamed.user := None; Unnamed.loading := false |} "a@b.c" "pw"
           200 {| Unnamed.access_token := Some "tok";
                  Unnamed.user_of := Some commander |} "tok" NetworkFailure
           eq_refl eq_refl eq_refl))).
Defined.

(** ** The chat input *)

Lemma string_app_cons (c : ascii) (s t : string) :
  String c s ++ t = String c (s ++ t).
Proof. reflexivity. Qed.

Lemma string_app_nil_r (s : string) : s ++ "" = s.
Proof.
  induction s as [| c s IH]; [reflexivity |].
  now rewrite string_app_cons, IH.
Qed.

Lemma string_app_assoc (s1 s2 s3 : string) : (s1 ++ s2) ++ s3 = s1 ++ s2 ++ s3.
Proof.
  induction s1 as [| c s1 IH]; [reflexivity |].
  now rewrite !string_app_cons, IH.
Qed.

Lemma string_rev_app_spec (s1 s2 : string) :
  String.rev_app s1 s2 = String.rev s1 ++ s2.
Proof.
  unfold String.rev. revert s2.
  induction s1 as [| c s1 IH]; intros s2; [reflexivity |].
  cbn [String.rev_app].
  rewrite IH, (IH (String c "")), string_app_assoc. reflexivity.
Qed.

Lemma string_rev_cons (c : ascii) (s : string) :
  String.rev (String c s) = String.rev s ++ String c "".
Proof. unfold String.rev at 1. cbn [String.rev_app]. apply string_rev_app_spec. Qed.

Lemma string_rev_app (s1 s2 : string) :
  String.rev (s1 ++ s2) = String.rev s2 ++ String.rev s1.
Proof.
  induction s1 as [| c s1 IH].
  - change ("" ++ s2) with s2. change (String.rev "") with "".
    now rewrite string_app_nil_r.
  - now rewrite string_app_cons, !string_rev_cons, IH, string_app_assoc.
Qed.

Lemma string_rev_involutive (s : string) : String.rev (String.rev s) = s.
Proof.
  induction s as [| c s IH]; [reflexivity |].
  now rewrite string_rev_cons, string_rev_app, IH.
Qed.

Lemma utf8_app (l1 l2 : list N) : Js.utf8 (l1 ++ l2) = Js.utf8 l1 ++ Js.utf8 l2.
Proof.
  induction l1 as [| cp l1 IH]; [reflexivity |].
  cbn [app Js.utf8 foldr]. fold (Js.utf8 (l1 ++ l2)). fold (Js.utf8 l1).
  now rewrite IH, string_app_assoc.
Qed.


Lemma ascii_of_code (c : ascii) (n : N) : N_of_ascii c = n → c = ascii_of_N n.
Proof. intros <-. symmetry. apply ascii_N_embedding. Qed.

(** A byte test that holds reads the encoding of a white-space code
    point. *)
Lemma is_white_space_encoding (c : ascii) :
  Js.is_white_space c = true →
  ∃ cp, cp ∈ Js.white_space ∧ Js.utf8_encode cp = String c "".
Proof.
  unfold Js.is_white_space. cbv zeta. intros H. read_byte_tests.
  - assert (Hn : (N_of_ascii c = 0x9 ∨ N_of_ascii c = 0xA ∨ N_of_ascii c = 0xB
                  ∨ N_of_ascii c = 0xC ∨ N_of_ascii c = 0xD)%N) by lia.
    repeat destruct Hn as [Hn | Hn]; apply ascii_of_code in Hn; subst c;
      [exists 0x9%N | exists 0xA%N | exists 0xB%N | exists 0xC%N | exists 0xD%N];
      (split; [unfold Js.white_space; in_closed_list | reflexivity]).
  - apply ascii_of_code in H; subst c. exists 0x20%N.
    split; [unfold Js.white_space; in_closed_list | reflexivity].
Qed.

Lemma is_white_space2_encoding (c1 c2 : ascii) :
  Js.is_white_space2 c1 c2 = true →
  ∃ cp, cp ∈ Js.white_space ∧ Js.utf8_encode cp = String c1 (String c2 "").
Proof.
  unfold Js.is_white_space2. intros H. read_byte_tests.
  apply ascii_of_code in H, H0. subst. exists 0xA0%N.
  split; [unfold Js.white_space; in_closed_list | reflexivity].
Qed.

Lemma is_white_space3_encoding (c1 c2 c3 : ascii) :
  Js.is_white_space3 c1 c2 c3 = true →
  ∃ cp, cp ∈ Js.white_space
        ∧ Js.utf8_encode cp = String c1 (String c2 (String c3 "")).
Proof.
  unfold Js.is_white_space3. cbv zeta. intros H. read_byte_tests;
    try match goal with
      | H1 : (0x80 <= N_of_ascii c3)%N, H2 : (N_of_ascii c3 <= 0x8A)%N |- _ =>
          assert (Hn : (N_of_ascii c3 = 0x80 ∨ N_of_ascii c3 = 0x81
                        ∨ N_of_ascii c3 = 0x82 ∨ N_of_ascii c3 = 0x83
                        ∨ N_of_ascii c3 = 0x84 ∨ N_of_ascii c3 = 0x85
                        ∨ N_of_ascii c3 = 0x86 ∨ N_of_ascii c3 = 0x87
                        ∨ N_of_ascii c3 = 0x88 ∨ N_of_ascii c3 = 0x89
                        ∨ N_of_ascii c3 = 0x8A)%N) by lia;
          clear H1 H2; repeat destruct Hn as [Hn | Hn]
      end;
    repeat match goal with
      | H : N_of_ascii _ = _ |- _ => apply ascii_of_code in H
      end;
    subst;
    match goal with
    | |- ∃ cp, _ ∧ _ = String ?x (String ?y (String ?z "")) =>
        let cp := eval vm_compute in
          ((N_of_ascii x - 0xE0) * 0x1000 + (N_of_ascii y - 0x80) * 0x40
           + (N_of_ascii z - 0x80))%N in
        exists cp
    end;
    (split; [unfold Js.white_space; in_closed_list | reflexivity]).
Qed.

(** The encoding of a code point as [strip_white_space] meets it. *)
Lemma white_space_stripped (backwards : bool) (cp : N) (s : string) :
  cp ∈ Js.white_space →
  Js.strip_white_space backwards
    ((if backwards then String.rev (Js.utf8_encode cp) else Js.utf8_encode cp)
     ++ s)
  = Js.strip_white_space backwards s.
Proof.
  intros Hcp. unfold Js.white_space in Hcp.
  repeat (apply elem_of_cons in Hcp as [-> | Hcp];
          [destruct backwards; reflexivity |]).
  now apply elem_of_nil in Hcp.
Qed.

Lemma string_length_app (s t : string) :
  String.length (s ++ t) = String.length s + String.length t.
Proof.
  induction s as [| c s IH]; [reflexivity |].
  rewrite string_app_cons. cbn [String.length]. now rewrite IH.
Qed.

Lemma string_rev_length (s : string) :
  String.length (String.rev s) = String.length s.
Proof.
  induction s as [| c s IH]; [reflexivity |].
  rewrite string_rev_cons, string_length_app, IH. cbn. lia.
Qed.

Lemma utf8_encode_nonempty (cp : N) : 0 < String.length (Js.utf8_encode cp).
Proof.
  unfold Js.utf8_encode. cbv zeta.
  destruct (cp <? 0x80)%N; [cbn; lia |].
  destruct (cp <? 0x800)%N; rewrite !string_app_cons; cbn; lia.
Qed.

(** One step of [strip_white_space]: nothing is stripped, or the encoding
    of one white-space code point is. *)
Lemma strip_white_space_step (backwards : bool) (s : string) :
  Js.strip_white_space backwards s = s
  ∨ ∃ cp s',
      cp ∈ Js.white_space
      ∧ s = (if backwards then String.rev (Js.utf8_encode cp)
             else Js.utf8_encode cp) ++ s'
      ∧ Js.strip_white_space backwards s = Js.strip_white_space backwards s'.
Proof.
  destruct s as [| c1 s1]; [now left |].
  cbn [Js.strip_white_space].
  destruct (Js.is_white_space c1) eqn:H1.
  { right. destruct (is_white_space_encoding c1 H1) as (cp & Hcp & Henc).
    exists cp, s1. rewrite Henc. split; [exact Hcp |].
    split; [now destruct backwards | reflexivity]. }
  destruct s1 as [| c2 s2]; [now left |].
  destruct (if backwards then Js.is_white_space2 c2 c1
            else Js.is_white_space2 c1 c2) eqn:H2.
  { right. destruct backwards.
    - destruct (is_white_space2_encoding c2 c1 H2) as (cp & Hcp & Henc).
      exists cp, s2. rewrite Henc. now repeat split.
    - destruct (is_white_space2_encoding c1 c2 H2) as (cp & Hcp & Henc).
      exists cp, s2. rewrite Henc. now repeat split. }
  destruct s2 as [| c3 s3]; [now left |].
  destruct (if backwards then Js.is_white_space3 c3 c2 c1
            else Js.is_white_space3 c1 c2 c3) eqn:H3; [| now left].
  right. destruct backwards.
  - destruct (is_white_space3_encoding c3 c2 c1 H3) as (cp & Hcp & Henc).
    exists cp, s3. rewrite Henc. now repeat split.
  - destruct (is_white_space3_encoding c1 c2 c3 H3) as (cp & Hcp & Henc).
    exists cp, s3. rewrite Henc. now repeat split.
Qed.

(** Induction on the length of a text. *)
Lemma string_length_ind (P : string → Prop) :
  (∀ s, (∀ t, String.length t < String.length s → P t) → P s) → ∀ s, P s.
Proof.
  intros Hstep s.
  assert (H : ∀ n t, String.length t < n → P t).
  { induction n as [| n IH]; intros t Ht; [lia |].
    apply Hstep. intros t' Ht'. apply IH. lia. }
  apply (H (S (String.length s))). lia.
Qed.

Lemma white_space_shorter (backwards : bool) (cp : N) (s' : string) :
  String.length s'
  < String.length ((if backwards then String.rev (Js.utf8_encode cp)
                    else Js.utf8_encode cp) ++ s').
Proof.
  rewrite string_length_app.
  pose proof (utf8_encode_nonempty cp).
  destruct backwards; rewrite ?string_rev_length; lia.
Qed.

Lemma strip_white_space_length (backwards : bool) (s : string) :
  (String.length (Js.strip_white_space backwards s) ≤ String.length s)%nat.
Proof.
  induction s as [s IH] using string_length_ind.
  destruct (strip_white_space_step backwards s)
    as [-> | (cp & s' & _ & Hs & ->)]; [lia |].
  pose proof (white_space_shorter backwards cp s') as Hlt. rewrite <- Hs in Hlt.
  specialize (IH s' Hlt). lia.
Qed.

Lemma strip_white_space_idempotent (backwards : bool) (s : string) :
  Js.strip_white_space backwards (Js.strip_white_space backwards s)
  = Js.strip_white_space backwards s.
Proof.
  induction s as [s IH] using string_length_ind.
  destruct (strip_white_space_step backwards s)
    as [Hs | (cp & s' & _ & Hs & Hr)]; [now rewrite Hs |].
  rewrite Hr. apply IH.
  pose proof (white_space_shorter backwards cp s') as Hlt. now rewrite <- Hs in Hlt.
Qed.

(** What is left starts with no white space, *)
Lemma strip_white_space_no_start (backwards : bool) (s : string) (cp : N)
    (rest : string) :
  cp ∈ Js.white_space →
  Js.strip_white_space backwards s
  ≠ (if backwards then String.rev (Js.utf8_encode cp) else Js.utf8_encode cp)
    ++ rest.
Proof.
  intros Hcp Heq.
  pose proof (strip_white_space_idempotent backwards s) as Hid.
  rewrite Heq in Hid. rewrite (white_space_stripped backwards cp rest Hcp) in Hid.
  pose proof (strip_white_space_length backwards rest) as Hlen.
  rewrite Hid in Hlen.
  pose proof (white_space_shorter backwards cp rest). lia.
Qed.

(** and what was stripped is white space. *)
Lemma strip_white_space_prefix (backwards : bool) (s : string) :
  ∃ cps, Forall (λ cp, cp ∈ Js.white_space) cps
         ∧ s = (if backwards then String.rev (Js.utf8 cps) else Js.utf8 cps)
               ++ Js.strip_white_space backwards s.
Proof.
  induction s as [s IH] using string_length_ind.
  destruct (strip_white_space_step backwards s)
    as [Hs | (cp & s' & Hcp & Hs & Hr)].
  { exists []. split; [constructor |]. rewrite Hs. now destruct backwards. }
  pose proof (white_space_shorter backwards cp s') as Hlt. rewrite <- Hs in Hlt.
  destruct (IH s' Hlt) as (cps & Hall & Hs').
  rewrite Hr. destruct backwards.
  - exists (cps ++ [cp])%list. split; [apply Forall_app; split; [exact Hall | now constructor] |].
    rewrite utf8_app, string_rev_app. cbn [Js.utf8 foldr].
    rewrite string_app_nil_r, string_app_assoc, <- Hs'. exact Hs.
  - exists (cp :: cps). split; [now constructor |].
    cbn [Js.utf8 foldr]. fold (Js.utf8 cps).
    rewrite string_app_assoc, <- Hs'. exact Hs.
Qed.

(** [trim]: the text is white space, the trimmed text, white space; and
    the trimmed text neither starts nor ends with white space. *)
Lemma trim_spec (text : string) :
  ∃ l1 l2,
    Forall (λ cp, cp ∈ Js.white_space) l1
    ∧ Forall (λ cp, cp ∈ Js.white_space) l2
    ∧ text = Js.utf8 l1 ++ Js.trim text ++ Js.utf8 l2
    ∧ (∀ cp rest, cp ∈ Js.white_space →
                  Js.trim text ≠ Js.utf8_encode cp ++ rest)
    ∧ (∀ cp front, cp ∈ Js.white_space →
                   Js.trim text ≠ front ++ Js.utf8_encode cp).
Proof.
  unfold Js.trim, Js.trimEnd, Js.trimStart.
  destruct (strip_white_space_prefix false text) as (l1 & H1 & Ht).
  set (y := Js.strip_white_space false text) in *.
  destruct (strip_white_space_prefix true (String.rev y)) as (l2 & H2 & Hy).
  set (z := Js.strip_white_space true (String.rev y)) in *.
  assert (Hy' : y = String.rev z ++ Js.utf8 l2).
  { rewrite <- (string_rev_involutive y), Hy, string_rev_app.
    now rewrite string_rev_involutive. }
  exists l1, l2. split; [exact H1 |]. split; [exact H2 |].
  split; [now rewrite <- Hy' | split].
  - intros cp rest Hcp Heq.
    apply (strip_white_space_no_start false text cp (rest ++ Js.utf8 l2) Hcp).
    fold y. now rewrite Hy', Heq, string_app_assoc.
  - intros cp front Hcp Heq.
    apply (strip_white_space_no_start true (String.rev y) cp (String.rev front)
             Hcp).
    fold z. rewrite <- (string_rev_involutive z), Heq, string_rev_app. reflexivity.
Qed.

Lemma trim_blank (text : string) :
  Js.trim text = ""
  ↔ ∃ cps, Forall (λ cp, cp ∈ Js.white_space) cps ∧ text = Js.utf8 cps.
Proof.
  split.
  - intros Ht. destruct (trim_spec text) as (l1 & l2 & H1 & H2 & Heq & _).
    exists (l1 ++ l2)%list. split; [now apply Forall_app |].
    rewrite Ht in Heq. now rewrite utf8_app.
  - intros (cps & Hall & ->). unfold Js.trim, Js.trimStart.
    assert (Hs : Js.strip_white_space false (Js.utf8 cps) = "").
    { induction Hall as [| cp cps Hcp _ IH]; [reflexivity |].
      cbn [Js.utf8 foldr]. fold (Js.utf8 cps).
      now rewrite (white_space_stripped false cp _ Hcp). }
    now rewrite Hs.
Qed.

Example trim_no_break_space :
  Js.trim (Js.utf8 [0xA0; 0x20]%N ++ "hi there" ++ Js.utf8 [0x2028; 0xFEFF; 0xA0]%N)
  = "hi there".
Proof. reflexivity. Qed.

(** The send guard and the text that is sent (part_000 lines 1163-1169,
    App.js lines 1176-1199). A message is refused exactly when it consists
    of white space only (or is empty) or a send is in flight; a refused
    message leaves the chat state and the world as they are. Every other
    message is sent trimmed, as the body of one [POST /api/chat/send]; the
    input box is emptied and [sending] is false again when the handler
    ends. Trimmed means: the text is white space, the trimmed text, white
    space, and the trimmed text neither starts nor ends with a white-space
    code point. *)
Theorem blank_message_is_never_sent (astronautId text : string)
    (su : Unnamed.chat) (sf : Frontend.support_chat) (now : Z)
    (iso1 iso2 : string) (landed : option (list chat_exchange))
    (ans : reply chat_result) (w : world) :
  let outu := Unnamed.sendMessage astronautId su text now iso1 landed ans w in
  let outf := Frontend.sendMessage astronautId sf now iso1 iso2 landed ans w in
  let white (cps : list N) := Forall (λ cp, cp ∈ Js.white_space) cps in
  let blank (s : string) := ∃ cps, white cps ∧ s = Js.utf8 cps in
  (Unnamed.send_refused su text = true
   ↔ blank text ∨ Unnamed.sending su = true)
  ∧ (Frontend.send_refused sf = true
     ↔ blank (Frontend.message sf) ∨ Frontend.sending sf = true)
  ∧ (blank text ∨ Unnamed.sending su = true → outu = (w, Normal su))
  ∧ (blank (Frontend.message sf) ∨ Frontend.sending sf = true →
     outf = (w, Normal sf))
  ∧ (Unnamed.send_refused su text = false →
     requests_of (trace outu.1)
     = (requests_of (trace w)
        ++ [Unnamed.fetch_request w "/api/chat/send"
              (post (ChatBody astronautId (Js.trim text)))])%list
     ∧ ∃ st', outu.2 = Normal st' ∧ Unnamed.sending st' = false
              ∧ Unnamed.input st' = "")
  ∧ (Frontend.send_refused sf = false →
     requests_of (trace outf.1)
     = (requests_of (trace w)
        ++ [Frontend.fetch_request w "/api/chat/send"
              (post (ChatBody astronautId (Js.trim (Frontend.message sf))))])%list
     ∧ ∃ st', outf.2 = Normal st' ∧ Frontend.sending st' = false
              ∧ Frontend.message st' = "")
  ∧ (∀ s, ∃ l1 l2,
       white l1 ∧ white l2
       ∧ s = Js.utf8 l1 ++ Js.trim s ++ Js.utf8 l2
       ∧ (∀ cp rest, cp ∈ Js.white_space →
                     Js.trim s ≠ Js.utf8_encode cp ++ rest)
       ∧ (∀ cp front, cp ∈ Js.white_space →
                      Js.trim s ≠ front ++ Js.utf8_encode cp)).
Proof.
  cbv zeta.
  assert (Hguard : ∀ (s : string) (b : bool),
    negb (Js.truthy_string (Js.trim s)) || b = true
    ↔ (∃ cps, Forall (λ cp, cp ∈ Js.white_space) cps ∧ s = Js.utf8 cps)
      ∨ b = true).
  { intros s b. rewrite <- trim_blank, orb_true_iff.
    destruct (Js.trim s); cbn; split; intros [H | H]; auto; discriminate. }
  split; [apply Hguard |]. split; [apply Hguard |].
  split; [| split; [| split; [| split]]].
  - intros H. apply Hguard in H. unfold Unnamed.sendMessage, Unnamed.send_refused.
    now rewrite H.
  - intros H. apply Hguard in H. unfold Frontend.sendMessage, Frontend.send_refused.
    now rewrite H.
  - intros H. unfold Unnamed.sendMessage. rewrite H.
    unfold Unnamed.api_sendChat.
    destruct (unnamed_fetch_run "/api/chat/send"
                (post (ChatBody astronautId (Js.trim text))) ans w)
      as (w1 & r & E & R & _ & Hr).
    unfold try_catch, mbind, mret, M_bind, M_ret, St_bind, St_ret.
    rewrite E.
    destruct (payload_of ans) as [a |].
    + destruct Hr as (-> & _). cbn. split; [exact R |].
      eexists. split; [reflexivity |]. now destruct landed.
    + destruct Hr as (e & ->). cbn. split; [exact R |].
      eexists. split; [reflexivity |]. now destruct landed.
  - intros H. unfold Frontend.sendMessage. rewrite H.
    unfold Frontend.api_sendChat. run_M.
    destruct ans as [| s [a |]]; cbn; try destruct (ok s); cbn;
      rewrite ?requests_of_app; cbn; rewrite ?requests_of_app; cbn;
      rewrite ?app_nil_r; (split; [reflexivity |]);
      eexists; (split; [reflexivity |]); now destruct landed.
  - apply trim_spec.
Qed.

Lemma blank_message_is_never_sent_witness :
  Unnamed.sendMessage "AST-001" idle_chat blank_message 0 "t" None reply_hello
    w_fresh
  = (w_fresh, Normal idle_chat).
Proof.
  apply (blank_message_is_never_sent "AST-001" blank_message idle_chat
           idle_support 0 "t" "t" None reply_hello w_fresh).
  left. exists [0x20; 0xA0; 0x2028]%N. split; [| reflexivity].
  unfold Js.white_space. repeat constructor; in_closed_list.
Defined.

(** [AstraSupport.loadHistory] (part_000 lines 1147-1157) sends one
    request for the history of the astronaut and never throws. Only an
    answered object replaces the messages, with its [history] or the empty
    list when it has none; the input box and the sending flag are not
    touched. After a failed call, or an answer that is the JSON value
    [null], the chat is exactly as before. *)
Theorem loadHistory_outcomes (astronautId : string) (st : Unnamed.chat)
    (ans : reply (option history_result)) (w : world) :
  let out := Unnamed.loadHistory astronautId st ans w in
  requests_of (trace out.1)
  = (requests_of (trace w)
     ++ [Unnamed.fetch_request w ("/api/chat/history/" ++ astronautId)
           no_options])%list
  ∧ out.2 = Normal match payload_of ans with
                   | Some (Some r) =>
                       {| Unnamed.messages := Js.or_empty (history r);
                          Unnamed.input := Unnamed.input st;
                          Unnamed.sending := Unnamed.sending st |}
                   | _ => st
                   end.
Proof.
  cbv zeta. unfold Unnamed.loadHistory, Unnamed.api_getChatHistory.
  destruct (unnamed_fetch_run ("/api/chat/history/" ++ astronautId) no_options
              ans w) as (w1 & r & E & R & _ & Hr).
  unfold try_catch, read, raise, console_error, emit, mbind, mret, M_bind,
    M_ret, St_bind, St_ret.
  rewrite E.
  destruct (payload_of ans) as [[res |] |].
  - destruct Hr as (-> & _). cbn. split; [exact R | reflexivity].
  - destruct Hr as (-> & _). cbn. rewrite requests_of_app. cbn.
    now rewrite app_nil_r.
  - destruct Hr as (e & ->). cbn. rewrite requests_of_app. cbn.
    now rewrite app_nil_r.
Qed.

(** ** The risk level of [Dashboard] (App.js) *)

(** The risk level of App.js (lines 320-322) depends on the vitals only
    when the record carries a non-zero adjusted confidence: without one the
    level is 0 whatever stress and fatigue are. With one, the level is 2
    exactly when stress or fatigue is above 70, 1 exactly when both are at
    most 70 and stress is above 50, and 0 otherwise; the label shown is
    High, Elevated or Optimal accordingly. *)
Theorem riskLevel_needs_confidence (h : Health.record) :
  let confident :=
    truthy_number (Health.validation h ≫= Health.adjusted_confidence) in
  let level := Frontend.riskLevel (Some h) in
  (confident = false → level = 0 ∧ Frontend.risk_label (Some h) = Some "Optimal")
  ∧ (confident = true →
     (level = 2 ↔ (70 < Health.stress_level h)%Q ∨ (70 < Health.fatigue_level h)%Q)
     ∧ (level = 1 ↔ (Health.stress_level h <= 70)%Q
                    ∧ (Health.fatigue_level h <= 70)%Q
                    ∧ (50 < Health.stress_level h)%Q)
     ∧ (level = 0 ↔ (Health.stress_level h <= 50)%Q
                    ∧ (Health.fatigue_level h <= 70)%Q)
     ∧ (Frontend.risk_label (Some h) = Some "High" ↔ level = 2)).
Proof.
  cbv zeta. unfold Frontend.risk_label, Frontend.riskLevel.
  split; [intros ->; now split |]. intros ->.
  pose proof (gt_spec (Health.stress_level h) 70) as Hs70.
  pose proof (gt_spec (Health.fatigue_level h) 70) as Hf70.
  pose proof (gt_spec (Health.stress_level h) 50) as Hs50.
  destruct (gt (Health.stress_level h) 70) eqn:E1;
    destruct (gt (Health.fatigue_level h) 70) eqn:E2;
    destruct (gt (Health.stress_level h) 50) eqn:E3; cbn;
    repeat match goal with
           | H : true = true ↔ _ |- _ => apply proj1 in H; specialize (H eq_refl)
           | H : false = true ↔ _ |- _ =>
               apply proj2 in H;
               assert (¬ _) by (intros Hc; apply H in Hc; discriminate Hc);
               clear H
           end;
    repeat split; try discriminate; try (intros; lia); intros;
    try (exfalso; lra); try lra; auto.
Qed.

Lemma riskLevel_needs_confidence_witness :
  Frontend.riskLevel (Some strained_vitals) = 0
  ∧ Frontend.risk_label (Some strained_vitals) = Some "Optimal".
Proof.
  exact (proj1 (riskLevel_needs_confidence strained_vitals) eq_refl).
Defined.
